(** * check_opnsense_stats.py: a shallow embedding and its properties

    The monitoring probe [check_opnsense_stats.py] queries two endpoints of an
    OPNsense firewall, classifies CPU load, memory usage and disk usage
    against warning and critical thresholds, prints its report and exits with
    the overall severity.

    The development has four parts:
    - [PyStr], [PyNum]: the fragment of the Python runtime the probe relies
      on (string methods, [float], [int], number formatting), written as
      executable functions;
    - [PyVal]: decoded JSON documents and the dynamic operations on them,
      with the exception each one raises;
    - the probe itself ([check_threshold], [make_api_call], [main]), as
      statements over its local variables and its standard output;
    - the outcome of each section of [main] as a function of the response,
      and the properties of the probe. *)

From Stdlib Require Import ZArith String Ascii List Bool Lia DecimalString.
From Stdlib Require Import Floats.SpecFloat.
From stdpp Require Import gmap strings.

Set Warnings "-register-all".

Local Open Scope string_scope.
Local Open Scope Z_scope.

(** [++] is kept for lists; strings are appended with [+:+]. *)
Disable Notation "x ++ y" : string_scope.

(** ** Python strings

    A Python [str] is modelled by a Rocq [string] whose characters are the
    code points of the text; the model therefore covers the strings made of
    code points below 256. *)

Module PyStr.

Definition code (c : ascii) : Z := Z.of_N (N_of_ascii c).

(** [str.isspace] on one character (code points below 256). *)
Definition isspace (c : ascii) : bool :=
  let n := code c in
  ((9 <=? n) && (n <=? 13)) || ((28 <=? n) && (n <=? 32))
  || (n =? 133) || (n =? 160).

(** The C-level [Py_ISSPACE], used by the number parsers. *)
Definition c_isspace (c : ascii) : bool :=
  let n := code c in
  ((9 <=? n) && (n <=? 13)) || (n =? 32).

Definition isdigit (c : ascii) : bool :=
  let n := code c in (48 <=? n) && (n <=? 57).

Definition digit_val (c : ascii) : Z := code c - 48.

Fixpoint lstrip (p : ascii -> bool) (s : string) : string :=
  match s with
  | String c s' => if p c then lstrip p s' else s
  | EmptyString => EmptyString
  end.

Fixpoint rstrip (p : ascii -> bool) (s : string) : string :=
  match s with
  | EmptyString => EmptyString
  | String c s' =>
      match rstrip p s' with
      | EmptyString => if p c then EmptyString else String c EmptyString
      | r => String c r
      end
  end.

(** [s.strip()] is [strip isspace s]; [s.strip('_')] is
    [strip (Ascii.eqb "_") s]. *)
Definition strip (p : ascii -> bool) (s : string) : string :=
  rstrip p (lstrip p s).

(** [s.split(sep)] for a one-character separator: never empty. *)
Fixpoint split (sep : ascii) (s : string) : list string :=
  match s with
  | EmptyString => [EmptyString]
  | String c s' =>
      if Ascii.eqb c sep then EmptyString :: split sep s'
      else match split sep s' with
           | w :: ws => String c w :: ws
           | [] => [String c EmptyString]
           end
  end.

(** [s.replace(a, b)] for one-character [a] and [b]. *)
Fixpoint replace (a b : ascii) (s : string) : string :=
  match s with
  | EmptyString => EmptyString
  | String c s' => String (if Ascii.eqb c a then b else c) (replace a b s')
  end.

(** [s.startswith(p)], and [s.startswith((p1, ..., pn))]. *)
Definition startswith (s p : string) : bool := String.prefix p s.

Definition startswith_any (s : string) (ps : list string) : bool :=
  existsb (startswith s) ps.

(** [sep.join(l)]. *)
Definition join (sep : string) (l : list string) : string :=
  String.concat sep l.

Fixpoint map (f : ascii -> ascii) (s : string) : string :=
  match s with
  | EmptyString => EmptyString
  | String c s' => String (f c) (map f s')
  end.

Fixpoint repeat (c : ascii) (n : nat) : string :=
  match n with
  | O => EmptyString
  | S n' => String c (repeat c n')
  end.

(** [str(t)] for a tuple of at least two strings that need no escaping. *)
Definition repr_str_tuple (l : list string) : string :=
  "(" +:+ join ", " (List.map (fun s => "'" +:+ s +:+ "'") l) +:+ ")".

End PyStr.

(** ** Python numbers

    A Python [float] is an IEEE 754 binary64 number: [spec_float] at
    precision 53 and maximal exponent 1024.  A Python [int] is a [Z]. *)

Module PyNum.

Abbreviation float := spec_float.

Definition prec : Z := 53.
Definition emax : Z := 1024.

(** [str(n)] for an int. *)
Definition Z_to_string (z : Z) : string :=
  NilZero.string_of_int (Z.to_int z).

(** The binary64 nearest to the integer [z], ties to even; infinite when
    [z] is out of range. *)
Definition float_of_Z (z : Z) : float := binary_normalize prec emax z 0 false.

(** The binary64 nearest to [n/d] (with the sign [neg]), ties to even. *)
Definition float_of_ratio (neg : bool) (n d : positive) : float :=
  SFdiv prec emax (S754_finite neg n 0) (S754_finite false d 0).

(** The binary64 nearest to [M * 10^E], for [0 <= M]. *)
Definition float_of_decimal (neg : bool) (M E : Z) : float :=
  match M with
  | Zpos m =>
      if 0 <=? E then float_of_ratio neg (m * Z.to_pos (10 ^ E)) 1
      else float_of_ratio neg m (Z.to_pos (10 ^ (- E)))
  | _ => S754_zero neg
  end.

Definition fmul (x y : float) : float := SFmul prec emax x y.

(** *** Comparison

    Python compares an int with a float by their exact values. *)

Definition float_compare_Z (x : float) (z : Z) : option comparison :=
  match x with
  | S754_nan => None
  | S754_infinity neg => Some (if neg then Lt else Gt)
  | S754_zero _ => Some (0 ?= z)
  | S754_finite neg m e =>
      let v := cond_Zopp neg (Zpos m) in
      Some (if 0 <=? e then v * 2 ^ e ?= z else v ?= z * 2 ^ (- e))
  end.

(** *** Parsing: [float(s)] and [int(s)] on a string *)

Definition lower (c : ascii) : ascii :=
  let n := PyStr.code c in
  if (65 <=? n) && (n <=? 90) then ascii_of_N (Z.to_N (n + 32)) else c.

(** Whitespace above the ASCII range is first turned into a space. *)
Definition to_ascii_space (c : ascii) : ascii :=
  let n := PyStr.code c in
  if (n =? 133) || (n =? 160) then " "%char else c.

(** An underscore is accepted only between two digits, and is dropped. *)
Fixpoint drop_underscores (prev : option ascii) (s : string) : option string :=
  match s with
  | EmptyString => Some EmptyString
  | String c s' =>
      if Ascii.eqb c "_" then
        match prev, s' with
        | Some p, String n _ =>
            if PyStr.isdigit p && PyStr.isdigit n
            then drop_underscores (Some c) s' else None
        | _, _ => None
        end
      else option_map (String c) (drop_underscores (Some c) s')
  end.

Definition number_text (s : string) : option string :=
  option_map (PyStr.strip PyStr.c_isspace)
             (drop_underscores None (PyStr.map to_ascii_space s)).

Definition split_sign (s : string) : bool * string :=
  match s with
  | String "-" r => (true, r)
  | String "+" r => (false, r)
  | _ => (false, s)
  end.

Fixpoint span_digits (s : string) : list Z * string :=
  match s with
  | String c s' =>
      if PyStr.isdigit c
      then let '(ds, r) := span_digits s' in (PyStr.digit_val c :: ds, r)
      else ([], s)
  | EmptyString => ([], EmptyString)
  end.

Definition digits_value (ds : list Z) : Z :=
  fold_left (fun acc d => 10 * acc + d) ds 0.

(** The exponent part, which must reach the end of the text. *)
Definition parse_exponent (s : string) : option Z :=
  match s with
  | EmptyString => Some 0
  | String c r =>
      if Ascii.eqb (lower c) "e" then
        let '(neg, r1) := split_sign r in
        match span_digits r1 with
        | ((_ :: _) as ds, EmptyString) => Some (cond_Zopp neg (digits_value ds))
        | _ => None
        end
      else None
  end.

(** [digits [. digits] [exponent]] or [. digits [exponent]], as the pair
    [(M, E)] standing for [M * 10^E]. *)
Definition parse_decimal (s : string) : option (Z * Z) :=
  let '(ip, r1) := span_digits s in
  let '(fp, r2) :=
    match r1 with
    | String "." r' => span_digits r'
    | _ => ([], r1)
    end in
  match ip ++ fp with
  | [] => None
  | ds =>
      match parse_exponent r2 with
      | Some e => Some (digits_value ds, e - Z.of_nat (length fp))
      | None => None
      end
  end.

(** [float(s)]: [None] stands for [ValueError]. *)
Definition float_of_string (s : string) : option float :=
  match number_text s with
  | None => None
  | Some t =>
      let '(neg, body) := split_sign t in
      match parse_decimal body with
      | Some (M, E) => Some (float_of_decimal neg M E)
      | None =>
          let l := PyStr.map lower body in
          if String.eqb l "inf" || String.eqb l "infinity"
          then Some (S754_infinity neg)
          else if String.eqb l "nan" then Some S754_nan
          else None
      end
  end.

(** The interpreter's default limit on the digits of a decimal string
    converted to an int. *)
Definition int_max_str_digits : Z := 4300.

(** [int(s)]: [None] stands for [ValueError]. *)
Definition int_of_string (s : string) : option Z :=
  match number_text s with
  | None => None
  | Some t =>
      let '(neg, body) := split_sign t in
      match span_digits body with
      | ((_ :: _) as ds, EmptyString) =>
          if Z.of_nat (length ds) <=? int_max_str_digits
          then Some (cond_Zopp neg (digits_value ds)) else None
      | _ => None
      end
  end.

(** *** Formatting *)

Definition sign_str (neg : bool) : string := if neg then "-" else "".

Definition zfill (w : nat) (s : string) : string :=
  PyStr.repeat "0" (w - String.length s) +:+ s.

(** [n/d] rounded to the nearest integer, ties to even ([0 <= n], [0 < d]). *)
Definition div_half_even (n d : Z) : Z :=
  let q := n / d in
  match 2 * (n mod d) ?= d with
  | Lt => q
  | Gt => q + 1
  | Eq => if Z.even q then q else q + 1
  end.

(** The exact value of a finite float, as a fraction. *)
Definition ratio_of_finite (m : positive) (e : Z) : Z * Z :=
  if 0 <=? e then (Zpos m * 2 ^ e, 1) else (Zpos m, 2 ^ (- e)).

Definition fixed_text (p : nat) (k : Z) : string :=
  let scale := 10 ^ Z.of_nat p in
  Z_to_string (k / scale) +:+
  match p with
  | O => ""
  | _ => "." +:+ zfill p (Z_to_string (k mod scale))
  end.

(** [format(x, '.<p>f')]: the exact value rounded to [p] decimals, ties to
    even. *)
Definition format_fixed (p : nat) (x : float) : string :=
  match x with
  | S754_nan => "nan"
  | S754_infinity neg => sign_str neg +:+ "inf"
  | S754_zero neg => sign_str neg +:+ fixed_text p 0
  | S754_finite neg m e =>
      let '(n, d) := ratio_of_finite m e in
      sign_str neg +:+ fixed_text p (div_half_even (n * 10 ^ Z.of_nat p) d)
  end.

(** *** [repr(x)] and [str(x)] for a float: the shortest decimal that reads
    back as [x] *)

(** [10^k <= n/d] *)
Definition pow10_le (k n d : Z) : bool :=
  if 0 <=? k then 10 ^ k * d <=? n else d <=? n * 10 ^ (- k).

(** The decimal exponent [k] of [n/d]: [10^k <= n/d < 10^(k+1)]. *)
Definition decimal_exponent (n d : Z) : Z :=
  let est := ((Z.log2 n - Z.log2 d) * 30103) / 100000 in
  if pow10_le (est + 1) n d then est + 1
  else if pow10_le est n d then est
  else est - 1.

(** [(n/d) / 10^q] as a fraction. *)
Definition scale10 (q n d : Z) : Z * Z :=
  if 0 <=? q then (n, d * 10 ^ q) else (n * 10 ^ (- q), d).

Definition reads_back (x : float) (c q : Z) : bool :=
  SFeqb (float_of_decimal false c q) x.

(** The decimals with [p] significant digits on either side of [x = n/d]
    are tried for [p = 1, 2, ...]; the first that reads back as [x] is
    returned as [(c, q)], standing for [c * 10^q]. *)
Fixpoint shortest_decimal (fuel : nat) (p : Z) (x : float) (n d k : Z) : Z * Z :=
  let q := k - p + 1 in
  let '(n', d') := scale10 q n d in
  let lo := n' / d' in
  let hi := lo + 1 in
  let nearest := div_half_even n' d' in
  match fuel with
  | O => (nearest, q)
  | S fuel' =>
      match reads_back x lo q, reads_back x hi q with
      | true, true => (nearest, q)
      | true, false => (lo, q)
      | false, true => (hi, q)
      | false, false => shortest_decimal fuel' (p + 1) x n d k
      end
  end.

Definition rstrip_zeros (s : string) : string :=
  PyStr.rstrip (Ascii.eqb "0") s.

(** The digits [ds] with the decimal point after the first [decpt] of them. *)
Definition repr_layout (ds : string) (decpt : Z) : string :=
  let nd := Z.of_nat (String.length ds) in
  if (decpt <=? -4) || (16 <? decpt) then
    let e := decpt - 1 in
    match ds with
    | String c EmptyString => ds
    | String c r => String c ("." +:+ r)
    | EmptyString => ds
    end +:+ "e" +:+ (if e <? 0 then "-" else "+") +:+ zfill 2 (Z_to_string (Z.abs e))
  else if decpt <=? 0 then
    "0." +:+ PyStr.repeat "0" (Z.to_nat (- decpt)) +:+ ds
  else if decpt <? nd then
    substring 0 (Z.to_nat decpt) ds +:+ "." +:+
    substring (Z.to_nat decpt) (Z.to_nat (nd - decpt)) ds
  else ds +:+ PyStr.repeat "0" (Z.to_nat (decpt - nd)) +:+ ".0".

Definition float_repr (x : float) : string :=
  match x with
  | S754_nan => "nan"
  | S754_infinity neg => sign_str neg +:+ "inf"
  | S754_zero neg => sign_str neg +:+ "0.0"
  | S754_finite neg m e =>
      let '(n, d) := ratio_of_finite m e in
      let '(c, q) := shortest_decimal 16 1 (SFabs x) n d (decimal_exponent n d) in
      let all := Z_to_string c in
      sign_str neg +:+
      repr_layout (rstrip_zeros all) (Z.of_nat (String.length all) + q)
  end.

(** *** Numbers that are an int or a float

    A threshold is a float when it was given on the command line and keeps
    the type of its default otherwise, so both occur. *)

Inductive num :=
| NInt (z : Z)
| NFloat (x : float).

Definition num_compare (a b : num) : option comparison :=
  match a, b with
  | NInt x, NInt y => Some (x ?= y)
  | NFloat x, NFloat y => SFcompare x y
  | NFloat x, NInt y => float_compare_Z x y
  | NInt x, NFloat y => option_map CompOpp (float_compare_Z y x)
  end.

(** [a >= b]: false when either side is a NaN. *)
Definition num_ge (a b : num) : bool :=
  match num_compare a b with
  | Some Gt | Some Eq => true
  | _ => false
  end.

(** [str(a)], which is what [f"{a}"] inserts. *)
Definition num_str (a : num) : string :=
  match a with
  | NInt z => Z_to_string z
  | NFloat x => float_repr x
  end.

End PyNum.

(** ** Python values and the operations the probe applies to them

    Each operation is the Python one on the values a decoded JSON document
    is made of, with the exception it raises where Python raises. *)

Module PyVal.

Import PyNum.

(** The exceptions these operations raise. *)
Inductive exn :=
| KeyError
| IndexError
| ValueError
| TypeError
| AttributeError
| OverflowError
| ZeroDivisionError.

Definition exn_eqb (a b : exn) : bool :=
  match a, b with
  | KeyError, KeyError | IndexError, IndexError | ValueError, ValueError
  | TypeError, TypeError | AttributeError, AttributeError
  | OverflowError, OverflowError | ZeroDivisionError, ZeroDivisionError => true
  | _, _ => false
  end.

(** The result of evaluating an expression: a value or a raised exception. *)
Inductive res (A : Type) :=
| Val (a : A)
| Raise (e : exn).

Arguments Val {A} a.
Arguments Raise {A} e.

Definition res_bind {A B} (r : res A) (k : A -> res B) : res B :=
  match r with
  | Val a => k a
  | Raise e => Raise e
  end.

(** A list comprehension whose element expression may raise: elements are
    evaluated from left to right and the first exception ends it. *)
Fixpoint res_map {A B} (f : A -> res B) (l : list A) : res (list B) :=
  match l with
  | [] => Val []
  | a :: l' =>
      res_bind (f a) (fun b => res_bind (res_map f l') (fun bs => Val (b :: bs)))
  end.

(** What [response.json()] returns: a decoded JSON document.  An object is
    a finite map from its keys to its values; the order of its members,
    which no outcome of the probe depends on, is not kept. *)
Inductive pyval :=
| PNone
| PBool (b : bool)
| PInt (z : Z)
| PFloat (x : float)
| PStr (s : string)
| PList (l : list pyval)
| PDict (d : gmap string pyval).

(** [o.get(k, dflt)]: only a dict has [get]. *)
Definition dict_get (o : pyval) (k : string) (dflt : pyval) : res pyval :=
  match o with
  | PDict d => Val (default dflt (d !! k))
  | _ => Raise AttributeError
  end.

(** [o[k]] for a string [k]. *)
Definition getitem (o : pyval) (k : string) : res pyval :=
  match o with
  | PDict d =>
      match d !! k with
      | Some v => Val v
      | None => Raise KeyError
      end
  | _ => Raise TypeError
  end.

(** [l[i]] on a list. *)
Definition list_getitem {A} (l : list A) (i : nat) : res A :=
  match l !! i with
  | Some a => Val a
  | None => Raise IndexError
  end.

(** [o.split(sep)]: only a str has [split]. *)
Definition str_split (o : pyval) (sep : ascii) : res (list string) :=
  match o with
  | PStr s => Val (PyStr.split sep s)
  | _ => Raise AttributeError
  end.

Definition is_infinity (x : float) : bool :=
  match x with
  | S754_infinity _ => true
  | _ => false
  end.

(** [float(o)] *)
Definition py_float (o : pyval) : res float :=
  match o with
  | PFloat x => Val x
  | PInt z =>
      let x := float_of_Z z in
      if is_infinity x then Raise OverflowError else Val x
  | PBool b => Val (float_of_Z (if b then 1 else 0))
  | PStr s =>
      match float_of_string s with
      | Some x => Val x
      | None => Raise ValueError
      end
  | PNone | PList _ | PDict _ => Raise TypeError
  end.

(** [int(o)]: a float is truncated towards zero. *)
Definition py_int (o : pyval) : res Z :=
  match o with
  | PInt z => Val z
  | PBool b => Val (if b then 1 else 0)
  | PFloat S754_nan => Raise ValueError
  | PFloat (S754_infinity _) => Raise OverflowError
  | PFloat (S754_zero _) => Val 0
  | PFloat (S754_finite neg m e) =>
      Val (cond_Zopp neg (if 0 <=? e then Zpos m * 2 ^ e else Zpos m / 2 ^ (- e)))
  | PStr s =>
      match int_of_string s with
      | Some z => Val z
      | None => Raise ValueError
      end
  | PNone | PList _ | PDict _ => Raise TypeError
  end.

(** [a / b] on two ints: the float nearest to the exact quotient. *)
Definition int_truediv (a b : Z) : res float :=
  match a, b with
  | _, Z0 => Raise ZeroDivisionError
  | Z0, _ => Val (S754_zero (b <? 0))
  | _, _ =>
      let x := float_of_ratio (xorb (a <? 0) (b <? 0))
                              (Z.to_pos (Z.abs a)) (Z.to_pos (Z.abs b)) in
      if is_infinity x then Raise OverflowError else Val x
  end.

(** The elements a [for] loop or a comprehension draws from [o].  A dict
    yields its keys and a str its characters; the order of the keys plays no
    role in the probe, whose loop bodies raise on any str element. *)
Definition py_iter (o : pyval) : res (list pyval) :=
  match o with
  | PList l => Val l
  | PDict d => Val (List.map (fun kv => PStr (fst kv)) (map_to_list d))
  | PStr s =>
      Val (List.map (fun c => PStr (String c EmptyString)) (list_ascii_of_string s))
  | _ => Raise TypeError
  end.

(** Truth value of [o] in a condition. *)
Definition truthy (o : pyval) : bool :=
  match o with
  | PNone => false
  | PBool b => b
  | PInt z => negb (z =? 0)
  | PFloat (S754_zero _) => false
  | PFloat _ => true
  | PStr s => negb (String.eqb s "")
  | PList l => match l with [] => false | _ => true end
  | PDict d => negb (bool_decide (dom d = ∅))
  end.

(** [o in t] for a tuple [t] of strings: only a str equals a member, and
    that str is returned. *)
Definition str_in (o : pyval) (t : list string) : option string :=
  match o with
  | PStr s => if existsb (String.eqb s) t then Some s else None
  | _ => None
  end.

(** [o.startswith(t)] for a tuple [t] of strings: only a str has
    [startswith]. *)
Definition py_startswith (o : pyval) (t : list string) : res bool :=
  match o with
  | PStr s => Val (PyStr.startswith_any s t)
  | _ => Raise AttributeError
  end.

(** [sep.join(l)]: every element has to be a str. *)
Definition py_join (sep : string) (l : list pyval) : res string :=
  res_bind (res_map (fun o => match o with PStr s => Val s | _ => Raise TypeError end) l)
           (fun ss => Val (PyStr.join sep ss)).

End PyVal.

(** ** The process: state, output and control

    [main] is a sequence of statements over a handful of local variables
    and the process's standard output.  A statement maps a [state] to a new
    state and a [signal]: it returns a value, raises an exception or calls
    [sys.exit].  An exception keeps the assignments made before it, as in
    Python.  The output is kept as the sequence of the texts given to
    [print]. *)

Import PyNum PyVal.

Record state := {
  overall_status : Z;
  message_parts : list string;
  perfdata_parts : list string;
  processed_filesystems : Z;
  available_mounts : list string;
  stdout : list string;          (* the texts given to [print] so far, one for each call *)
  requested : list string        (* the URLs requested so far *)
}.

Definition initial_state : state :=
  {| overall_status := 0; message_parts := []; perfdata_parts := [];
     processed_filesystems := 0; available_mounts := [];
     stdout := []; requested := [] |}.

Inductive signal (A : Type) :=
| Ret (a : A)
| Exc (e : exn)
| SysExit (code : Z).

Arguments Ret {A} a.
Arguments Exc {A} e.
Arguments SysExit {A} code.

Definition M (A : Type) : Type := state -> signal A * state.

Definition ret {A} (a : A) : M A := fun st => (Ret a, st).

Definition bind {A B} (c : M A) (k : A -> M B) : M B :=
  fun st =>
    match c st with
    | (Ret a, st') => k a st'
    | (Exc e, st') => (Exc e, st')
    | (SysExit n, st') => (SysExit n, st')
    end.

Notation "'do' x <- c ; k" := (bind c (fun x => k))
  (at level 10, x name, c at level 100, k at level 200,
   format "'[v' 'do'  x  <-  c ; '/' k ']'").
Notation "'exec' c ; k" := (bind c (fun _ => k))
  (at level 10, c at level 100, k at level 200,
   format "'[v' 'exec'  c ; '/' k ']'").

(** An expression evaluated inside a statement. *)
Definition eval {A} (r : res A) : M A :=
  fun st =>
    match r with
    | Val a => (Ret a, st)
    | Raise e => (Exc e, st)
    end.

Definition get {A} (f : state -> A) : M A := fun st => (Ret (f st), st).

Definition modify (f : state -> state) : M unit := fun st => (Ret tt, f st).

(** [sys.exit(n)] raises [SystemExit], which no handler of the probe
    catches. *)
Definition sys_exit {A} (n : Z) : M A := fun st => (SysExit n, st).

(** [try: body / except (classes): handler] *)
Definition try_except (body : M unit) (classes : list exn) (handler : M unit) : M unit :=
  fun st =>
    match body st with
    | (Exc e, st') =>
        if existsb (exn_eqb e) classes then handler st' else (Exc e, st')
    | r => r
    end.

(** [for x in l: body x] *)
Fixpoint for_each {A} (body : A -> M unit) (l : list A) : M unit :=
  match l with
  | [] => ret tt
  | x :: l' => exec body x; for_each body l'
  end.

(** The assignments of [main]. *)
Definition set_overall_status (v : Z) : M unit :=
  modify (fun st =>
    {| overall_status := v; message_parts := message_parts st;
       perfdata_parts := perfdata_parts st;
       processed_filesystems := processed_filesystems st;
       available_mounts := available_mounts st;
       stdout := stdout st; requested := requested st |}).

Definition message_parts_append (s : string) : M unit :=
  modify (fun st =>
    {| overall_status := overall_status st;
       message_parts := message_parts st ++ [s];
       perfdata_parts := perfdata_parts st;
       processed_filesystems := processed_filesystems st;
       available_mounts := available_mounts st;
       stdout := stdout st; requested := requested st |}).

Definition perfdata_parts_append (s : string) : M unit :=
  modify (fun st =>
    {| overall_status := overall_status st;
       message_parts := message_parts st;
       perfdata_parts := perfdata_parts st ++ [s];
       processed_filesystems := processed_filesystems st;
       available_mounts := available_mounts st;
       stdout := stdout st; requested := requested st |}).

Definition set_processed_filesystems (v : Z) : M unit :=
  modify (fun st =>
    {| overall_status := overall_status st;
       message_parts := message_parts st;
       perfdata_parts := perfdata_parts st;
       processed_filesystems := v;
       available_mounts := available_mounts st;
       stdout := stdout st; requested := requested st |}).

Definition set_available_mounts (v : list string) : M unit :=
  modify (fun st =>
    {| overall_status := overall_status st;
       message_parts := message_parts st;
       perfdata_parts := perfdata_parts st;
       processed_filesystems := processed_filesystems st;
       available_mounts := v;
       stdout := stdout st; requested := requested st |}).

(** [print(text)] writes [text] and a newline to standard output.  The
    call is recorded with its text, which may itself hold newlines:
    [written] below gives the characters that reach standard output.
    Standard output is taken to be a UTF-8 stream, which encodes every
    string of the model (code points below 256), so the call does not raise
    here; on a text with a lone surrogate, which the model does not have,
    Python raises [UnicodeEncodeError]. *)
Definition print (text : string) : M unit :=
  modify (fun st =>
    {| overall_status := overall_status st;
       message_parts := message_parts st;
       perfdata_parts := perfdata_parts st;
       processed_filesystems := processed_filesystems st;
       available_mounts := available_mounts st;
       stdout := stdout st ++ [text]; requested := requested st |}).

(** *** The HTTP exchange

    What happens inside the [try] of [make_api_call] is decided by the
    network and the firewall.  It is given by a [server]: for each URL and
    credentials, either the decoded body or the exception raised by
    [requests.get], [raise_for_status] or [response.json], sorted by the
    handler that catches it. *)

Inductive api_failure :=
| RequestException (is_timeout : bool) (e : string)
    (* a [requests.exceptions.RequestException]: connection error,
       timeout, HTTP error status; [e] is its text *)
| JSONDecodeError (response_text : string)
    (* a [json.JSONDecodeError] that is no [RequestException] *)
| OtherException (e : string).
    (* any other [Exception] *)

Inductive api_reply :=
| Body (v : pyval)
| Failure (f : api_failure).

Definition server : Type := string -> string * string -> api_reply.

Definition requests_get (srv : server) (url : string) (auth : string * string) : M api_reply :=
  fun st =>
    (Ret (srv url auth),
     {| overall_status := overall_status st;
        message_parts := message_parts st;
        perfdata_parts := perfdata_parts st;
        processed_filesystems := processed_filesystems st;
        available_mounts := available_mounts st;
        stdout := stdout st; requested := requested st ++ [url] |}).

(** ** The probe *)

(** *** Configuration *)

Definition DEFAULT_CPU_WARN : num := NFloat (float_of_Z 5).
Definition DEFAULT_CPU_CRIT : num := NFloat (float_of_Z 10).
Definition DEFAULT_MEM_WARN : num := NInt 75.
Definition DEFAULT_MEM_CRIT : num := NInt 90.
Definition DEFAULT_DISK_WARN : num := NInt 80.
Definition DEFAULT_DISK_CRIT : num := NInt 95.

Definition API_SYSTEM_RESOURCES : string := "/api/diagnostics/system/system_resources".
Definition API_SYSTEM_DISK : string := "/api/diagnostics/system/system_disk".

Definition PRIMARY_MOUNT_POINTS : list string :=
  ["/"; "/usr"; "/var"; "/home"; "/cf"; "/var/log"].

(** The namespace [parse_args] returns.  [argparse] turns a threshold given
    on the command line into a float and leaves a default as it is written
    in the source. *)
Record Args := {
  host : string;
  key : string;
  secret : string;
  port : Z;
  cpu_warn : num;
  cpu_crit : num;
  mem_warn : num;
  mem_crit : num;
  disk_warn : num;
  disk_crit : num
}.

(** The namespace for a command line with the three required options only. *)
Definition default_args (h k s : string) : Args :=
  {| host := h; key := k; secret := s; port := 443;
     cpu_warn := DEFAULT_CPU_WARN; cpu_crit := DEFAULT_CPU_CRIT;
     mem_warn := DEFAULT_MEM_WARN; mem_crit := DEFAULT_MEM_CRIT;
     disk_warn := DEFAULT_DISK_WARN; disk_crit := DEFAULT_DISK_CRIT |}.

(** *** [make_api_call] *)

Definition TIMEOUT : Z := 15.

Definition make_api_call (srv : server) (host : string) (port : Z)
    (key secret endpoint : string) : M pyval :=
  let url := "https://" +:+ host +:+ ":" +:+ Z_to_string port +:+ endpoint in
  do r <- requests_get srv url (key, secret);
  match r with
  | Body v => ret v
  | Failure (RequestException is_timeout e) =>
      exec (if is_timeout
            then print ("UNKNOWN - API call timed out after " +:+ Z_to_string TIMEOUT
                        +:+ " seconds for " +:+ endpoint
                        +:+ ". Check network connectivity and OPNsense load.")
            else print ("UNKNOWN - API call failed to " +:+ endpoint +:+ ": " +:+ e));
      sys_exit 3
  | Failure (JSONDecodeError text) =>
      exec print ("UNKNOWN - Failed to decode JSON response from " +:+ endpoint
                  +:+ ": " +:+ substring 0 100 text
                  +:+ "... Is the API key/secret correct?");
      sys_exit 3
  | Failure (OtherException e) =>
      exec print ("UNKNOWN - An unexpected error occurred during API call to "
                  +:+ endpoint +:+ ": " +:+ e);
      sys_exit 3
  end.

(** *** [check_threshold] *)

Definition check_threshold (value warn crit : num) : Z * string :=
  if num_ge value crit then (2, "CRITICAL")
  else if num_ge value warn then (1, "WARNING")
  else (0, "OK").

(** *** [main], section by section *)

(** CPU load, lines 114-127. *)
Definition cpu_load_check (args : Args) (sys_data : pyval) : M unit :=
  try_except
    (do load_avg_str <- eval (dict_get sys_data "load_average" (PStr "0.0,0.0,0.0"));
     do parts <- eval (str_split load_avg_str ",");
     do load_avg <- eval (res_map (fun x => py_float (PStr (PyStr.strip PyStr.isspace x))) parts);
     do cpu_load_1min <- eval (list_getitem load_avg 0);
     let '(cpu_status, cpu_status_str) :=
       check_threshold (NFloat cpu_load_1min) (cpu_warn args) (cpu_crit args) in
     do overall <- get overall_status;
     exec set_overall_status (Z.max overall cpu_status);
     exec message_parts_append
       ("CPU Load 1-min: " +:+ format_fixed 2 cpu_load_1min +:+ " (" +:+ cpu_status_str +:+ ")");
     perfdata_parts_append
       ("'cpu_load_1min'=" +:+ format_fixed 2 cpu_load_1min +:+ ";"
        +:+ num_str (cpu_warn args) +:+ ";" +:+ num_str (cpu_crit args) +:+ ";0.0;"))
    [KeyError; IndexError; ValueError]
    (exec message_parts_append "CPU Load data UNAVAILABLE";
     do overall <- get overall_status;
     set_overall_status (Z.max overall 3)).

(** Memory usage, lines 130-151. *)
Definition memory_check (args : Args) (sys_data : pyval) : M unit :=
  try_except
    (do memory <- eval (getitem sys_data "memory");
     do total <- eval (getitem memory "total");
     do mem_total <- eval (py_int total);
     do memory' <- eval (getitem sys_data "memory");
     do used <- eval (getitem memory' "used");
     do mem_used <- eval (py_int used);
     if 0 <? mem_total then
       do ratio <- eval (int_truediv mem_used mem_total);
       let mem_usage_pct := fmul ratio (float_of_Z 100) in
       let '(mem_status, mem_status_str) :=
         check_threshold (NFloat mem_usage_pct) (mem_warn args) (mem_crit args) in
       do overall <- get overall_status;
       exec set_overall_status (Z.max overall mem_status);
       exec message_parts_append
         ("Memory: " +:+ format_fixed 1 mem_usage_pct +:+ "% (" +:+ mem_status_str +:+ ")");
       exec perfdata_parts_append
         ("'mem_usage_pct'=" +:+ format_fixed 1 mem_usage_pct +:+ "%;"
          +:+ num_str (mem_warn args) +:+ ";" +:+ num_str (mem_crit args) +:+ ";0;100");
       exec perfdata_parts_append ("'mem_used_bytes'=" +:+ Z_to_string mem_used +:+ "B");
       perfdata_parts_append ("'mem_total_bytes'=" +:+ Z_to_string mem_total +:+ "B")
     else
       exec message_parts_append "Memory data UNAVAILABLE (Total=0)";
       do overall <- get overall_status;
       set_overall_status (Z.max overall 3))
    [KeyError; ValueError]
    (exec message_parts_append "Memory data UNAVAILABLE";
     do overall <- get overall_status;
     set_overall_status (Z.max overall 3)).

(** [mountpoint.replace('/', '_').strip('_') or 'root'] *)
Definition perfdata_label_of (mountpoint : string) : string :=
  let l := PyStr.strip (Ascii.eqb "_") (PyStr.replace "/" "_" mountpoint) in
  if String.eqb l "" then "root" else l.

(** The body of the loop over the devices, lines 163-192. *)
Definition disk_device_check (args : Args) (fs : pyval) : M unit :=
  do mountpoint <- eval (dict_get fs "mountpoint" PNone);
  match str_in mountpoint PRIMARY_MOUNT_POINTS with
  | Some mountpoint =>
      do mounts <- get available_mounts;
      exec set_available_mounts (mounts ++ [mountpoint]);
      try_except
        (do used_pct <- eval (dict_get fs "used_pct" (PInt 0));
         do disk_capacity_pct <- eval (py_float used_pct);
         let '(disk_status, disk_status_str) :=
           check_threshold (NFloat disk_capacity_pct) (disk_warn args) (disk_crit args) in
         do overall <- get overall_status;
         exec set_overall_status (Z.max overall disk_status);
         let perfdata_label := perfdata_label_of mountpoint in
         exec message_parts_append
           ("Disk " +:+ mountpoint +:+ ": " +:+ format_fixed 1 disk_capacity_pct
            +:+ "% (" +:+ disk_status_str +:+ ")");
         exec perfdata_parts_append
           ("'disk_" +:+ perfdata_label +:+ "_pct'=" +:+ format_fixed 1 disk_capacity_pct
            +:+ "%;" +:+ num_str (disk_warn args) +:+ ";" +:+ num_str (disk_crit args)
            +:+ ";0;100");
         do processed <- get processed_filesystems;
         set_processed_filesystems (processed + 1))
        [KeyError; ValueError; TypeError]
        (exec message_parts_append
           ("Disk " +:+ mountpoint +:+ " data UNKNOWN (Parsing error on 'used_pct')");
         do overall <- get overall_status;
         set_overall_status (Z.max overall 3))
  | None => ret tt
  end.

Definition PSEUDO_MOUNT_PREFIXES : list string := ["/dev"; "/proc"; "/tmp"; "/var/run"].

(** One round of the comprehension of lines 197-200: the mount point of
    [fs] when it is kept, nothing when it is filtered out. *)
Definition api_mount_of (fs : pyval) : res (option pyval) :=
  res_bind (dict_get fs "mountpoint" PNone) (fun m =>
  if truthy m then
    res_bind (dict_get fs "mountpoint" PNone) (fun m' =>
    res_bind (py_startswith m' PSEUDO_MOUNT_PREFIXES) (fun pseudo =>
    if pseudo then Val None
    else res_bind (dict_get fs "mountpoint" PNone) (fun m'' => Val (Some m''))))
  else Val None).

(** The report for no evaluated filesystem, lines 195-204. *)
Definition no_primary_filesystem_check (disk_data : pyval) : M unit :=
  do processed <- get processed_filesystems;
  if processed =? 0 then
    do devices <- eval (dict_get disk_data "devices" (PList []));
    do all_fs <- eval (py_iter devices);
    do kept <- eval (res_map api_mount_of all_fs);
    let all_api_mounts := omap id kept in
    do mount_list_str <-
      match all_api_mounts with
      | [] => ret "None"
      | _ => eval (py_join ", " all_api_mounts)
      end;
    exec message_parts_append
      ("Disk check UNKNOWN: No primary filesystem found ("
       +:+ PyStr.repr_str_tuple PRIMARY_MOUNT_POINTS
       +:+ "). Available mounts: [" +:+ mount_list_str +:+ "]");
    do overall <- get overall_status;
    set_overall_status (Z.max overall 3)
  else ret tt.

(** Disk usage, lines 158-204. *)
Definition disk_check (args : Args) (disk_data : pyval) : M unit :=
  exec set_processed_filesystems 0;
  exec set_available_mounts [];
  do devices <- eval (dict_get disk_data "devices" (PList []));
  do all_fs <- eval (py_iter devices);
  exec for_each (disk_device_check args) all_fs;
  no_primary_filesystem_check disk_data.

(** [STATUS_MAP.get(overall_status, "UNKNOWN")] *)
Definition STATUS_MAP_get (status : Z) : string :=
  match status with
  | 0 => "OK"
  | 1 => "WARNING"
  | 2 => "CRITICAL"
  | 3 => "UNKNOWN"
  | _ => "UNKNOWN"
  end.

(** The final output, lines 208-220. *)
Definition final_output : M unit :=
  do overall <- get overall_status;
  do messages <- get message_parts;
  do perfdata <- get perfdata_parts;
  let final_status_text := STATUS_MAP_get overall in
  let final_message := PyStr.join " | " messages in
  let final_perfdata := PyStr.join " " perfdata in
  exec print (final_status_text +:+ " - " +:+ final_message +:+ " | " +:+ final_perfdata);
  sys_exit overall.

(** [main], started in [initial_state] (lines 105-107). *)
Definition main (srv : server) (args : Args) : M unit :=
  do sys_data <- make_api_call srv (host args) (port args) (key args) (secret args)
                   API_SYSTEM_RESOURCES;
  exec cpu_load_check args sys_data;
  exec memory_check args sys_data;
  do disk_data <- make_api_call srv (host args) (port args) (key args) (secret args)
                    API_SYSTEM_DISK;
  exec disk_check args disk_data;
  final_output.

(** The process from start to end: what it printed, what it requested and
    how it ended.  An uncaught exception ends it with a traceback and the
    exit status 1. *)
Definition run_main (srv : server) (args : Args) : signal unit * state :=
  main srv args initial_state.

Definition exit_status (r : signal unit * state) : Z :=
  match fst r with
  | SysExit code => code
  | Exc _ => 1
  | Ret _ => 0
  end.

(** * The sections of [main] as functions

    Every section of [main] evaluates one metric and records the outcome in
    the local variables.  The outcome is described here as a value; the
    lemmas [*_run] below show that the sections compute exactly that. *)

Inductive metric :=
| Evaluated (severity : Z) (messages perfdata : list string)
| Unavailable (message : string).

(** The severity a metric contributes to the overall status. *)
Definition metric_severity (m : metric) : Z :=
  match m with
  | Evaluated s _ _ => s
  | Unavailable _ => 3
  end.

(** [overall_status = max(overall_status, sev)] with the fragments appended. *)
Definition record (sev : Z) (messages perfdata : list string) (st : state) : state :=
  {| overall_status := Z.max (overall_status st) sev;
     message_parts := message_parts st ++ messages;
     perfdata_parts := perfdata_parts st ++ perfdata;
     processed_filesystems := processed_filesystems st;
     available_mounts := available_mounts st;
     stdout := stdout st; requested := requested st |}.

Definition record_metric (m : metric) (st : state) : state :=
  match m with
  | Evaluated s ms ps => record s ms ps st
  | Unavailable msg => record 3 [msg] [] st
  end.

Definition caught (classes : list exn) (e : exn) : bool :=
  existsb (exn_eqb e) classes.

(** A [try] body whose exceptions of the given classes are handled by
    reporting [msg]; any other exception goes on. *)
Definition handling (classes : list exn) (msg : string) (body : res metric) : res metric :=
  match body with
  | Val m => Val m
  | Raise e => if caught classes e then Val (Unavailable msg) else Raise e
  end.

(** The 1-minute load average read from the response. *)
Definition cpu_load_1min_of (sys_data : pyval) : res float :=
  res_bind (dict_get sys_data "load_average" (PStr "0.0,0.0,0.0")) (fun load_avg_str =>
  res_bind (str_split load_avg_str ",") (fun parts =>
  res_bind (res_map (fun x => py_float (PStr (PyStr.strip PyStr.isspace x))) parts)
    (fun load_avg => list_getitem load_avg 0))).

Definition cpu_fragments (args : Args) (x : float) : metric :=
  let '(sev, label) := check_threshold (NFloat x) (cpu_warn args) (cpu_crit args) in
  Evaluated sev
    ["CPU Load 1-min: " +:+ format_fixed 2 x +:+ " (" +:+ label +:+ ")"]
    ["'cpu_load_1min'=" +:+ format_fixed 2 x +:+ ";"
     +:+ num_str (cpu_warn args) +:+ ";" +:+ num_str (cpu_crit args) +:+ ";0.0;"].

Definition cpu_metric (args : Args) (sys_data : pyval) : res metric :=
  handling [KeyError; IndexError; ValueError] "CPU Load data UNAVAILABLE"
    (res_bind (cpu_load_1min_of sys_data) (fun x => Val (cpu_fragments args x))).

(** [memory.total] and [memory.used] as ints, read in this order. *)
Definition memory_reading (sys_data : pyval) : res (Z * Z) :=
  res_bind (getitem sys_data "memory") (fun memory =>
  res_bind (getitem memory "total") (fun total =>
  res_bind (py_int total) (fun mem_total =>
  res_bind (getitem sys_data "memory") (fun memory' =>
  res_bind (getitem memory' "used") (fun used =>
  res_bind (py_int used) (fun mem_used => Val (mem_total, mem_used))))))).

Definition memory_fragments (args : Args) (mem_used mem_total : Z) (pct : float) : metric :=
  let '(sev, label) := check_threshold (NFloat pct) (mem_warn args) (mem_crit args) in
  Evaluated sev
    ["Memory: " +:+ format_fixed 1 pct +:+ "% (" +:+ label +:+ ")"]
    ["'mem_usage_pct'=" +:+ format_fixed 1 pct +:+ "%;"
       +:+ num_str (mem_warn args) +:+ ";" +:+ num_str (mem_crit args) +:+ ";0;100";
     "'mem_used_bytes'=" +:+ Z_to_string mem_used +:+ "B";
     "'mem_total_bytes'=" +:+ Z_to_string mem_total +:+ "B"].

(** [(mem_used / mem_total) * 100] *)
Definition memory_usage_pct (mem_used mem_total : Z) : res float :=
  res_bind (int_truediv mem_used mem_total) (fun ratio => Val (fmul ratio (float_of_Z 100))).

Definition memory_metric (args : Args) (sys_data : pyval) : res metric :=
  handling [KeyError; ValueError] "Memory data UNAVAILABLE"
    (res_bind (memory_reading sys_data) (fun '(mem_total, mem_used) =>
     if 0 <? mem_total then
       res_bind (memory_usage_pct mem_used mem_total) (fun pct =>
       Val (memory_fragments args mem_used mem_total pct))
     else Val (Unavailable "Memory data UNAVAILABLE (Total=0)"))).

(** The mount point of a device when it is one of the primary ones. *)
Definition primary_mount_of (fs : pyval) : res (option string) :=
  res_bind (dict_get fs "mountpoint" PNone) (fun mountpoint =>
  Val (str_in mountpoint PRIMARY_MOUNT_POINTS)).

Definition disk_fragments (args : Args) (mountpoint : string) (pct : float) : metric :=
  let '(sev, label) := check_threshold (NFloat pct) (disk_warn args) (disk_crit args) in
  Evaluated sev
    ["Disk " +:+ mountpoint +:+ ": " +:+ format_fixed 1 pct +:+ "% (" +:+ label +:+ ")"]
    ["'disk_" +:+ perfdata_label_of mountpoint +:+ "_pct'=" +:+ format_fixed 1 pct
       +:+ "%;" +:+ num_str (disk_warn args) +:+ ";" +:+ num_str (disk_crit args)
       +:+ ";0;100"].

(** [float(fs.get('used_pct', 0))] *)
Definition used_pct_of (fs : pyval) : res float :=
  res_bind (dict_get fs "used_pct" (PInt 0)) py_float.

Definition device_metric (args : Args) (fs : pyval) (mountpoint : string) : res metric :=
  handling [KeyError; ValueError; TypeError]
    ("Disk " +:+ mountpoint +:+ " data UNKNOWN (Parsing error on 'used_pct')")
    (res_bind (used_pct_of fs) (fun pct => Val (disk_fragments args mountpoint pct))).

Definition add_available (mountpoint : string) (st : state) : state :=
  {| overall_status := overall_status st;
     message_parts := message_parts st;
     perfdata_parts := perfdata_parts st;
     processed_filesystems := processed_filesystems st;
     available_mounts := available_mounts st ++ [mountpoint];
     stdout := stdout st; requested := requested st |}.

Definition add_processed (n : Z) (st : state) : state :=
  {| overall_status := overall_status st;
     message_parts := message_parts st;
     perfdata_parts := perfdata_parts st;
     processed_filesystems := processed_filesystems st + n;
     available_mounts := available_mounts st;
     stdout := stdout st; requested := requested st |}.

(** Only an evaluated device counts as processed. *)
Definition processed_count (m : metric) : Z :=
  match m with
  | Evaluated _ _ _ => 1
  | Unavailable _ => 0
  end.

Definition record_device (mountpoint : string) (m : metric) (st : state) : state :=
  add_processed (processed_count m) (record_metric m (add_available mountpoint st)).

(** The text that stands for the mounts of the response in the report of
    lines 195-204. *)
Definition mount_list_str_of (disk_data : pyval) : res string :=
  res_bind (dict_get disk_data "devices" (PList [])) (fun devices =>
  res_bind (py_iter devices) (fun all_fs =>
  res_bind (res_map api_mount_of all_fs) (fun kept =>
  match omap id kept with
  | [] => Val "None"
  | all_api_mounts => py_join ", " all_api_mounts
  end))).

Definition no_primary_message (mount_list_str : string) : string :=
  "Disk check UNKNOWN: No primary filesystem found ("
  +:+ PyStr.repr_str_tuple PRIMARY_MOUNT_POINTS
  +:+ "). Available mounts: [" +:+ mount_list_str +:+ "]".

(** ** The loop over the devices

    The outcome of one round of the loop: nothing for a device that is
    skipped, the mount point and the metric otherwise. *)
Definition device_outcome (args : Args) (fs : pyval) : res (option (string * metric)) :=
  res_bind (primary_mount_of fs) (fun o =>
  match o with
  | None => Val None
  | Some mountpoint =>
      res_bind (device_metric args fs mountpoint) (fun m => Val (Some (mountpoint, m)))
  end).

Definition device_outcomes (args : Args) (all_fs : list pyval) : res (list (string * metric)) :=
  res_bind (res_map (device_outcome args) all_fs) (fun l => Val (omap id l)).

Definition record_devices (ds : list (string * metric)) (st : state) : state :=
  fold_left (fun st d => record_device (fst d) (snd d) st) ds st.

(** The maximum of [start] and the severities of [ms], taken from left to
    right. *)
Definition severity_from (start : Z) (ms : list metric) : Z :=
  fold_left Z.max (List.map metric_severity ms) start.

Definition messages_of (m : metric) : list string :=
  match m with
  | Evaluated _ messages _ => messages
  | Unavailable message => [message]
  end.

Definition perfdata_of (m : metric) : list string :=
  match m with
  | Evaluated _ _ perfdata => perfdata
  | Unavailable _ => []
  end.

Definition processed_of (ms : list metric) : Z :=
  fold_right Z.add 0 (List.map processed_count ms).

(** ** The two API calls *)

(** The URL [make_api_call] requests for an endpoint. *)
Definition url_of (args : Args) (endpoint : string) : string :=
  "https://" +:+ host args +:+ ":" +:+ Z_to_string (port args) +:+ endpoint.

(** What the call to an endpoint meets. *)
Definition reply_of (srv : server) (args : Args) (endpoint : string) : api_reply :=
  srv (url_of args endpoint) (key args, secret args).

Definition add_requested (url : string) (st : state) : state :=
  {| overall_status := overall_status st;
     message_parts := message_parts st;
     perfdata_parts := perfdata_parts st;
     processed_filesystems := processed_filesystems st;
     available_mounts := available_mounts st;
     stdout := stdout st; requested := requested st ++ [url] |}.

Definition add_stdout (line : string) (st : state) : state :=
  {| overall_status := overall_status st;
     message_parts := message_parts st;
     perfdata_parts := perfdata_parts st;
     processed_filesystems := processed_filesystems st;
     available_mounts := available_mounts st;
     stdout := stdout st ++ [line]; requested := requested st |}.

(** The text printed for a failed call. *)
Definition failure_line (endpoint : string) (f : api_failure) : string :=
  "UNKNOWN - " +:+
  match f with
  | RequestException true _ =>
      "API call timed out after 15 seconds for " +:+ endpoint
      +:+ ". Check network connectivity and OPNsense load."
  | RequestException false e => "API call failed to " +:+ endpoint +:+ ": " +:+ e
  | JSONDecodeError text =>
      "Failed to decode JSON response from " +:+ endpoint +:+ ": "
      +:+ substring 0 100 text +:+ "... Is the API key/secret correct?"
  | OtherException e =>
      "An unexpected error occurred during API call to " +:+ endpoint +:+ ": " +:+ e
  end.

(** A statement that neither prints nor sends a request. *)
Definition silent {A} (c : M A) : Prop :=
  forall st, stdout (snd (c st)) = stdout st /\ requested (snd (c st)) = requested st.

(** A statement that never lowers the overall severity. *)
Definition raising {A} (c : M A) : Prop :=
  forall st, overall_status st <= overall_status (snd (c st)).

(** ** The metrics of a whole run *)

(** The report of lines 195-204, made when no device was processed. *)
Definition no_primary_metric (disk_data : pyval) (processed : Z) : res (list metric) :=
  if processed =? 0 then
    res_bind (mount_list_str_of disk_data) (fun text =>
    Val [Unavailable (no_primary_message text)])
  else Val [].

(** The metrics of the disk section: one for each device that is not
    skipped, in the order of the response, then the report for no
    processed device. *)
Definition disk_metrics (args : Args) (disk_data : pyval) : res (list metric) :=
  res_bind (dict_get disk_data "devices" (PList [])) (fun devices =>
  res_bind (py_iter devices) (fun all_fs =>
  res_bind (device_outcomes args all_fs) (fun ds =>
  let ms := List.map snd ds in
  res_bind (no_primary_metric disk_data (processed_of ms)) (fun np =>
  Val (ms ++ np))))).

(** The metrics of a run in which both calls returned a body. *)
Definition run_metrics (args : Args) (sys_data disk_data : pyval) : res (list metric) :=
  res_bind (cpu_metric args sys_data) (fun mc =>
  res_bind (memory_metric args sys_data) (fun mm =>
  res_bind (disk_metrics args disk_data) (fun md =>
  Val (mc :: mm :: md)))).

(** The text printed at the end of a run with the metrics [ms]. *)
Definition status_line (ms : list metric) : string :=
  STATUS_MAP_get (severity_from 0 ms) +:+ " - "
  +:+ PyStr.join " | " (concat (List.map messages_of ms)) +:+ " | "
  +:+ PyStr.join " " (concat (List.map perfdata_of ms)).

(** A severity is one of 0, 1, 2 and 3. *)
Definition in_range (m : metric) : Prop := 0 <= metric_severity m <= 3.

(** A metric that went through an error path. *)
Definition is_unavailable (m : metric) : Prop := exists message, m = Unavailable message.

(** ** Numbers *)

(** The float that is no number. *)
Definition is_nan (a : num) : bool :=
  match a with
  | NFloat S754_nan => true
  | _ => false
  end.

(** [t > 0] *)
Definition num_positive (t : num) : Prop := num_compare t (NInt 0) = Some Gt.

(** ** Sample inputs *)

(** A JSON object with the given members. *)
Definition obj (members : list (string * pyval)) : pyval := PDict (list_to_map members).

(** The namespace for the three required options only. *)
Definition example_args : Args := default_args "fw" "k" "s".

(** A system-resources body and a system-disk body. *)
Definition example_resources : pyval :=
  obj [("load_average", PStr "3.00, 1.00, 0.50");
       ("memory", obj [("total", PInt 1000); ("used", PInt 950)])].

Definition example_disk : pyval :=
  obj [("devices",
        PList [obj [("mountpoint", PStr "/"); ("used_pct", PStr "85")];
               obj [("mountpoint", PStr "/dev/ada0"); ("used_pct", PStr "100")]])].

(** A firewall that answers both calls. *)
Definition example_server : server :=
  fun url _ =>
    if String.eqb url ("https://fw:443" +:+ API_SYSTEM_RESOURCES)
    then Body example_resources
    else Body example_disk.

(** The namespace for [--disk-crit 0] and the three required options. *)
Definition disk_crit_zero_args : Args :=
  {| host := "fw"; key := "k"; secret := "s"; port := 443;
     cpu_warn := DEFAULT_CPU_WARN; cpu_crit := DEFAULT_CPU_CRIT;
     mem_warn := DEFAULT_MEM_WARN; mem_crit := DEFAULT_MEM_CRIT;
     disk_warn := DEFAULT_DISK_WARN; disk_crit := NFloat (S754_zero false) |}.



(** ** Shapes, invariants and further sample inputs *)

(** The exceptions no handler of [main] catches: they end the process with
    a traceback. *)
Definition lets_through (e : exn) : Prop :=
  e = AttributeError \/ e = TypeError \/ e = OverflowError.

(** A decoded body that is a JSON object. *)
Definition is_object (v : pyval) : bool :=
  match v with
  | PDict _ => true
  | _ => false
  end.

(** A system-resources body from which the CPU section can read a load: an
    object whose [load_average], when it has one, is a string. *)
Definition load_average_is_text (sys_data : pyval) : bool :=
  match sys_data with
  | PDict d =>
      match d !! "load_average" with
      | Some (PStr _) | None => true
      | Some _ => false
      end
  | _ => false
  end.

(** An evaluated metric has a severity up to 2, one message and [n]
    performance data. *)
Definition well_formed (n : nat) (m : metric) : Prop :=
  match m with
  | Evaluated sev messages perfdata =>
      0 <= sev <= 2 /\ length messages = 1%nat /\ length perfdata = n
  | Unavailable _ => True
  end.

(** The one message of a metric begins with [p]. *)
Definition headed (p : string) (m : metric) : Prop :=
  exists message, messages_of m = [message] /\ String.prefix p message = true.

(** A statement that only adds to what is recorded: it never lowers the
    overall severity and keeps it below 4, appends to the messages and to the
    performance data, prints nothing and requests nothing, whether it returns
    or raises. *)
Definition accumulates {A} (c : M A) : Prop :=
  forall st,
    let st' := snd (c st) in
    overall_status st <= overall_status st'
    /\ (overall_status st <= 3 -> overall_status st' <= 3)
    /\ (exists added, message_parts st' = message_parts st ++ added)
    /\ (exists added, perfdata_parts st' = perfdata_parts st ++ added)
    /\ stdout st' = stdout st
    /\ requested st' = requested st.

(** [c in s] for a character [c]. *)
Fixpoint occurs (c : ascii) (s : string) : bool :=
  match s with
  | EmptyString => false
  | String c' s' => Ascii.eqb c c' || occurs c s'
  end.

(** A string that does not begin with a character of [p]. *)
Definition head_kept (p : ascii -> bool) (s : string) : Prop :=
  match s with
  | EmptyString => True
  | String c _ => p c = false
  end.

(** An evaluated metric of severity at most [code]. *)
Definition evaluated_up_to (code : Z) (m : metric) : Prop :=
  exists sev messages perfdata, m = Evaluated sev messages perfdata /\ sev <= code.

(** A device object whose mount point counts as true and is no string. *)
Definition odd_mountpoint (fs : pyval) : Prop :=
  exists (f : gmap string pyval) v,
    fs = PDict f /\ f !! "mountpoint" = Some v /\ truthy v = true
    /\ forall s, v <> PStr s.

(** [x <= y] on floats: false when either side is a NaN. *)
Definition float_le (x y : float) : bool :=
  match SFcompare x y with
  | Some Lt | Some Eq => true
  | _ => false
  end.

(** A float in the canonical form of binary64: the mantissa of a normal
    number has 53 bits, a subnormal number has the least exponent. *)
Definition canonical (x : float) : bool := valid_binary prec emax x.

(** A firewall that answers the first call with [sys_data] and the second
    one with [disk_data]. *)
Definition answering (sys_data disk_data : pyval) : server :=
  fun url _ =>
    if String.eqb url ("https://fw:443" +:+ API_SYSTEM_RESOURCES)
    then Body sys_data
    else Body disk_data.

(** ** What reaches standard output *)

Definition newline : ascii := "010"%char.

(** The characters the calls of [print] wrote: each text followed by a
    newline. *)
Definition written (st : state) : string :=
  String.concat "" (List.map (fun text => text +:+ String newline "") (stdout st)).

(** ** The HTTP exchange in detail

    What the [try] of [make_api_call] (lines 72-74) makes of what the
    network gives.  [requests.get] raises, or returns a response;
    [response.raise_for_status()] raises an [HTTPError], which is a
    [RequestException] and no [Timeout], when the status code is 4xx or 5xx,
    and does nothing for any other status; [response.json()] returns the
    decoded body or raises. *)

Inductive http_outcome :=
| GetRaises (f : api_failure)
    (* [requests.get] raised: no response *)
| Response (status_code : Z) (error : string) (decoded : api_reply).
    (* a response: its status code, the text of the [HTTPError] that
       [raise_for_status] raises for it, and what [response.json()] does *)

Definition raise_for_status (status_code : Z) (error : string) : option api_failure :=
  if (400 <=? status_code) && (status_code <? 600)
  then Some (RequestException false error)
  else None.

(** Lines 72-74. *)
Definition try_body (o : http_outcome) : api_reply :=
  match o with
  | GetRaises f => Failure f
  | Response status_code error decoded =>
      match raise_for_status status_code error with
      | Some f => Failure f
      | None => decoded
      end
  end.

Definition network : Type := string -> string * string -> http_outcome.

Definition server_of (net : network) : server :=
  fun url auth => try_body (net url auth).

(** A call that fails: [requests.get] raises, the status is 4xx or 5xx, or
    [response.json()] raises. *)
Definition call_fails (o : http_outcome) : Prop :=
  match o with
  | GetRaises _ => True
  | Response status_code _ decoded =>
      400 <= status_code < 600 \/ exists f, decoded = Failure f
  end.

(** The text of the response or of the exception that the diagnostic of a
    failed call repeats. *)
Definition echoed (f : api_failure) : string :=
  match f with
  | RequestException true _ => ""
  | RequestException false e => e
  | JSONDecodeError text => substring 0 100 text
  | OtherException e => e
  end.

(** A network on which both calls get the status 300 and a JSON body. *)
Definition multiple_choices : network :=
  fun url _ =>
    Response 300 "300 Multiple Choices"
      (Body (if String.eqb url ("https://fw:443" +:+ API_SYSTEM_RESOURCES)
             then example_resources else example_disk)).

(** A network that answers the first call and answers the second one with
    the status 503, and one on which the second call times out. *)
Definition service_unavailable : network :=
  fun url _ =>
    if String.eqb url ("https://fw:443" +:+ API_SYSTEM_RESOURCES)
    then Response 200 "" (Body example_resources)
    else Response 503 "503 Server Error: Service Unavailable for url: https://fw:443/api/diagnostics/system/system_disk"
           (Body example_disk).

Definition timing_out : network :=
  fun url _ =>
    if String.eqb url ("https://fw:443" +:+ API_SYSTEM_RESOURCES)
    then Response 200 "" (Body example_resources)
    else GetRaises (RequestException true "Read timed out.").

(** A network whose answers are an HTML page of two lines, which
    [response.json()] rejects with a [json.JSONDecodeError]. *)
Definition login_page : network :=
  fun _ _ =>
    Response 200 ""
      (Failure (JSONDecodeError ("<html>" +:+ String newline "<body>Login</body></html>"))).

(** ** The failures the sections handle *)

(** A [load_average] with a component that is no float literal. *)
Definition cpu_load_fails (sys_data : pyval) : Prop :=
  exists (d : gmap string pyval) s,
    sys_data = PDict d
    /\ d !! "load_average" = Some (PStr s)
    /\ Exists (fun x => float_of_string (PyStr.strip PyStr.isspace x) = None)
              (PyStr.split "," s).

(** A [memory], [memory.total] or [memory.used] that is missing or that
    [int()] rejects with a [ValueError], or a total that is not positive. *)
Definition memory_fails (sys_data : pyval) : Prop :=
  exists d : gmap string pyval,
    sys_data = PDict d
    /\ (d !! "memory" = None
        \/ exists mem,
             d !! "memory" = Some (PDict mem)
             /\ (mem !! "total" = None
                 \/ exists total,
                      mem !! "total" = Some total
                      /\ (py_int total = Raise ValueError
                          \/ exists mem_total,
                               py_int total = Val mem_total
                               /\ (mem !! "used" = None
                                   \/ exists used,
                                        mem !! "used" = Some used
                                        /\ (py_int used = Raise ValueError
                                            \/ exists mem_used,
                                                 py_int used = Val mem_used
                                                 /\ mem_total <= 0))))).

(** A device of the allow-list whose [used_pct] [float()] rejects with a
    [ValueError] or a [TypeError]. *)
Definition device_fails (fs : pyval) : Prop :=
  exists (f : gmap string pyval) mountpoint v e,
    fs = PDict f
    /\ f !! "mountpoint" = Some (PStr mountpoint)
    /\ In mountpoint PRIMARY_MOUNT_POINTS
    /\ f !! "used_pct" = Some v
    /\ py_float v = Raise e
    /\ e <> OverflowError.

(** A device the loop skips: an object whose mount point is no string of
    the allow-list. *)
Definition device_skipped (fs : pyval) : Prop :=
  exists f : gmap string pyval,
    fs = PDict f
    /\ str_in (default PNone (f !! "mountpoint")) PRIMARY_MOUNT_POINTS = None.

(** A list of devices one of which fails, or all of which are skipped. *)
Definition disk_fails (disk_data : pyval) : Prop :=
  exists (d : gmap string pyval) devices,
    disk_data = PDict d
    /\ default (PList []) (d !! "devices") = PList devices
    /\ (Exists device_fails devices \/ Forall device_skipped devices).

Definition extraction_fails (sys_data disk_data : pyval) : Prop :=
  cpu_load_fails sys_data \/ memory_fails sys_data \/ disk_fails disk_data.

(** A system-resources body with an unreadable load, and bodies without
    [load_average] and without [used_pct]. *)
Definition unreadable_load : pyval :=
  obj [("load_average", PStr "n/a");
       ("memory", obj [("total", PInt 1000); ("used", PInt 950)])].

Definition resources_without_load : pyval :=
  obj [("memory", obj [("total", PInt 1000); ("used", PInt 100)])].

Definition disk_without_used_pct : pyval :=
  obj [("devices", PList [obj [("mountpoint", PStr "/")]])].

(** * Properties *)

(** ** The runtime model on sample inputs *)

Example float_of_string_samples :
  List.map float_of_string
    ["85"; " 3.00"; "0.1"; "1_0.5"; "1e3"; "-inf"; "NaN"; "n/a"; ""; "1__0"; "0x10"; "1e"]
  = [Some (float_of_Z 85); Some (float_of_Z 3);
     Some (S754_finite false 7205759403792794 (-56));
     Some (S754_finite false 5910974510923776 (-49)); Some (float_of_Z 1000);
     Some (S754_infinity true); Some S754_nan; None; None; None; None; None].
Proof. vm_compute. reflexivity. Qed.

Example int_of_string_samples :
  List.map int_of_string ["8413585408"; " -12 "; "1_000"; "0012"; "1.0"; ""; "+"; "12a"]
  = [Some 8413585408; Some (-12); Some 1000; Some 12; None; None; None; None].
Proof. vm_compute. reflexivity. Qed.

Example format_fixed_samples :
  [format_fixed 1 (float_of_decimal false 25 (-2));
   format_fixed 1 (float_of_decimal false 35 (-2));
   format_fixed 2 (float_of_decimal false 2675 (-3));
   format_fixed 1 (float_of_decimal true 4 (-2));
   format_fixed 2 (float_of_Z 3);
   format_fixed 1 (S754_infinity false)]
  = ["0.2"; "0.3"; "2.67"; "-0.0"; "3.00"; "inf"].
Proof. vm_compute. reflexivity. Qed.

Example num_str_samples :
  List.map num_str
    [NInt 80; NFloat (float_of_Z 80); NFloat (float_of_decimal false 755 (-1));
     NFloat (float_of_decimal false 1 (-1)); NFloat (float_of_decimal false 1 22);
     NFloat (float_of_decimal false 1 (-5)); NFloat (S754_zero true)]
  = ["80"; "80.0"; "75.5"; "0.1"; "1e+22"; "1e-05"; "-0.0"].
Proof. vm_compute. reflexivity. Qed.

Example int_truediv_samples :
  [int_truediv 950 1000; int_truediv 0 (-5); int_truediv 1 0; int_truediv (10 ^ 309) 1]
  = [Val (S754_finite false 8556839292003942 (-53)); Val (S754_zero true);
     Raise ZeroDivisionError; Raise OverflowError].
Proof. vm_compute. reflexivity. Qed.

Example string_method_samples :
  PyStr.split "," "3.00, 1.00,0.50" = ["3.00"; " 1.00"; "0.50"]
  /\ PyStr.split "," "" = [""]
  /\ PyStr.strip PyStr.isspace "  1.00 " = "1.00"
  /\ PyStr.repr_str_tuple PRIMARY_MOUNT_POINTS
     = "('/', '/usr', '/var', '/home', '/cf', '/var/log')".
Proof. vm_compute. repeat split; reflexivity. Qed.

(** ** Reasoning about statements *)

Lemma bind_eval {A B} (r : res A) (k : A -> M B) (st : state) :
  bind (eval r) k st =
    match r with
    | Val a => k a st
    | Raise e => (Exc e, st)
    end.
Proof. destruct r; reflexivity. Qed.

Lemma bind_unfold {A B} (c : M A) (k : A -> M B) (st : state) :
  bind c k st =
    match c st with
    | (Ret a, st') => k a st'
    | (Exc e, st') => (Exc e, st')
    | (SysExit n, st') => (SysExit n, st')
    end.
Proof. reflexivity. Qed.

Lemma try_except_eval {A} (r : res A) (k : A -> M unit) classes handler st :
  try_except (bind (eval r) k) classes handler st =
    match r with
    | Val a => try_except (k a) classes handler st
    | Raise e => if caught classes e then handler st else (Exc e, st)
    end.
Proof. destruct r; reflexivity. Qed.

(** Both sides are states written out: compare them field by field. *)
Ltac same_state :=
  unfold record_metric, record, set_overall_status, message_parts_append,
    perfdata_parts_append, set_processed_filesystems, set_available_mounts,
    print, modify, get, bind, ret, sys_exit;
  cbn;
  rewrite <- ?app_assoc, ?app_nil_r, ?Z.add_0_r;
  reflexivity.

(** One step through a [try] body: the next expression is evaluated; when
    it raises, the handler decides. *)
Ltac try_step r :=
  rewrite try_except_eval;
  destruct r as [?|?e] eqn:?; cbn [res_bind handling];
  [ | destruct (caught _ e); same_state ].

Lemma cpu_load_check_run args sys_data st :
  cpu_load_check args sys_data st =
    match cpu_metric args sys_data with
    | Val m => (Ret tt, record_metric m st)
    | Raise e => (Exc e, st)
    end.
Proof.
  unfold cpu_load_check, cpu_metric, cpu_load_1min_of, handling.
  try_step (dict_get sys_data "load_average" (PStr "0.0,0.0,0.0")).
  try_step (str_split a ",").
  try_step (res_map (fun x => py_float (PStr (PyStr.strip PyStr.isspace x))) a0).
  try_step (list_getitem a1 0).
  unfold cpu_fragments.
  destruct (check_threshold _ _ _) as [sev label].
  same_state.
Qed.

Lemma memory_check_run args sys_data st :
  memory_check args sys_data st =
    match memory_metric args sys_data with
    | Val m => (Ret tt, record_metric m st)
    | Raise e => (Exc e, st)
    end.
Proof.
  unfold memory_check, memory_metric, memory_reading, memory_usage_pct, handling.
  try_step (getitem sys_data "memory").
  try_step (getitem a "total").
  try_step (py_int a0).
  rewrite try_except_eval. cbn [res_bind].
  try_step (getitem a "used").
  try_step (py_int a2).
  destruct (0 <? a1).
  - try_step (int_truediv a3 a1).
    unfold memory_fragments.
    destruct (check_threshold _ _ _) as [sev label].
    same_state.
  - same_state.
Qed.

Lemma disk_device_check_run args fs st :
  disk_device_check args fs st =
    match primary_mount_of fs with
    | Raise e => (Exc e, st)
    | Val None => (Ret tt, st)
    | Val (Some mountpoint) =>
        match device_metric args fs mountpoint with
        | Val m => (Ret tt, record_device mountpoint m st)
        | Raise e => (Exc e, add_available mountpoint st)
        end
    end.
Proof.
  unfold disk_device_check, primary_mount_of, device_metric, used_pct_of, record_device.
  rewrite bind_eval.
  destruct (dict_get fs "mountpoint" PNone) as [m|e]; cbn [res_bind]; [ | reflexivity ].
  destruct (str_in m PRIMARY_MOUNT_POINTS) as [mountpoint|]; [ | reflexivity ].
  change (bind (get available_mounts) ?k st) with (k (available_mounts st) st).
  cbv beta.
  change (bind (set_available_mounts (available_mounts st ++ [mountpoint])) ?k st)
    with (k tt (add_available mountpoint st)).
  cbv beta.
  generalize (add_available mountpoint st) as st1. intros st1.
  unfold handling, add_processed, processed_count.
  try_step (dict_get fs "used_pct" (PInt 0)).
  try_step (py_float a).
  unfold disk_fragments.
  destruct (check_threshold _ _ _) as [sev label].
  same_state.
Qed.

Lemma no_primary_filesystem_check_run disk_data st :
  no_primary_filesystem_check disk_data st =
    if processed_filesystems st =? 0 then
      match mount_list_str_of disk_data with
      | Val text => (Ret tt, record 3 [no_primary_message text] [] st)
      | Raise e => (Exc e, st)
      end
    else (Ret tt, st).
Proof.
  unfold no_primary_filesystem_check, mount_list_str_of.
  change (bind (get processed_filesystems) ?k st) with (k (processed_filesystems st) st).
  cbv beta.
  destruct (processed_filesystems st =? 0); [ | reflexivity ].
  rewrite bind_eval.
  destruct (dict_get disk_data "devices" (PList [])) as [devices|e];
    cbn [res_bind]; [ | reflexivity ].
  rewrite bind_eval.
  destruct (py_iter devices) as [all_fs|e]; cbn [res_bind]; [ | reflexivity ].
  rewrite bind_eval.
  destruct (res_map api_mount_of all_fs) as [kept|e]; cbn [res_bind]; [ | reflexivity ].
  destruct (omap id kept) as [|m l].
  - same_state.
  - rewrite bind_eval. destruct (py_join ", " (m :: l)); [ same_state | reflexivity ].
Qed.

(** *** The loop over the devices *)

Lemma for_each_devices_run args all_fs : forall st,
  match device_outcomes args all_fs with
  | Val ds => for_each (disk_device_check args) all_fs st = (Ret tt, record_devices ds st)
  | Raise e => fst (for_each (disk_device_check args) all_fs st) = Exc e
  end.
Proof.
  unfold device_outcomes.
  induction all_fs as [|fs all_fs IH]; intros st; [ reflexivity | ].
  cbn [for_each res_map].
  rewrite bind_unfold, disk_device_check_run.
  unfold device_outcome at 1.
  destruct (primary_mount_of fs) as [[mountpoint|]|e]; cbn [res_bind]; [ | | reflexivity ].
  - destruct (device_metric args fs mountpoint) as [m|e]; cbn [res_bind]; [ | reflexivity ].
    specialize (IH (record_device mountpoint m st)).
    destruct (res_map (device_outcome args) all_fs) as [l|e]; cbn [res_bind] in *.
    + exact IH.
    + exact IH.
  - specialize (IH st).
    destruct (res_map (device_outcome args) all_fs) as [l|e]; cbn [res_bind] in *; exact IH.
Qed.

(** What the loop leaves in the variables. *)

Lemma record_metric_fields m st :
  overall_status (record_metric m st) = Z.max (overall_status st) (metric_severity m)
  /\ message_parts (record_metric m st) = message_parts st ++ messages_of m
  /\ perfdata_parts (record_metric m st) = perfdata_parts st ++ perfdata_of m
  /\ processed_filesystems (record_metric m st) = processed_filesystems st
  /\ stdout (record_metric m st) = stdout st
  /\ requested (record_metric m st) = requested st.
Proof. destruct m; cbn; repeat split; reflexivity. Qed.

Lemma record_devices_fields ds : forall st,
  let ms := List.map snd ds in
  overall_status (record_devices ds st) = severity_from (overall_status st) ms
  /\ message_parts (record_devices ds st) = message_parts st ++ concat (List.map messages_of ms)
  /\ perfdata_parts (record_devices ds st) = perfdata_parts st ++ concat (List.map perfdata_of ms)
  /\ processed_filesystems (record_devices ds st) = processed_filesystems st + processed_of ms
  /\ stdout (record_devices ds st) = stdout st
  /\ requested (record_devices ds st) = requested st.
Proof.
  induction ds as [|[mountpoint m] ds IH]; intros st; cbn zeta.
  - cbn. rewrite !app_nil_r. repeat split; lia.
  - cbn [record_devices fold_left List.map fst snd concat].
    fold (record_devices ds (record_device mountpoint m st)).
    destruct (IH (record_device mountpoint m st)) as (Ho & Hm & Hp & Hn & Hs & Hr).
    rewrite Ho, Hm, Hp, Hn, Hs, Hr.
    unfold severity_from, processed_of. cbn [List.map fold_right fold_left].
    destruct m; cbn; rewrite <- ?app_assoc, ?app_nil_r; repeat split; try reflexivity; lia.
Qed.

(** *** The two API calls *)

Lemma make_api_call_run srv args endpoint st :
  make_api_call srv (host args) (port args) (key args) (secret args) endpoint st =
    match reply_of srv args endpoint with
    | Body v => (Ret v, add_requested (url_of args endpoint) st)
    | Failure f =>
        (SysExit 3, add_stdout (failure_line endpoint f)
                      (add_requested (url_of args endpoint) st))
    end.
Proof.
  unfold make_api_call, reply_of, url_of, requests_get.
  rewrite bind_unfold. cbv beta iota.
  destruct (srv _ _) as [v|[[|] e|text|e]]; reflexivity.
Qed.

(** *** The sections neither print nor send requests *)

Lemma silent_cpu_load_check args sys_data : silent (cpu_load_check args sys_data).
Proof.
  intros st. rewrite cpu_load_check_run.
  destruct (cpu_metric args sys_data) as [[]|]; split; reflexivity.
Qed.

Lemma silent_memory_check args sys_data : silent (memory_check args sys_data).
Proof.
  intros st. rewrite memory_check_run.
  destruct (memory_metric args sys_data) as [[]|]; split; reflexivity.
Qed.

Lemma silent_disk_device_check args fs : silent (disk_device_check args fs).
Proof.
  intros st. rewrite disk_device_check_run.
  destruct (primary_mount_of fs) as [[mountpoint|]|]; try (split; reflexivity).
  destruct (device_metric args fs mountpoint) as [[]|]; split; reflexivity.
Qed.

Lemma silent_for_each {A} (body : A -> M unit) (l : list A) :
  (forall a, silent (body a)) -> silent (for_each body l).
Proof.
  intros Hbody. induction l as [|a l IH]; intros st; [ split; reflexivity | ].
  cbn [for_each]. rewrite bind_unfold.
  destruct (Hbody a st) as [Hs Hr].
  destruct (body a st) as [[[]|e|n] st1]; cbn [snd] in *; try (split; assumption).
  destruct (IH st1) as [Hs' Hr']. split; congruence.
Qed.

Lemma silent_no_primary_filesystem_check disk_data :
  silent (no_primary_filesystem_check disk_data).
Proof.
  intros st. rewrite no_primary_filesystem_check_run.
  destruct (processed_filesystems st =? 0); [ | split; reflexivity ].
  destruct (mount_list_str_of disk_data); split; reflexivity.
Qed.

Lemma silent_disk_check args disk_data : silent (disk_check args disk_data).
Proof.
  intros st. unfold disk_check.
  change (bind (set_processed_filesystems 0) ?k st)
    with (k tt (snd (set_processed_filesystems 0 st))). cbv beta.
  set (st0 := snd (set_processed_filesystems 0 st)).
  change (bind (set_available_mounts []) ?k st0)
    with (k tt (snd (set_available_mounts [] st0))). cbv beta.
  set (st1 := snd (set_available_mounts [] st0)).
  change (stdout st) with (stdout st1). change (requested st) with (requested st1).
  clearbody st1. clear st0 st.
  rewrite bind_eval.
  destruct (dict_get disk_data "devices" (PList [])) as [devices|]; [ | split; reflexivity ].
  rewrite bind_eval.
  destruct (py_iter devices) as [all_fs|]; [ | split; reflexivity ].
  rewrite bind_unfold.
  destruct (silent_for_each (disk_device_check args) all_fs
              (silent_disk_device_check args) st1) as [Hs Hr].
  destruct (for_each (disk_device_check args) all_fs st1) as [[[]|e|n] st2];
    cbn [snd] in *; try (split; assumption).
  destruct (silent_no_primary_filesystem_check disk_data st2) as [Hs' Hr'].
  split; congruence.
Qed.

(** *** The sections never lower the overall severity *)

Lemma raising_cpu_load_check args sys_data : raising (cpu_load_check args sys_data).
Proof.
  intros st. rewrite cpu_load_check_run.
  destruct (cpu_metric args sys_data) as [[]|]; cbn; lia.
Qed.

Lemma raising_memory_check args sys_data : raising (memory_check args sys_data).
Proof.
  intros st. rewrite memory_check_run.
  destruct (memory_metric args sys_data) as [[]|]; cbn; lia.
Qed.

Lemma raising_disk_device_check args fs : raising (disk_device_check args fs).
Proof.
  intros st. rewrite disk_device_check_run.
  destruct (primary_mount_of fs) as [[mountpoint|]|]; cbn [snd]; try lia.
  destruct (device_metric args fs mountpoint) as [[]|]; cbn; lia.
Qed.

Lemma raising_for_each {A} (body : A -> M unit) (l : list A) :
  (forall a, raising (body a)) -> raising (for_each body l).
Proof.
  intros Hbody. induction l as [|a l IH]; intros st; [ cbn; lia | ].
  cbn [for_each]. rewrite bind_unfold.
  pose proof (Hbody a st) as Ha.
  destruct (body a st) as [[[]|e|n] st1]; cbn [snd] in *; try assumption.
  pose proof (IH st1). lia.
Qed.

(** *** The metrics of a whole section and of a whole run *)

Lemma severity_from_app start ms1 ms2 :
  severity_from start (ms1 ++ ms2) = severity_from (severity_from start ms1) ms2.
Proof. unfold severity_from. rewrite List.map_app, fold_left_app. reflexivity. Qed.

Lemma disk_check_run args disk_data st :
  match disk_metrics args disk_data with
  | Val ms =>
      exists st',
        disk_check args disk_data st = (Ret tt, st')
        /\ overall_status st' = severity_from (overall_status st) ms
        /\ message_parts st' = message_parts st ++ concat (List.map messages_of ms)
        /\ perfdata_parts st' = perfdata_parts st ++ concat (List.map perfdata_of ms)
  | Raise e => fst (disk_check args disk_data st) = Exc e
  end.
Proof.
  unfold disk_metrics, disk_check.
  change (bind (set_processed_filesystems 0) ?k st)
    with (k tt (snd (set_processed_filesystems 0 st))). cbv beta.
  set (st0 := snd (set_processed_filesystems 0 st)).
  change (bind (set_available_mounts []) ?k st0)
    with (k tt (snd (set_available_mounts [] st0))). cbv beta.
  set (st1 := snd (set_available_mounts [] st0)).
  change (overall_status st) with (overall_status st1).
  change (message_parts st) with (message_parts st1).
  change (perfdata_parts st) with (perfdata_parts st1).
  assert (Hp : processed_filesystems st1 = 0) by reflexivity.
  clearbody st1. clear st0 st.
  rewrite bind_eval.
  destruct (dict_get disk_data "devices" (PList [])) as [devices|];
    cbn [res_bind]; [ | reflexivity ].
  rewrite bind_eval.
  destruct (py_iter devices) as [all_fs|]; cbn [res_bind]; [ | reflexivity ].
  rewrite bind_unfold.
  pose proof (for_each_devices_run args all_fs st1) as Hloop.
  destruct (device_outcomes args all_fs) as [ds|e]; cbn [res_bind].
  2:{ revert Hloop.
      destruct (for_each _ _ _) as [[[]|e'|n] st2]; cbn [fst]; congruence. }
  rewrite Hloop.
  destruct (record_devices_fields ds st1) as (Ho & Hm & Hd & Hn & _ & _). cbn zeta in *.
  rewrite no_primary_filesystem_check_run, Hn, Hp, Z.add_0_l.
  unfold no_primary_metric.
  destruct (processed_of (List.map snd ds) =? 0).
  - destruct (mount_list_str_of disk_data) as [text|e]; cbn [res_bind]; [ | reflexivity ].
    eexists. split; [ reflexivity | ].
    cbn [record overall_status message_parts perfdata_parts].
    rewrite Ho, Hm, Hd, severity_from_app, !List.map_app, !concat_app.
    cbn. rewrite !app_nil_r, <- ?app_assoc. repeat split; reflexivity.
  - cbn [res_bind]. eexists. split; [ reflexivity | ].
    rewrite Ho, Hm, Hd, !app_nil_r. repeat split; reflexivity.
Qed.

(** A run in which both calls return a body: it ends with the report printed
    and the overall severity of its metrics, or with the exception one of
    the sections lets through. *)
Lemma run_main_bodies srv args sys_data disk_data :
  reply_of srv args API_SYSTEM_RESOURCES = Body sys_data ->
  reply_of srv args API_SYSTEM_DISK = Body disk_data ->
  match run_metrics args sys_data disk_data with
  | Val ms =>
      fst (run_main srv args) = SysExit (severity_from 0 ms)
      /\ stdout (snd (run_main srv args)) = [status_line ms]
  | Raise e =>
      fst (run_main srv args) = Exc e
      /\ stdout (snd (run_main srv args)) = []
  end.
Proof.
  intros Hsys Hdisk. unfold run_main, main, run_metrics.
  rewrite bind_unfold, make_api_call_run, Hsys.
  set (st1 := add_requested _ initial_state).
  rewrite bind_unfold, cpu_load_check_run.
  destruct (cpu_metric args sys_data) as [mc|e]; cbn [res_bind]; [ | split; reflexivity ].
  rewrite bind_unfold, memory_check_run.
  destruct (memory_metric args sys_data) as [mm|e]; cbn [res_bind].
  2:{ destruct mc; split; reflexivity. }
  rewrite bind_unfold, make_api_call_run, Hdisk.
  set (st2 := add_requested _ _).
  rewrite bind_unfold.
  pose proof (disk_check_run args disk_data st2) as Hd.
  destruct (silent_disk_check args disk_data st2) as [Hs _].
  destruct (disk_metrics args disk_data) as [md|e]; cbn [res_bind].
  - destruct Hd as (st3 & Hrun & Ho & Hm & Hp).
    rewrite Hrun in *.
    unfold final_output, get, print, modify, sys_exit, bind. cbn [fst snd stdout].
    cbn [snd] in Hs. rewrite Hs, Ho, Hm, Hp.
    unfold status_line, st2, st1.
    destruct (record_metric_fields mm (record_metric mc (add_requested
                (url_of args API_SYSTEM_RESOURCES) initial_state)))
      as (Ho2 & Hm2 & Hp2 & _ & Hs2 & _).
    destruct (record_metric_fields mc (add_requested
                (url_of args API_SYSTEM_RESOURCES) initial_state))
      as (Ho1 & Hm1 & Hp1 & _ & Hs1 & _).
    cbn [add_requested overall_status message_parts perfdata_parts stdout].
    rewrite Ho2, Hm2, Hp2, Hs2, Ho1, Hm1, Hp1, Hs1.
    cbn [add_requested initial_state overall_status message_parts perfdata_parts stdout
         List.map concat severity_from fold_left app].
    unfold severity_from. rewrite <- ?app_assoc. split; reflexivity.
  - revert Hd Hs.
    destruct (disk_check args disk_data st2) as [[[]|e'|n] st3]; cbn [fst snd];
      intros Hd Hs; try congruence.
    split; [ congruence | ].
    rewrite Hs. unfold st2, st1. destruct mc, mm; reflexivity.
Qed.

(** ** The threshold classifier *)

Lemma SFcompare_refl (x : float) : x <> S754_nan -> SFcompare x x = Some Eq.
Proof.
  destruct x as [s|s| |s m e]; intros Hx; try congruence.
  - reflexivity.
  - destruct s; reflexivity.
  - cbn. rewrite Z.compare_refl.
    assert (Hm : Pos.compare_cont Eq m m = Eq) by apply Pos.compare_cont_refl.
    rewrite Hm. destruct s; reflexivity.
Qed.

Lemma num_ge_refl (a : num) : is_nan a = false -> num_ge a a = true.
Proof.
  destruct a as [z|x]; unfold num_ge; cbn [num_compare].
  - rewrite Z.compare_refl. reflexivity.
  - intros Hx. rewrite SFcompare_refl; [ reflexivity | ].
    intros ->. discriminate.
Qed.

Lemma num_ge_int (a b : Z) : num_ge (NInt a) (NInt b) = (b <=? a).
Proof.
  unfold num_ge, num_compare. rewrite Z.leb_compare, (Z.compare_antisym a b).
  destruct (a ?= b); reflexivity.
Qed.

(** C1. For all numbers [value], [warn] and [crit], [check_threshold]
    returns [(2, "CRITICAL")] when [value >= crit], otherwise
    [(1, "WARNING")] when [value >= warn], otherwise [(0, "OK")]: the
    critical threshold is compared first, whatever the warning threshold is;
    the boundaries are inclusive; on ints, negative ones included, the
    comparisons are those of the integers; a value that is no number (NaN)
    is greater or equal to nothing and is classified OK.  The function is
    total and has no effect, being a function. *)
Theorem check_threshold_classifies :
  (forall value warn crit : num,
     check_threshold value warn crit =
       if num_ge value crit then (2, "CRITICAL")
       else if num_ge value warn then (1, "WARNING")
       else (0, "OK"))
  /\ (forall value warn crit : num,
        num_ge value crit = true ->
        check_threshold value warn crit = (2, "CRITICAL"))
  /\ (forall value warn crit : Z,
        check_threshold (NInt value) (NInt warn) (NInt crit) =
          if crit <=? value then (2, "CRITICAL")
          else if warn <=? value then (1, "WARNING")
          else (0, "OK"))
  /\ (forall warn crit : num,
        is_nan crit = false ->
        check_threshold crit warn crit = (2, "CRITICAL"))
  /\ (forall warn crit : num,
        is_nan warn = false -> num_ge warn crit = false ->
        check_threshold warn warn crit = (1, "WARNING"))
  /\ (forall warn crit : num,
        check_threshold (NFloat S754_nan) warn crit = (0, "OK")).
Proof.
  repeat split.
  - intros value warn crit Hc. unfold check_threshold. rewrite Hc. reflexivity.
  - intros value warn crit. unfold check_threshold. rewrite !num_ge_int. reflexivity.
  - intros warn crit Hc. unfold check_threshold. rewrite (num_ge_refl crit Hc). reflexivity.
  - intros warn crit Hw Hc. unfold check_threshold.
    rewrite Hc, (num_ge_refl warn Hw). reflexivity.
  - intros warn crit. unfold check_threshold, num_ge.
    destruct warn, crit; reflexivity.
Qed.

(** The boundary cases of C1 on floats and ints: 90.0 against the
    thresholds 75 and 90 is CRITICAL, 75.0 is WARNING, -1.5 is OK. *)
Lemma check_threshold_classifies_witness :
  check_threshold (NFloat (float_of_Z 90)) (NInt 75) (NInt 90) = (2, "CRITICAL")
  /\ check_threshold (NFloat (float_of_Z 75)) (NFloat (float_of_Z 75)) (NInt 90)
     = (1, "WARNING")
  /\ check_threshold (NFloat (float_of_decimal true 15 (-1))) (NInt 75) (NInt 90)
     = (0, "OK").
Proof.
  destruct check_threshold_classifies as (Hall & Hcrit & _ & _ & Hwarn & _).
  split; [ | split ].
  - apply Hcrit. vm_compute. reflexivity.
  - apply Hwarn; vm_compute; reflexivity.
  - rewrite Hall. vm_compute. reflexivity.
Defined.

(** ** Failure of an API call *)

Lemma append_inv_head (p a b : string) : p +:+ a = p +:+ b -> a = b.
Proof.
  induction p as [|c p IH]; cbn; intros H; [ exact H | ].
  injection H as H. exact (IH H).
Qed.

Lemma url_of_inj args e1 e2 : url_of args e1 = url_of args e2 -> e1 = e2.
Proof.
  unfold url_of. intros H.
  repeat match type of H with _ +:+ _ = _ +:+ _ => apply append_inv_head in H end.
  exact H.
Qed.

Lemma prefix_append (p s : string) : String.prefix p (p +:+ s) = true.
Proof.
  induction p as [|c p IH]; [ destruct s; reflexivity | ].
  change (String.prefix (String c p) (String c (p +:+ s)) = true).
  unfold String.prefix; fold String.prefix.
  destruct (ascii_dec c c); [ exact IH | contradiction ].
Qed.

(** A failed call ends the run, whatever the server is. *)
Lemma failed_call_ends_the_run srv args endpoint f :
  endpoint = API_SYSTEM_RESOURCES \/ endpoint = API_SYSTEM_DISK ->
  reply_of srv args endpoint = Failure f ->
  In (url_of args endpoint) (requested (snd (run_main srv args))) ->
  fst (run_main srv args) = SysExit 3
  /\ exit_status (run_main srv args) = 3
  /\ stdout (snd (run_main srv args)) = [failure_line endpoint f]
  /\ String.prefix "UNKNOWN - " (failure_line endpoint f) = true
  /\ exists earlier,
       requested (snd (run_main srv args)) = earlier ++ [url_of args endpoint]
       /\ ~ In (url_of args endpoint) earlier.
Proof.
  intros Hep Hfail Hcalled.
  assert (Hprefix : String.prefix "UNKNOWN - " (failure_line endpoint f) = true)
    by apply prefix_append.
  assert (Hne : url_of args API_SYSTEM_DISK <> url_of args API_SYSTEM_RESOURCES).
  { intros H. apply url_of_inj in H. discriminate. }
  revert Hcalled. unfold exit_status, run_main, main.
  rewrite bind_unfold, make_api_call_run.
  destruct Hep as [-> | ->].
  - rewrite Hfail. cbn. intros _.
    refine (conj _ (conj _ (conj _ (conj Hprefix _)))); try reflexivity.
    exists []. split; [ reflexivity | intros [] ].
  - destruct (reply_of srv args API_SYSTEM_RESOURCES) as [sys_data|f1].
    2:{ cbn. intros [H|[]]. symmetry in H. contradiction. }
    rewrite bind_unfold, cpu_load_check_run.
    destruct (cpu_metric args sys_data) as [mc|e].
    2:{ cbn. intros [H|[]]. symmetry in H. contradiction. }
    rewrite bind_unfold, memory_check_run.
    destruct (memory_metric args sys_data) as [mm|e].
    2:{ destruct mc; cbn; intros [H|[]]; symmetry in H; contradiction. }
    rewrite bind_unfold, make_api_call_run, Hfail. intros _.
    destruct mc, mm; cbn;
      (refine (conj _ (conj _ (conj _ (conj Hprefix _)))); try reflexivity;
       exists [url_of args API_SYSTEM_RESOURCES]; split; [ reflexivity | ];
       intros [H|[]]; symmetry in H; contradiction).
Qed.

Lemma occurs_append c (a b : string) : occurs c (a +:+ b) = occurs c a || occurs c b.
Proof.
  induction a as [|c' a IH]; [ reflexivity | ].
  change (occurs c (String c' (a +:+ b)) = occurs c (String c' a) || occurs c b).
  cbn [occurs]. rewrite IH, orb_assoc. reflexivity.
Qed.

Lemma written_one (st : state) (text : string) :
  stdout st = [text] -> written st = text +:+ String newline "".
Proof. unfold written. intros ->. reflexivity. Qed.

(** The diagnostic holds a newline exactly when the text it repeats does. *)
Lemma failure_line_newline endpoint f :
  endpoint = API_SYSTEM_RESOURCES \/ endpoint = API_SYSTEM_DISK ->
  occurs newline (failure_line endpoint f) = occurs newline (echoed f).
Proof.
  intros [-> | ->]; destruct f as [[|] e|text|e]; unfold failure_line, echoed;
    rewrite ?occurs_append; cbn -[substring]; rewrite ?orb_false_r; reflexivity.
Qed.

(** C4, as the code has it.  When a call of [make_api_call] to one of the
    two endpoints is made and fails ([requests.get] raises: connection
    error, timeout; the response has a status 4xx or 5xx; decoding the body
    raises), the process ends at once: it exits with code 3; [print] was
    called once in the whole run, with a text that begins with
    ["UNKNOWN - "] (no report of the metrics evaluated before); what is
    written is that text and a newline, and the text holds a newline exactly
    when the exception text or the first 100 characters of the body it
    repeats do; the failed request was sent once and nothing was requested
    after it.  A response with any other status whose body decodes is
    returned to [main] like one with status 200. *)
Theorem api_failure_aborts (net : network) args endpoint :
  let srv := server_of net in
  let outcome := net (url_of args endpoint) (key args, secret args) in
  endpoint = API_SYSTEM_RESOURCES \/ endpoint = API_SYSTEM_DISK ->
  In (url_of args endpoint) (requested (snd (run_main srv args))) ->
  (call_fails outcome ->
   exists f,
     try_body outcome = Failure f
     /\ fst (run_main srv args) = SysExit 3
     /\ exit_status (run_main srv args) = 3
     /\ stdout (snd (run_main srv args)) = [failure_line endpoint f]
     /\ String.prefix "UNKNOWN - " (failure_line endpoint f) = true
     /\ written (snd (run_main srv args)) = failure_line endpoint f +:+ String newline ""
     /\ occurs newline (failure_line endpoint f) = occurs newline (echoed f)
     /\ exists earlier,
          requested (snd (run_main srv args)) = earlier ++ [url_of args endpoint]
          /\ ~ In (url_of args endpoint) earlier)
  /\ (forall status_code error v st,
        outcome = Response status_code error (Body v) ->
        ~ 400 <= status_code < 600 ->
        make_api_call srv (host args) (port args) (key args) (secret args) endpoint st
        = (Ret v, add_requested (url_of args endpoint) st)).
Proof.
  intros srv outcome Hep Hcalled. split.
  - intros Hfails.
    assert (Hf : exists f, reply_of srv args endpoint = Failure f).
    { unfold reply_of, srv, server_of. fold outcome.
      destruct outcome as [f|status_code error decoded]; cbn [try_body].
      - exists f. reflexivity.
      - unfold raise_for_status.
        destruct ((400 <=? status_code) && (status_code <? 600)) eqn:Hstatus;
          [ eexists; reflexivity | ].
        destruct Hfails as [Hrange | [f ->]]; [ | exists f; reflexivity ].
        apply andb_false_iff in Hstatus.
        destruct Hstatus as [H | H]; [ apply Z.leb_gt in H | apply Z.ltb_ge in H ]; lia. }
    destruct Hf as [f Hf]. exists f.
    destruct (failed_call_ends_the_run srv args endpoint f Hep Hf Hcalled)
      as (Hexit & Hstatus & Hout & Hprefix & Hreq).
    split; [ exact Hf | ]. split; [ exact Hexit | ]. split; [ exact Hstatus | ].
    split; [ exact Hout | ]. split; [ exact Hprefix | ].
    split; [ exact (written_one _ _ Hout) | ].
    split; [ exact (failure_line_newline endpoint f Hep) | exact Hreq ].
  - intros status_code error v st Hout Hstatus.
    rewrite make_api_call_run. unfold reply_of, srv, server_of. fold outcome.
    rewrite Hout. cbn [try_body]. unfold raise_for_status.
    destruct ((400 <=? status_code) && (status_code <? 600)) eqn:Hrange; [ | reflexivity ].
    apply andb_true_iff in Hrange. destruct Hrange as [H1 H2].
    apply Z.leb_le in H1. apply Z.ltb_lt in H2. lia.
Qed.

(** The second call gets the status 503, or times out. *)
Lemma api_failure_aborts_witness :
  (fst (run_main (server_of service_unavailable) example_args) = SysExit 3
   /\ written (snd (run_main (server_of service_unavailable) example_args))
      = "UNKNOWN - API call failed to /api/diagnostics/system/system_disk: 503 Server Error: Service Unavailable for url: https://fw:443/api/diagnostics/system/system_disk"
        +:+ String newline "")
  /\ (fst (run_main (server_of timing_out) example_args) = SysExit 3
      /\ written (snd (run_main (server_of timing_out) example_args))
         = "UNKNOWN - API call timed out after 15 seconds for /api/diagnostics/system/system_disk. Check network connectivity and OPNsense load."
           +:+ String newline ""
      /\ requested (snd (run_main (server_of timing_out) example_args))
         = ["https://fw:443/api/diagnostics/system/system_resources";
            "https://fw:443/api/diagnostics/system/system_disk"]).
Proof.
  split.
  - destruct (api_failure_aborts service_unavailable example_args API_SYSTEM_DISK)
      as [Hfail _].
    + right. reflexivity.
    + vm_compute. right. left. reflexivity.
    + destruct Hfail as (f & Hf & Hexit & _ & _ & _ & Hwritten & _).
      * left. vm_compute. split; [ discriminate | reflexivity ].
      * vm_compute in Hf. injection Hf as <-.
        split; [ exact Hexit | exact Hwritten ].
  - destruct (api_failure_aborts timing_out example_args API_SYSTEM_DISK) as [Hfail _].
    + right. reflexivity.
    + vm_compute. right. left. reflexivity.
    + destruct Hfail as (f & Hf & Hexit & _ & _ & _ & Hwritten & _ & earlier & Hreq & _).
      * exact I.
      * vm_compute in Hf. injection Hf as <-.
        split; [ exact Hexit | ]. split; [ exact Hwritten | ].
        vm_compute. reflexivity.
Defined.

(** C4 fails on a status that is neither 2xx nor 4xx nor 5xx: when both
    calls get the status 300 and a JSON body, [raise_for_status] raises
    nothing and the run reports like any other: it exits with 2 after the
    CRITICAL report of the sample bodies, and prints no [UNKNOWN] text. *)
Lemma other_status_is_processed :
  fst (run_main (server_of multiple_choices) example_args) = SysExit 2
  /\ stdout (snd (run_main (server_of multiple_choices) example_args)) =
       ["CRITICAL - CPU Load 1-min: 3.00 (OK) | Memory: 95.0% (CRITICAL) | Disk /: 85.0% (WARNING) | 'cpu_load_1min'=3.00;5.0;10.0;0.0; 'mem_usage_pct'=95.0%;75;90;0;100 'mem_used_bytes'=950B 'mem_total_bytes'=1000B 'disk_root_pct'=85.0%;80;95;0;100"].
Proof. split; vm_compute; reflexivity. Qed.

(** The text of a failed call is not always one line: a body that is no
    JSON and begins with two lines is repeated with its newline by the
    handler of [json.JSONDecodeError], and what is written is two lines. *)
Example undecodable_body_spans_two_lines :
  written (snd (run_main (server_of login_page) example_args)) =
    "UNKNOWN - Failed to decode JSON response from /api/diagnostics/system/system_resources: <html>"
    +:+ String newline "<body>Login</body></html>... Is the API key/secret correct?"
    +:+ String newline "".
Proof. vm_compute. reflexivity. Qed.

(** ** The overall severity *)

Lemma check_threshold_range value warn crit :
  0 <= fst (check_threshold value warn crit) <= 2.
Proof.
  unfold check_threshold.
  destruct (num_ge value crit); [ cbn; lia | ].
  destruct (num_ge value warn); cbn; lia.
Qed.

Lemma handling_in_range classes msg body m :
  (forall m', body = Val m' -> in_range m') ->
  handling classes msg body = Val m -> in_range m.
Proof.
  unfold handling. intros Hbody. destruct body as [m'|e].
  - intros [= <-]. apply Hbody. reflexivity.
  - destruct (caught classes e); [ | discriminate ].
    intros [= <-]. unfold in_range. cbn. lia.
Qed.

Lemma cpu_metric_in_range args sys_data m :
  cpu_metric args sys_data = Val m -> in_range m.
Proof.
  apply handling_in_range. intros m'.
  destruct (cpu_load_1min_of sys_data) as [x|]; cbn [res_bind]; [ | discriminate ].
  intros [= <-]. unfold cpu_fragments, in_range.
  pose proof (check_threshold_range (NFloat x) (cpu_warn args) (cpu_crit args)) as H.
  destruct (check_threshold _ _ _). cbn in *. lia.
Qed.

Lemma memory_metric_in_range args sys_data m :
  memory_metric args sys_data = Val m -> in_range m.
Proof.
  apply handling_in_range. intros m'.
  destruct (memory_reading sys_data) as [[mem_total mem_used]|]; cbn [res_bind];
    [ | discriminate ].
  destruct (0 <? mem_total).
  - destruct (memory_usage_pct mem_used mem_total) as [pct|]; cbn [res_bind];
      [ | discriminate ].
    intros [= <-]. unfold memory_fragments, in_range.
    pose proof (check_threshold_range (NFloat pct) (mem_warn args) (mem_crit args)) as H.
    destruct (check_threshold _ _ _). cbn in *. lia.
  - intros [= <-]. unfold in_range. cbn. lia.
Qed.

Lemma device_metric_in_range args fs mountpoint m :
  device_metric args fs mountpoint = Val m -> in_range m.
Proof.
  apply handling_in_range. intros m'.
  destruct (used_pct_of fs) as [pct|]; cbn [res_bind]; [ | discriminate ].
  intros [= <-]. unfold disk_fragments, in_range.
  pose proof (check_threshold_range (NFloat pct) (disk_warn args) (disk_crit args)) as H.
  destruct (check_threshold _ _ _). cbn in *. lia.
Qed.

Lemma device_outcomes_in_range args all_fs : forall ds,
  device_outcomes args all_fs = Val ds -> Forall in_range (List.map snd ds).
Proof.
  unfold device_outcomes.
  induction all_fs as [|fs all_fs IH]; cbn [res_map res_bind]; intros ds.
  - intros [= <-]. constructor.
  - unfold device_outcome at 1.
    destruct (primary_mount_of fs) as [[mountpoint|]|]; cbn [res_bind]; try discriminate.
    + destruct (device_metric args fs mountpoint) as [m|] eqn:Hm; cbn [res_bind];
        [ | discriminate ].
      destruct (res_map (device_outcome args) all_fs) as [l|]; cbn [res_bind] in *;
        [ | discriminate ].
      intros [= <-]. cbn. constructor.
      * exact (device_metric_in_range _ _ _ _ Hm).
      * apply IH. reflexivity.
    + destruct (res_map (device_outcome args) all_fs) as [l|]; cbn [res_bind] in *;
        [ | discriminate ].
      intros [= <-]. cbn. apply IH. reflexivity.
Qed.

Lemma run_metrics_in_range args sys_data disk_data ms :
  run_metrics args sys_data disk_data = Val ms -> Forall in_range ms.
Proof.
  unfold run_metrics, disk_metrics, no_primary_metric.
  destruct (cpu_metric args sys_data) as [mc|] eqn:Hc; cbn [res_bind]; [ | discriminate ].
  destruct (memory_metric args sys_data) as [mm|] eqn:Hm; cbn [res_bind]; [ | discriminate ].
  destruct (dict_get disk_data "devices" (PList [])) as [devices|]; cbn [res_bind];
    [ | discriminate ].
  destruct (py_iter devices) as [all_fs|]; cbn [res_bind]; [ | discriminate ].
  destruct (device_outcomes args all_fs) as [ds|] eqn:Hd; cbn [res_bind]; [ | discriminate ].
  pose proof (device_outcomes_in_range _ _ _ Hd) as Hds.
  apply cpu_metric_in_range in Hc. apply memory_metric_in_range in Hm.
  destruct (processed_of (List.map snd ds) =? 0).
  - destruct (mount_list_str_of disk_data) as [text|]; cbn [res_bind]; [ | discriminate ].
    intros [= <-]. constructor; [ assumption | ]. constructor; [ assumption | ].
    rewrite Forall_app. split; [ assumption | ].
    constructor; [ unfold in_range; cbn; lia | constructor ].
  - cbn [res_bind]. intros [= <-]. rewrite app_nil_r.
    constructor; [ assumption | ]. constructor; assumption.
Qed.

(** [severity_from start ms] is the maximum of [start] and the severities. *)
Lemma severity_from_max ms : forall start,
  start <= severity_from start ms
  /\ Forall (fun m => metric_severity m <= severity_from start ms) ms
  /\ (severity_from start ms = start
      \/ Exists (fun m => metric_severity m = severity_from start ms) ms).
Proof.
  unfold severity_from.
  induction ms as [|m ms IH]; intros start; cbn [List.map fold_left].
  - split; [ lia | ]. split; [ constructor | left; reflexivity ].
  - destruct (IH (Z.max start (metric_severity m))) as (Hle & Hall & Hex).
    split; [ lia | ]. split.
    + constructor; [ lia | exact Hall ].
    + destruct Hex as [Heq | Hex].
      * destruct (Z.max_spec start (metric_severity m)) as [[_ Hmax] | [_ Hmax]].
        -- right. constructor. lia.
        -- left. lia.
      * right. apply Exists_cons_tl. exact Hex.
Qed.


(** ** The CPU metric *)

Lemma res_map_py_float_unparseable (g : string -> string) (parts : list string) :
  Exists (fun x => float_of_string (g x) = None) parts ->
  res_map (fun x => py_float (PStr (g x))) parts = Raise ValueError.
Proof.
  induction 1 as [x l Hx | x l _ IH]; cbn [res_map].
  - cbn [py_float]. rewrite Hx. reflexivity.
  - rewrite IH. cbn [py_float].
    destruct (float_of_string (g x)); reflexivity.
Qed.

(** C3, as the code has it.  When the response is an object whose
    [load_average] is a string with a component that is no float literal,
    the CPU metric is UNKNOWN: ["CPU Load data UNAVAILABLE"] is appended to
    the messages, no performance data is added and the overall severity
    becomes at least 3.  When the key is missing, the load average is read
    as ["0.0,0.0,0.0"]: the metric is evaluated with the load 0.0 and
    reported like any other load. *)
Theorem cpu_load_unparseable_is_unavailable args (d : gmap string pyval) st :
  (forall s,
     d !! "load_average" = Some (PStr s) ->
     Exists (fun x => float_of_string (PyStr.strip PyStr.isspace x) = None)
            (PyStr.split "," s) ->
     exists st',
       cpu_load_check args (PDict d) st = (Ret tt, st')
       /\ message_parts st' = message_parts st ++ ["CPU Load data UNAVAILABLE"]
       /\ perfdata_parts st' = perfdata_parts st
       /\ overall_status st' = Z.max (overall_status st) 3
       /\ 3 <= overall_status st')
  /\ (d !! "load_average" = None ->
      let zero := NFloat (S754_zero false) in
      let sev := fst (check_threshold zero (cpu_warn args) (cpu_crit args)) in
      let label := snd (check_threshold zero (cpu_warn args) (cpu_crit args)) in
      exists st',
        cpu_load_check args (PDict d) st = (Ret tt, st')
        /\ message_parts st' =
             message_parts st ++ ["CPU Load 1-min: 0.00 (" +:+ label +:+ ")"]
        /\ perfdata_parts st' =
             perfdata_parts st ++
             ["'cpu_load_1min'=0.00;" +:+ num_str (cpu_warn args) +:+ ";"
                +:+ num_str (cpu_crit args) +:+ ";0.0;"]
        /\ overall_status st' = Z.max (overall_status st) sev).
Proof.
  split.
  - intros s Hs Hbad. rewrite cpu_load_check_run.
    unfold cpu_metric, cpu_load_1min_of, dict_get. rewrite Hs.
    cbn [from_option id res_bind str_split].
    rewrite (res_map_py_float_unparseable _ _ Hbad). cbn [res_bind handling].
    eexists. split; [ reflexivity | ].
    cbn. rewrite app_nil_r. repeat split; lia.
  - intros Hnone zero sev label. rewrite cpu_load_check_run.
    assert (Hload : cpu_load_1min_of (PDict d) = Val (S754_zero false)).
    { unfold cpu_load_1min_of, dict_get. rewrite Hnone. vm_compute. reflexivity. }
    unfold cpu_metric. rewrite Hload. cbn [res_bind handling].
    unfold cpu_fragments. change (format_fixed 2 (S754_zero false)) with "0.00".
    subst sev label. fold zero.
    destruct (check_threshold zero (cpu_warn args) (cpu_crit args)) as [sev label].
    eexists. split; [ reflexivity | ].
    cbn. repeat split; reflexivity.
Qed.

Lemma cpu_load_unparseable_is_unavailable_witness :
  exists st',
    cpu_load_check example_args (obj [("load_average", PStr "0.5, n/a, 0.1")]) initial_state
      = (Ret tt, st')
    /\ message_parts st' = [] ++ ["CPU Load data UNAVAILABLE"]
    /\ perfdata_parts st' = []
    /\ overall_status st' = Z.max 0 3
    /\ 3 <= overall_status st'.
Proof.
  apply (proj1 (cpu_load_unparseable_is_unavailable example_args
                  (list_to_map [("load_average", PStr "0.5, n/a, 0.1")]) initial_state)
           "0.5, n/a, 0.1").
  - vm_compute. reflexivity.
  - apply Exists_cons_tl. apply Exists_cons_hd. vm_compute. reflexivity.
Defined.

(** C3 fails on a response without [load_average]: the CPU metric is
    reported OK with load 0.00, with its performance data, and the overall
    severity stays 0.  On a [load_average] that is a number, the section
    lets an [AttributeError] through. *)
Lemma missing_load_average_is_evaluated :
  cpu_load_check example_args (obj []) initial_state =
    (Ret tt,
     {| overall_status := 0;
        message_parts := ["CPU Load 1-min: 0.00 (OK)"];
        perfdata_parts := ["'cpu_load_1min'=0.00;5.0;10.0;0.0;"];
        processed_filesystems := 0; available_mounts := [];
        stdout := []; requested := [] |})
  /\ cpu_load_check example_args (obj [("load_average", PFloat (float_of_decimal false 15 (-1)))])
       initial_state
     = (Exc AttributeError, initial_state).
Proof. split; vm_compute; reflexivity. Qed.

(** ** The memory metric *)

(** C5, as the code has it.  When [memory.total] is present and converts
    to the int 0, then: when [memory.used] is present and converts to an
    int, the memory metric is UNKNOWN with
    ["Memory data UNAVAILABLE (Total=0)"]: that message is appended, no
    performance data is added and the overall severity is raised to 3; when
    [memory.used] is missing, or is a value [int()] rejects with a
    [ValueError] (a string that is no int literal, a NaN), the message is
    the generic ["Memory data UNAVAILABLE"] instead, with the same severity
    and no performance data, since [memory.used] is read and converted
    before the total is tested. *)
Theorem memory_total_zero_is_unavailable args (d mem : gmap string pyval) total st :
  d !! "memory" = Some (PDict mem) ->
  mem !! "total" = Some total ->
  py_int total = Val 0 ->
  (forall used mem_used,
     mem !! "used" = Some used ->
     py_int used = Val mem_used ->
     exists st',
       memory_check args (PDict d) st = (Ret tt, st')
       /\ message_parts st' = message_parts st ++ ["Memory data UNAVAILABLE (Total=0)"]
       /\ perfdata_parts st' = perfdata_parts st
       /\ overall_status st' = Z.max (overall_status st) 3
       /\ (overall_status st <= 3 -> overall_status st' = 3))
  /\ (mem !! "used" = None
      \/ (exists used, mem !! "used" = Some used /\ py_int used = Raise ValueError) ->
      exists st',
        memory_check args (PDict d) st = (Ret tt, st')
        /\ message_parts st' = message_parts st ++ ["Memory data UNAVAILABLE"]
        /\ perfdata_parts st' = perfdata_parts st
        /\ overall_status st' = Z.max (overall_status st) 3
        /\ (overall_status st <= 3 -> overall_status st' = 3)).
Proof.
  intros Hmem Htotal Hzero. split.
  - intros used mem_used Hused Hint. rewrite memory_check_run.
    unfold memory_metric, memory_reading, getitem.
    rewrite Hmem. cbn [res_bind]. rewrite Htotal. cbn [res_bind]. rewrite Hzero.
    cbn [res_bind]. rewrite Hused. cbn [res_bind]. rewrite Hint. cbn [res_bind handling].
    eexists. split; [ reflexivity | ].
    cbn. rewrite app_nil_r. repeat split; lia.
  - intros Hused. rewrite memory_check_run.
    unfold memory_metric, memory_reading, getitem.
    rewrite Hmem. cbn [res_bind]. rewrite Htotal. cbn [res_bind]. rewrite Hzero.
    cbn [res_bind].
    destruct Hused as [-> | (used & -> & Hint)].
    + cbn [res_bind handling]. eexists. split; [ reflexivity | ].
      cbn. rewrite app_nil_r. repeat split; lia.
    + cbn [res_bind]. rewrite Hint. cbn [res_bind handling].
      eexists. split; [ reflexivity | ].
      cbn. rewrite app_nil_r. repeat split; lia.
Qed.

(** A total of ["0"] with a used of 950, and with a used of ["n/a"]. *)
Lemma memory_total_zero_is_unavailable_witness :
  (exists st',
     memory_check example_args
       (obj [("memory", obj [("total", PStr "0"); ("used", PInt 950)])]) initial_state
       = (Ret tt, st')
     /\ message_parts st' = [] ++ ["Memory data UNAVAILABLE (Total=0)"]
     /\ perfdata_parts st' = []
     /\ overall_status st' = Z.max 0 3
     /\ (0 <= 3 -> overall_status st' = 3))
  /\ (exists st',
        memory_check example_args
          (obj [("memory", obj [("total", PStr "0"); ("used", PStr "n/a")])]) initial_state
          = (Ret tt, st')
        /\ message_parts st' = [] ++ ["Memory data UNAVAILABLE"]
        /\ perfdata_parts st' = []
        /\ overall_status st' = Z.max 0 3
        /\ (0 <= 3 -> overall_status st' = 3)).
Proof.
  split.
  - destruct (memory_total_zero_is_unavailable example_args
                (list_to_map [("memory", obj [("total", PStr "0"); ("used", PInt 950)])])
                (list_to_map [("total", PStr "0"); ("used", PInt 950)])
                (PStr "0") initial_state) as [Hzero _];
      try (vm_compute; reflexivity).
    apply (Hzero (PInt 950) 950); vm_compute; reflexivity.
  - destruct (memory_total_zero_is_unavailable example_args
                (list_to_map [("memory", obj [("total", PStr "0"); ("used", PStr "n/a")])])
                (list_to_map [("total", PStr "0"); ("used", PStr "n/a")])
                (PStr "0") initial_state) as [_ Hgeneric];
      try (vm_compute; reflexivity).
    apply Hgeneric. right. exists (PStr "n/a"). split; vm_compute; reflexivity.
Defined.

(** C5 fails on a response whose [memory] has a [total] of 0 and no
    [used]: [memory.used] is read before [memory.total] is tested, and the
    message is the generic one. *)
Lemma memory_total_zero_without_used :
  memory_check example_args (obj [("memory", obj [("total", PInt 0)])]) initial_state =
    (Ret tt,
     {| overall_status := 3;
        message_parts := ["Memory data UNAVAILABLE"];
        perfdata_parts := [];
        processed_filesystems := 0; available_mounts := [];
        stdout := []; requested := [] |}).
Proof. vm_compute. reflexivity. Qed.

(** C6, as the code has it.  When [memory.total] and [memory.used] are
    ints, [memory.total > 0] and the quotient [used / total] is within the
    range of a float, the memory metric is [(used / total) * 100],
    classified against the memory thresholds: the message
    ["Memory: <pct to 1 decimal>% (<LABEL>)"] is appended, and exactly
    three performance data: the percentage with the thresholds and the
    bounds 0 and 100, the used bytes and the total bytes.  With total 1000,
    used 950 and the default thresholds 75 and 90 the metric is CRITICAL
    and the message is ["Memory: 95.0% (CRITICAL)"]. *)
Theorem memory_usage_is_classified args (d mem : gmap string pyval)
    (mem_total mem_used : Z) (ratio : float) st :
  d !! "memory" = Some (PDict mem) ->
  mem !! "total" = Some (PInt mem_total) ->
  mem !! "used" = Some (PInt mem_used) ->
  0 < mem_total ->
  int_truediv mem_used mem_total = Val ratio ->
  let pct := fmul ratio (float_of_Z 100) in
  let sev := fst (check_threshold (NFloat pct) (mem_warn args) (mem_crit args)) in
  let label := snd (check_threshold (NFloat pct) (mem_warn args) (mem_crit args)) in
  exists st',
    memory_check args (PDict d) st = (Ret tt, st')
    /\ overall_status st' = Z.max (overall_status st) sev
    /\ message_parts st' =
         message_parts st ++ ["Memory: " +:+ format_fixed 1 pct +:+ "% (" +:+ label +:+ ")"]
    /\ perfdata_parts st' =
         perfdata_parts st ++
         ["'mem_usage_pct'=" +:+ format_fixed 1 pct +:+ "%;" +:+ num_str (mem_warn args)
            +:+ ";" +:+ num_str (mem_crit args) +:+ ";0;100";
          "'mem_used_bytes'=" +:+ Z_to_string mem_used +:+ "B";
          "'mem_total_bytes'=" +:+ Z_to_string mem_total +:+ "B"].
Proof.
  intros Hmem Htotal Hused Hpos Hratio pct sev label. rewrite memory_check_run.
  unfold memory_metric, memory_reading, memory_usage_pct, getitem.
  rewrite Hmem. cbn [res_bind]. rewrite Htotal. cbn [res_bind py_int].
  rewrite Hused. cbn [res_bind py_int].
  apply Z.ltb_lt in Hpos. rewrite Hpos, Hratio. cbn [res_bind handling].
  unfold memory_fragments. fold pct. subst sev label.
  destruct (check_threshold (NFloat pct) (mem_warn args) (mem_crit args)) as [sev label].
  eexists. split; [ reflexivity | ].
  cbn. repeat split; reflexivity.
Qed.

Lemma memory_usage_is_classified_witness :
  exists st',
    memory_check example_args
      (obj [("memory", obj [("total", PInt 1000); ("used", PInt 950)])]) initial_state
      = (Ret tt, st')
    /\ overall_status st' = 2
    /\ message_parts st' = ["Memory: 95.0% (CRITICAL)"]
    /\ perfdata_parts st' =
         ["'mem_usage_pct'=95.0%;75;90;0;100"; "'mem_used_bytes'=950B";
          "'mem_total_bytes'=1000B"].
Proof.
  destruct (memory_usage_is_classified example_args
              (list_to_map [("memory", obj [("total", PInt 1000); ("used", PInt 950)])])
              (list_to_map [("total", PInt 1000); ("used", PInt 950)])
              1000 950 (float_of_ratio false 950 1000) initial_state)
    as (st' & Hrun & Ho & Hm & Hp); try (vm_compute; reflexivity).
  exists st'. split; [ exact Hrun | ].
  split; [ rewrite Ho; vm_compute; reflexivity | ].
  split; [ rewrite Hm; vm_compute; reflexivity | ].
  rewrite Hp. vm_compute. reflexivity.
Defined.

(** C6 fails on ints whose quotient is too large for a float: the division
    raises [OverflowError], which the section does not handle, and nothing
    is reported. *)
Lemma memory_usage_overflows :
  memory_check example_args
    (obj [("memory", obj [("total", PInt 1); ("used", PInt (10 ^ 309))])]) initial_state
  = (Exc OverflowError, initial_state).
Proof. vm_compute. reflexivity. Qed.

(** ** The disk metric *)

Lemma str_in_primary (mountpoint : string) :
  In mountpoint PRIMARY_MOUNT_POINTS ->
  str_in (PStr mountpoint) PRIMARY_MOUNT_POINTS = Some mountpoint.
Proof.
  intros Hin. unfold str_in.
  destruct (existsb (String.eqb mountpoint) PRIMARY_MOUNT_POINTS) eqn:Hex; [ reflexivity | ].
  assert (Htrue : existsb (String.eqb mountpoint) PRIMARY_MOUNT_POINTS = true).
  { apply existsb_exists. exists mountpoint. split; [ exact Hin | apply String.eqb_refl ]. }
  congruence.
Qed.

Lemma str_in_not_primary (mountpoint : string) :
  ~ In mountpoint PRIMARY_MOUNT_POINTS ->
  str_in (PStr mountpoint) PRIMARY_MOUNT_POINTS = None.
Proof.
  intros Hnot. unfold str_in.
  destruct (existsb (String.eqb mountpoint) PRIMARY_MOUNT_POINTS) eqn:Hex; [ | reflexivity ].
  apply existsb_exists in Hex. destruct Hex as (x & Hin & Heq).
  apply String.eqb_eq in Heq. subst x. contradiction.
Qed.

(** C7. A device whose mount point is not a string of the allow-list
    [PRIMARY_MOUNT_POINTS] (another string, no string, or none at all) is
    skipped: nothing is recorded and nothing is raised.  For a device whose
    mount point is in the allow-list and whose
    [used_pct] converts to a float, that float is classified against the
    disk thresholds and reported under the label of the mount point: ['/']
    replaced by ['_'], the underscores at both ends stripped, ["root"] when
    nothing is left.  The labels of the six mount points are [root], [usr],
    [var], [home], [cf] and [var_log].  The devices
    [[{mountpoint: "/", used_pct: "85"}]] with the default thresholds 80
    and 95 give WARNING and ['disk_root_pct'=85.0%;80;95;0;100]. *)
Theorem primary_devices_are_evaluated args (d : gmap string pyval) st :
  ((forall mountpoint,
      d !! "mountpoint" = Some (PStr mountpoint) -> ~ In mountpoint PRIMARY_MOUNT_POINTS) ->
   disk_device_check args (PDict d) st = (Ret tt, st))
  /\ (forall mountpoint pct,
      d !! "mountpoint" = Some (PStr mountpoint) ->
      In mountpoint PRIMARY_MOUNT_POINTS ->
      used_pct_of (PDict d) = Val pct ->
      let sev := fst (check_threshold (NFloat pct) (disk_warn args) (disk_crit args)) in
      let label := snd (check_threshold (NFloat pct) (disk_warn args) (disk_crit args)) in
      exists st',
        disk_device_check args (PDict d) st = (Ret tt, st')
        /\ overall_status st' = Z.max (overall_status st) sev
        /\ message_parts st' =
             message_parts st ++
             ["Disk " +:+ mountpoint +:+ ": " +:+ format_fixed 1 pct
                +:+ "% (" +:+ label +:+ ")"]
        /\ perfdata_parts st' =
             perfdata_parts st ++
             ["'disk_" +:+ perfdata_label_of mountpoint +:+ "_pct'="
                +:+ format_fixed 1 pct +:+ "%;" +:+ num_str (disk_warn args)
                +:+ ";" +:+ num_str (disk_crit args) +:+ ";0;100"]
        /\ processed_filesystems st' = processed_filesystems st + 1)
  /\ List.map perfdata_label_of PRIMARY_MOUNT_POINTS
     = ["root"; "usr"; "var"; "home"; "cf"; "var_log"]
  /\ (let st' :=
        snd (disk_check example_args
               (obj [("devices", PList [obj [("mountpoint", PStr "/");
                                             ("used_pct", PStr "85")]])])
               initial_state) in
      overall_status st' = 1
      /\ message_parts st' = ["Disk /: 85.0% (WARNING)"]
      /\ perfdata_parts st' = ["'disk_root_pct'=85.0%;80;95;0;100"]).
Proof.
  split; [ | split; [ | split ] ].
  - intros Hnot. rewrite disk_device_check_run.
    unfold primary_mount_of, dict_get. cbn [res_bind].
    destruct (d !! "mountpoint") as [[| | | |mountpoint| |]|]; try reflexivity.
    cbn [from_option id]. rewrite (str_in_not_primary _ (Hnot _ eq_refl)). reflexivity.
  - intros mountpoint pct Hmp Hin Hpct sev label. rewrite disk_device_check_run.
    unfold primary_mount_of, dict_get. rewrite Hmp. cbn [from_option id res_bind].
    rewrite (str_in_primary _ Hin).
    unfold device_metric. rewrite Hpct. cbn [res_bind handling].
    unfold disk_fragments. subst sev label.
    destruct (check_threshold (NFloat pct) (disk_warn args) (disk_crit args)) as [sev label].
    eexists. split; [ reflexivity | ].
    cbn. repeat split; reflexivity.
  - vm_compute. reflexivity.
  - vm_compute. repeat split; reflexivity.
Qed.

Lemma primary_devices_are_evaluated_witness :
  disk_device_check example_args
    (obj [("mountpoint", PStr "/mnt/backup"); ("used_pct", PStr "99")]) initial_state
  = (Ret tt, initial_state)
  /\ exists st',
       disk_device_check example_args
         (obj [("mountpoint", PStr "/var/log"); ("used_pct", PInt 96)]) initial_state
       = (Ret tt, st')
       /\ overall_status st' = 2
       /\ message_parts st' = ["Disk /var/log: 96.0% (CRITICAL)"]
       /\ perfdata_parts st' = ["'disk_var_log_pct'=96.0%;80;95;0;100"]
       /\ processed_filesystems st' = 1.
Proof.
  split.
  - destruct (primary_devices_are_evaluated example_args
                (list_to_map [("mountpoint", PStr "/mnt/backup"); ("used_pct", PStr "99")])
                initial_state) as (Hskip & _).
    apply Hskip. intros mountpoint Hmp.
    vm_compute in Hmp. injection Hmp as <-.
    cbn. intuition discriminate.
  - destruct (primary_devices_are_evaluated example_args
                (list_to_map [("mountpoint", PStr "/var/log"); ("used_pct", PInt 96)])
                initial_state) as (_ & Heval & _).
    destruct (Heval "/var/log" (float_of_Z 96))
      as (st' & Hrun & Ho & Hm & Hp & Hn).
    + vm_compute. reflexivity.
    + cbn. tauto.
    + vm_compute. reflexivity.
    + exists st'. split; [ exact Hrun | ].
      rewrite Ho, Hm, Hp, Hn. vm_compute. repeat split; reflexivity.
Defined.

Lemma py_float_raises v e :
  py_float v = Raise e -> e = ValueError \/ e = TypeError \/ e = OverflowError.
Proof.
  destruct v as [|b|z|x|s|l|d]; cbn [py_float]; try (intros [= <-]; tauto); try discriminate.
  - destruct (is_infinity (float_of_Z z)); [ intros [= <-]; tauto | discriminate ].
  - destruct (float_of_string s); [ discriminate | intros [= <-]; tauto ].
Qed.

(** C8, as the code has it.  When the mount point of a device is in the
    allow-list and the conversion of its [used_pct] to a float raises
    anything but [OverflowError] (the value is a string that is no float
    literal, or null, a list or an object), the message
    ["Disk <mountpoint> data UNKNOWN (Parsing error on 'used_pct')"] is
    appended, the overall severity is raised to 3, the device does not count
    as processed, and the loop goes on with the remaining devices. *)
Theorem unparseable_used_pct_is_reported args (d : gmap string pyval)
    mountpoint v e (rest : list pyval) st :
  d !! "mountpoint" = Some (PStr mountpoint) ->
  In mountpoint PRIMARY_MOUNT_POINTS ->
  d !! "used_pct" = Some v ->
  py_float v = Raise e ->
  e <> OverflowError ->
  exists st',
    disk_device_check args (PDict d) st = (Ret tt, st')
    /\ message_parts st' =
         message_parts st ++
         ["Disk " +:+ mountpoint +:+ " data UNKNOWN (Parsing error on 'used_pct')"]
    /\ perfdata_parts st' = perfdata_parts st
    /\ overall_status st' = Z.max (overall_status st) 3
    /\ 3 <= overall_status st'
    /\ processed_filesystems st' = processed_filesystems st
    /\ for_each (disk_device_check args) (PDict d :: rest) st
       = for_each (disk_device_check args) rest st'.
Proof.
  intros Hmp Hin Hused Hfloat Hnot.
  assert (Hcaught : caught [KeyError; ValueError; TypeError] e = true).
  { destruct (py_float_raises _ _ Hfloat) as [-> | [-> | ->]];
      [ reflexivity | reflexivity | contradiction ]. }
  assert (Hrun : disk_device_check args (PDict d) st =
                 (Ret tt, record_device mountpoint
                            (Unavailable ("Disk " +:+ mountpoint
                               +:+ " data UNKNOWN (Parsing error on 'used_pct')")) st)).
  { rewrite disk_device_check_run.
    unfold primary_mount_of, dict_get. rewrite Hmp. cbn [from_option id res_bind].
    rewrite (str_in_primary _ Hin).
    unfold device_metric, used_pct_of, dict_get. rewrite Hused.
    cbn [from_option id res_bind]. rewrite Hfloat. cbn [res_bind handling].
    rewrite Hcaught. reflexivity. }
  eexists. split; [ exact Hrun | ].
  cbn [for_each]. rewrite bind_unfold, Hrun.
  cbn. rewrite app_nil_r, Z.add_0_r. repeat split; lia.
Qed.

Lemma unparseable_used_pct_is_reported_witness :
  exists st',
    disk_device_check example_args
      (obj [("mountpoint", PStr "/var"); ("used_pct", PStr "n/a")]) initial_state
    = (Ret tt, st')
    /\ message_parts st' = [] ++ ["Disk /var data UNKNOWN (Parsing error on 'used_pct')"]
    /\ perfdata_parts st' = []
    /\ overall_status st' = Z.max 0 3
    /\ 3 <= overall_status st'
    /\ processed_filesystems st' = 0
    /\ for_each (disk_device_check example_args)
         [obj [("mountpoint", PStr "/var"); ("used_pct", PStr "n/a")];
          obj [("mountpoint", PStr "/"); ("used_pct", PStr "85")]] initial_state
       = for_each (disk_device_check example_args)
           [obj [("mountpoint", PStr "/"); ("used_pct", PStr "85")]] st'.
Proof.
  apply (unparseable_used_pct_is_reported example_args
           (list_to_map [("mountpoint", PStr "/var"); ("used_pct", PStr "n/a")])
           "/var" (PStr "n/a") ValueError
           [obj [("mountpoint", PStr "/"); ("used_pct", PStr "85")]] initial_state).
  - vm_compute. reflexivity.
  - cbn. tauto.
  - vm_compute. reflexivity.
  - vm_compute. reflexivity.
  - discriminate.
Defined.

(** C8 fails on a [used_pct] that is an int too large for a float: the
    conversion raises [OverflowError], which the loop does not handle; the
    disk section ends there, no message is appended and the device after it
    is not evaluated. *)
Lemma huge_used_pct_ends_the_loop :
  disk_check example_args
    (obj [("devices",
           PList [obj [("mountpoint", PStr "/var"); ("used_pct", PInt (10 ^ 309))];
                  obj [("mountpoint", PStr "/"); ("used_pct", PStr "85")]])])
    initial_state
  = (Exc OverflowError,
     {| overall_status := 0; message_parts := []; perfdata_parts := [];
        processed_filesystems := 0; available_mounts := ["/var"];
        stdout := []; requested := [] |}).
Proof. vm_compute. reflexivity. Qed.

Lemma zero_below_positive (t : num) :
  num_positive t -> num_ge (NFloat (S754_zero false)) t = false.
Proof.
  unfold num_positive, num_ge. destruct t as [z|x]; cbn [num_compare float_compare_Z].
  - intros [= H]. apply Z.compare_gt_iff in H.
    destruct (0 ?= z) eqn:Hc; try reflexivity.
    + apply Z.compare_eq in Hc. lia.
    + apply Z.compare_gt_iff in Hc. lia.
  - destruct x as [s|s| |s m e]; cbn [float_compare_Z SFcompare]; try discriminate.
    + destruct s; [ discriminate | reflexivity ].
    + destruct s; [ | reflexivity ].
      cbn [cond_Zopp]. intros [= H]. exfalso.
      destruct (0 <=? e) eqn:He.
      * apply Z.compare_gt_iff in H. apply Z.leb_le in He.
        pose proof (Z.pow_pos_nonneg 2 e) as Hp. nia.
      * cbn in H. discriminate.
Qed.

(** C10, as the code has it.  For a device whose mount point is in the
    allow-list and that has no [used_pct], the value is 0: the device is
    classified like any other with 0.0, reported with ["0.0%"] and its
    class, with no error message, and counted as processed.  When both the
    warning and the critical threshold are positive, the class is OK and
    the overall severity does not change. *)
Theorem missing_used_pct_defaults_to_zero args (d : gmap string pyval) mountpoint st :
  d !! "mountpoint" = Some (PStr mountpoint) ->
  In mountpoint PRIMARY_MOUNT_POINTS ->
  d !! "used_pct" = None ->
  let zero := NFloat (S754_zero false) in
  let sev := fst (check_threshold zero (disk_warn args) (disk_crit args)) in
  let label := snd (check_threshold zero (disk_warn args) (disk_crit args)) in
  exists st',
    disk_device_check args (PDict d) st = (Ret tt, st')
    /\ message_parts st' =
         message_parts st ++ ["Disk " +:+ mountpoint +:+ ": 0.0% (" +:+ label +:+ ")"]
    /\ perfdata_parts st' =
         perfdata_parts st ++
         ["'disk_" +:+ perfdata_label_of mountpoint +:+ "_pct'=0.0%;"
            +:+ num_str (disk_warn args) +:+ ";" +:+ num_str (disk_crit args) +:+ ";0;100"]
    /\ processed_filesystems st' = processed_filesystems st + 1
    /\ overall_status st' = Z.max (overall_status st) sev
    /\ (num_positive (disk_warn args) -> num_positive (disk_crit args) ->
        label = "OK" /\ sev = 0
        /\ (0 <= overall_status st -> overall_status st' = overall_status st)).
Proof.
  intros Hmp Hin Hnone zero sev label.
  rewrite disk_device_check_run.
  unfold primary_mount_of, dict_get. rewrite Hmp. cbn [from_option id res_bind].
  rewrite (str_in_primary _ Hin).
  unfold device_metric, used_pct_of, dict_get. rewrite Hnone.
  cbn [from_option id res_bind].
  change (py_float (PInt 0)) with (@Val float (S754_zero false)).
  cbn [res_bind handling]. unfold disk_fragments.
  change (format_fixed 1 (S754_zero false)) with "0.0".
  assert (Hok : num_positive (disk_warn args) -> num_positive (disk_crit args) ->
                check_threshold zero (disk_warn args) (disk_crit args) = (0, "OK")).
  { intros Hw Hc. unfold check_threshold, zero.
    rewrite (zero_below_positive _ Hc), (zero_below_positive _ Hw). reflexivity. }
  subst sev label. fold zero.
  destruct (check_threshold zero (disk_warn args) (disk_crit args)) as [sev label].
  eexists. split; [ reflexivity | ].
  cbn. refine (conj eq_refl (conj eq_refl (conj eq_refl (conj eq_refl _)))).
  intros Hw Hc. specialize (Hok Hw Hc). injection Hok as -> ->.
  split; [ reflexivity | ]. split; [ reflexivity | ]. lia.
Qed.

Lemma missing_used_pct_defaults_to_zero_witness :
  exists st',
    disk_device_check example_args (obj [("mountpoint", PStr "/usr")]) initial_state
    = (Ret tt, st')
    /\ message_parts st' = ["Disk /usr: 0.0% (OK)"]
    /\ perfdata_parts st' = ["'disk_usr_pct'=0.0%;80;95;0;100"]
    /\ processed_filesystems st' = 1
    /\ overall_status st' = 0.
Proof.
  destruct (missing_used_pct_defaults_to_zero example_args
              (list_to_map [("mountpoint", PStr "/usr")]) "/usr" initial_state)
    as (st' & Hrun & Hm & Hp & Hn & Ho & Hok).
  - vm_compute. reflexivity.
  - cbn. tauto.
  - vm_compute. reflexivity.
  - exists st'. split; [ exact Hrun | ].
    rewrite Hm, Hp, Hn, Ho. vm_compute. repeat split; reflexivity.
Defined.

(** C10 fails when the warning threshold is positive and the critical one
    is not: with [--disk-crit 0] and the default warning threshold 80, a
    device without [used_pct] is CRITICAL and raises the overall severity
    to 2. *)
Lemma missing_used_pct_can_be_critical :
  disk_device_check disk_crit_zero_args (obj [("mountpoint", PStr "/")]) initial_state =
    (Ret tt,
     {| overall_status := 2;
        message_parts := ["Disk /: 0.0% (CRITICAL)"];
        perfdata_parts := ["'disk_root_pct'=0.0%;80;0.0;0;100"];
        processed_filesystems := 1; available_mounts := ["/"];
        stdout := []; requested := [] |})
  /\ num_compare (disk_warn disk_crit_zero_args) (NInt 0) = Some Gt.
Proof. split; vm_compute; reflexivity. Qed.

(** ** The report for no processed device *)









(** ** The overall severity of a run *)

Lemma cpu_load_fails_metric args sys_data :
  cpu_load_fails sys_data ->
  cpu_metric args sys_data = Val (Unavailable "CPU Load data UNAVAILABLE").
Proof.
  intros (d & s & -> & Hs & Hbad).
  unfold cpu_metric, cpu_load_1min_of, dict_get. rewrite Hs.
  cbn [from_option id res_bind str_split].
  rewrite (res_map_py_float_unparseable _ _ Hbad). reflexivity.
Qed.

Lemma memory_fails_metric args sys_data :
  memory_fails sys_data ->
  exists message, memory_metric args sys_data = Val (Unavailable message).
Proof.
  intros (d & -> & H). unfold memory_metric, memory_reading, getitem.
  destruct H as [-> | (mem & -> & H)]; [ eexists; reflexivity | ].
  cbn [res_bind].
  destruct H as [-> | (total & -> & H)]; [ eexists; reflexivity | ].
  cbn [res_bind].
  destruct H as [-> | (mem_total & -> & H)]; [ eexists; reflexivity | ].
  cbn [res_bind].
  destruct H as [-> | (used & -> & H)]; [ eexists; reflexivity | ].
  cbn [res_bind].
  destruct H as [-> | (mem_used & -> & Hle)]; [ eexists; reflexivity | ].
  cbn [res_bind handling].
  assert (Hpos : (0 <? mem_total) = false) by (apply Z.ltb_ge; exact Hle).
  rewrite Hpos. eexists. reflexivity.
Qed.

Lemma device_fails_metric args fs :
  device_fails fs ->
  exists mountpoint message,
    primary_mount_of fs = Val (Some mountpoint)
    /\ device_metric args fs mountpoint = Val (Unavailable message).
Proof.
  intros (f & mountpoint & v & e & -> & Hmp & Hin & Hused & Hfloat & Hnot).
  exists mountpoint. eexists. split.
  - unfold primary_mount_of, dict_get. rewrite Hmp. cbn [from_option id res_bind].
    rewrite (str_in_primary _ Hin). reflexivity.
  - unfold device_metric, used_pct_of, dict_get. rewrite Hused.
    cbn [from_option id res_bind]. rewrite Hfloat. cbn [res_bind handling].
    destruct (py_float_raises _ _ Hfloat) as [-> | [-> | ->]];
      [ reflexivity | reflexivity | contradiction ].
Qed.

Lemma device_skipped_outcome args fs :
  device_skipped fs -> device_outcome args fs = Val None.
Proof.
  intros (f & -> & Hskip). unfold device_outcome, primary_mount_of, dict_get.
  cbn [res_bind]. rewrite Hskip. reflexivity.
Qed.

Lemma device_outcomes_with_failure args devices : forall ds,
  Exists device_fails devices ->
  device_outcomes args devices = Val ds ->
  Exists is_unavailable (List.map snd ds).
Proof.
  unfold device_outcomes.
  induction devices as [|fs devices IH]; intros ds Hex; [ inversion Hex | ].
  cbn [res_map].
  destruct (device_outcome args fs) as [o|] eqn:Ho; cbn [res_bind]; [ | discriminate ].
  destruct (res_map (device_outcome args) devices) as [l|] eqn:Hl; cbn [res_bind] in *;
    [ | discriminate ].
  intros [= <-].
  inversion Hex as [? ? Hfs | ? ? Hrest]; subst.
  - destruct (device_fails_metric args fs Hfs) as (mountpoint & message & Hmp & Hm).
    unfold device_outcome in Ho. rewrite Hmp in Ho. cbn [res_bind] in Ho.
    rewrite Hm in Ho. cbn [res_bind] in Ho. injection Ho as <-.
    cbn. apply Exists_cons_hd. exists message. reflexivity.
  - specialize (IH (omap id l) Hrest eq_refl).
    destruct o as [[mountpoint m]|]; cbn; [ apply Exists_cons_tl | ]; exact IH.
Qed.

Lemma device_outcomes_all_skipped args devices :
  Forall device_skipped devices -> device_outcomes args devices = Val [].
Proof.
  unfold device_outcomes.
  induction 1 as [|fs devices Hfs _ IH]; cbn [res_map]; [ reflexivity | ].
  rewrite (device_skipped_outcome args fs Hfs). cbn [res_bind].
  destruct (res_map (device_outcome args) devices) as [l|]; cbn [res_bind] in *;
    [ | discriminate ].
  injection IH as IH. cbn. rewrite IH. reflexivity.
Qed.

Lemma disk_fails_metrics args disk_data md :
  disk_fails disk_data ->
  disk_metrics args disk_data = Val md ->
  Exists is_unavailable md.
Proof.
  intros (d & devices & -> & Hdev & Hcases).
  unfold disk_metrics, dict_get. rewrite Hdev. cbn [res_bind py_iter].
  destruct (device_outcomes args devices) as [ds|] eqn:Hds; cbn [res_bind];
    [ | discriminate ].
  destruct Hcases as [Hfail | Hskip].
  - pose proof (device_outcomes_with_failure args devices ds Hfail Hds) as Hex.
    destruct (no_primary_metric (PDict d) (processed_of (List.map snd ds))) as [np|];
      cbn [res_bind]; [ | discriminate ].
    intros [= <-]. apply Exists_app. left. exact Hex.
  - rewrite (device_outcomes_all_skipped args devices Hskip) in Hds.
    injection Hds as <-. cbn [List.map processed_of fold_right].
    unfold no_primary_metric. cbn [Z.eqb].
    destruct (mount_list_str_of (PDict d)) as [text|]; cbn [res_bind]; [ | discriminate ].
    intros [= <-]. apply Exists_cons_hd. eexists. reflexivity.
Qed.

(** C2, as the code has it.  In every run that reaches the final output
    (both calls returned a body and no section let an exception through),
    the overall severity is the maximum of the severities of the metrics of
    the run, starting from 0: the CPU metric, the memory metric, one metric
    for each device that is not skipped, and the report for no processed
    device.  The exit code is the overall severity, between 0 and 3, and
    the text printed begins with its name.  A failure the sections handle
    contributes 3 and not 0: a [load_average] with a component that is no
    float literal; a [memory], [memory.total] or [memory.used] that is
    missing or that [int()] rejects with a [ValueError]; a total that is not
    positive; a [used_pct] of a device of the allow-list that [float()]
    rejects with a [ValueError] or a [TypeError]; no device processed.  On
    each of them the section returns with the overall severity raised to 3,
    and a run that reaches the final output exits with 3.  A missing
    [load_average] or [used_pct] is none of them: it takes its default. *)
Theorem overall_severity_is_maximum srv args sys_data disk_data :
  reply_of srv args API_SYSTEM_RESOURCES = Body sys_data ->
  reply_of srv args API_SYSTEM_DISK = Body disk_data ->
  (forall code,
     fst (run_main srv args) = SysExit code ->
     exists ms,
       run_metrics args sys_data disk_data = Val ms
       /\ code = fold_left Z.max (List.map metric_severity ms) 0
       /\ Forall (fun m => metric_severity m <= code) ms
       /\ (code = 0 \/ Exists (fun m => metric_severity m = code) ms)
       /\ (Exists is_unavailable ms -> code = 3)
       /\ (extraction_fails sys_data disk_data -> code = 3)
       /\ 0 <= code <= 3
       /\ exit_status (run_main srv args) = code
       /\ stdout (snd (run_main srv args)) =
            [STATUS_MAP_get code +:+ " - "
             +:+ PyStr.join " | " (concat (List.map messages_of ms)) +:+ " | "
             +:+ PyStr.join " " (concat (List.map perfdata_of ms))]
       /\ In (STATUS_MAP_get code) ["OK"; "WARNING"; "CRITICAL"; "UNKNOWN"])
  /\ (cpu_load_fails sys_data ->
      forall st, exists st',
        cpu_load_check args sys_data st = (Ret tt, st')
        /\ overall_status st' = Z.max (overall_status st) 3)
  /\ (memory_fails sys_data ->
      forall st, exists st',
        memory_check args sys_data st = (Ret tt, st')
        /\ overall_status st' = Z.max (overall_status st) 3)
  /\ (forall fs,
        device_fails fs ->
        forall st, exists st',
          disk_device_check args fs st = (Ret tt, st')
          /\ overall_status st' = Z.max (overall_status st) 3).
Proof.
  intros Hsys Hdisk.
  split; [ | split; [ | split ] ].
  - intros code Hexit.
    pose proof (run_main_bodies srv args sys_data disk_data Hsys Hdisk) as Hrun.
    destruct (run_metrics args sys_data disk_data) as [ms|e] eqn:Hms.
    2:{ destruct Hrun as [Hrun _]. congruence. }
    destruct Hrun as [Hcode Hout].
    assert (Hc : code = severity_from 0 ms) by congruence.
    pose proof (run_metrics_in_range _ _ _ _ Hms) as Hrange.
    destruct (severity_from_max ms 0) as (Hle & Hall & Hex).
    assert (Hbound : 0 <= code <= 3).
    { split; [ lia | ]. destruct Hex as [Heq | Hex]; [ lia | ].
      apply Exists_exists in Hex. destruct Hex as (m & Hin & Hm).
      rewrite Forall_forall in Hrange. specialize (Hrange m Hin).
      unfold in_range in Hrange. lia. }
    assert (Hun : Exists is_unavailable ms -> code = 3).
    { intros Hun. apply Exists_exists in Hun. destruct Hun as (m & Hin & [message ->]).
      rewrite Forall_forall in Hall. specialize (Hall _ Hin). cbn in Hall. lia. }
    assert (Hfail : extraction_fails sys_data disk_data -> code = 3).
    { intros Hfail. apply Hun. clear Hun. unfold run_metrics in Hms.
      destruct (cpu_metric args sys_data) as [mc|] eqn:Hmc; cbn [res_bind] in Hms;
        [ | discriminate ].
      destruct (memory_metric args sys_data) as [mm|] eqn:Hmm; cbn [res_bind] in Hms;
        [ | discriminate ].
      destruct (disk_metrics args disk_data) as [md|] eqn:Hmd; cbn [res_bind] in Hms;
        [ | discriminate ].
      injection Hms as <-.
      destruct Hfail as [Hcpu | [Hmem | Hdsk]].
      - rewrite (cpu_load_fails_metric args sys_data Hcpu) in Hmc. injection Hmc as <-.
        apply Exists_cons_hd. eexists. reflexivity.
      - destruct (memory_fails_metric args sys_data Hmem) as [message Hm].
        rewrite Hm in Hmm. injection Hmm as <-.
        apply Exists_cons_tl, Exists_cons_hd. eexists. reflexivity.
      - apply Exists_cons_tl, Exists_cons_tl.
        exact (disk_fails_metrics args disk_data md Hdsk Hmd). }
    exists ms. rewrite <- Hc in *.
    refine (conj eq_refl (conj Hc (conj Hall (conj Hex (conj Hun (conj Hfail (conj Hbound
              (conj _ (conj _ _))))))))).
    + unfold exit_status. rewrite Hexit. reflexivity.
    + rewrite Hout. unfold status_line. rewrite <- Hc. reflexivity.
    + assert (Hcases : code = 0 \/ code = 1 \/ code = 2 \/ code = 3) by lia.
      destruct Hcases as [-> | [-> | [-> | ->]]]; cbn; tauto.
  - intros Hcpu st. rewrite cpu_load_check_run, (cpu_load_fails_metric args sys_data Hcpu).
    eexists. split; reflexivity.
  - intros Hmem st. destruct (memory_fails_metric args sys_data Hmem) as [message Hm].
    rewrite memory_check_run, Hm. eexists. split; reflexivity.
  - intros fs Hfs st.
    destruct (device_fails_metric args fs Hfs) as (mountpoint & message & Hmp & Hm).
    rewrite disk_device_check_run, Hmp, Hm. eexists. split; reflexivity.
Qed.

(** A run on a load that cannot be read: the CPU section returns with the
    severity 3, the memory is CRITICAL and the disk WARNING; the run exits
    with 3 after an UNKNOWN report. *)
Lemma overall_severity_is_maximum_witness :
  exit_status (run_main (answering unreadable_load example_disk) example_args) = 3
  /\ stdout (snd (run_main (answering unreadable_load example_disk) example_args)) =
       ["UNKNOWN - CPU Load data UNAVAILABLE | Memory: 95.0% (CRITICAL) | Disk /: 85.0% (WARNING) | 'mem_usage_pct'=95.0%;75;90;0;100 'mem_used_bytes'=950B 'mem_total_bytes'=1000B 'disk_root_pct'=85.0%;80;95;0;100"]
  /\ exists st',
       cpu_load_check example_args unreadable_load initial_state = (Ret tt, st')
       /\ overall_status st' = 3.
Proof.
  destruct (overall_severity_is_maximum (answering unreadable_load example_disk)
              example_args unreadable_load example_disk)
    as (Hrun & Hcpu & _).
  - vm_compute. reflexivity.
  - vm_compute. reflexivity.
  - assert (Hfails : cpu_load_fails unreadable_load).
    { exists (list_to_map [("load_average", PStr "n/a");
                           ("memory", obj [("total", PInt 1000); ("used", PInt 950)])]).
      exists "n/a". split; [ reflexivity | ]. split; [ vm_compute; reflexivity | ].
      apply Exists_cons_hd. vm_compute. reflexivity. }
    destruct (Hrun 3) as (ms & Hms & _ & _ & _ & _ & _ & _ & Hexit & Hout & _).
    { vm_compute. reflexivity. }
    split; [ exact Hexit | ]. split.
    + rewrite Hout. vm_compute in Hms. injection Hms as <-. vm_compute. reflexivity.
    + destruct (Hcpu Hfails initial_state) as (st' & Hcheck & Ho).
      exists st'. split; [ exact Hcheck | exact Ho ].
Defined.

(** C2 fails when a missing field counts as a failure: on bodies without
    [load_average] and without [used_pct] both take their default, the
    load 0.00 and the usage 0.0% are OK, and the run exits with 0, not with
    3. *)
Lemma missing_fields_exit_ok :
  fst (run_main (answering resources_without_load disk_without_used_pct) example_args)
  = SysExit 0
  /\ stdout (snd (run_main (answering resources_without_load disk_without_used_pct)
                    example_args)) =
       ["OK - CPU Load 1-min: 0.00 (OK) | Memory: 10.0% (OK) | Disk /: 0.0% (OK) | 'cpu_load_1min'=0.00;5.0;10.0;0.0; 'mem_usage_pct'=10.0%;75;90;0;100 'mem_used_bytes'=100B 'mem_total_bytes'=1000B 'disk_root_pct'=0.0%;80;95;0;100"].
Proof. split; vm_compute; reflexivity. Qed.

(** * Further properties of the probe *)

(** ** The exceptions the sections let through *)

Lemma split_not_nil sep s : PyStr.split sep s <> [].
Proof.
  destruct s as [|c s]; cbn [PyStr.split]; [ discriminate | ].
  destruct (Ascii.eqb c sep); [ discriminate | ].
  destruct (PyStr.split sep s); discriminate.
Qed.

Lemma res_map_length {A B} (f : A -> res B) (l : list A) : forall l',
  res_map f l = Val l' -> length l' = length l.
Proof.
  induction l as [|a l IH]; cbn [res_map]; intros l'.
  - intros [= <-]. reflexivity.
  - destruct (f a) as [b|]; cbn [res_bind]; [ | discriminate ].
    destruct (res_map f l) as [bs|]; cbn [res_bind]; [ | discriminate ].
    intros [= <-]. cbn. rewrite (IH bs eq_refl). reflexivity.
Qed.

Lemma res_map_raises {A B} (f : A -> res B) (P : exn -> Prop) (l : list A) e :
  (forall a e', f a = Raise e' -> P e') -> res_map f l = Raise e -> P e.
Proof.
  intros Hf. induction l as [|a l IH]; cbn [res_map]; [ discriminate | ].
  destruct (f a) as [b|e'] eqn:Hfa; cbn [res_bind].
  - destruct (res_map f l) as [bs|e'']; cbn [res_bind]; [ discriminate | ].
    intros [= <-]. apply IH. reflexivity.
  - intros [= <-]. exact (Hf _ _ Hfa).
Qed.

Lemma cpu_load_1min_of_raises sys_data e :
  cpu_load_1min_of sys_data = Raise e -> e = AttributeError \/ e = ValueError.
Proof.
  unfold cpu_load_1min_of.
  destruct (dict_get sys_data "load_average" (PStr "0.0,0.0,0.0")) as [v|e1] eqn:Hget;
    cbn [res_bind].
  2:{ intros [= <-]. destruct sys_data; cbn in Hget; try discriminate;
      injection Hget as <-; tauto. }
  destruct (str_split v ",") as [parts|e1] eqn:Hsplit; cbn [res_bind].
  2:{ intros [= <-]. destruct v; cbn in Hsplit; try discriminate;
      injection Hsplit as <-; tauto. }
  destruct (res_map _ parts) as [load_avg|e1] eqn:Hmap; cbn [res_bind].
  2:{ intros [= <-]. right.
      revert Hmap. apply (res_map_raises _ (fun e => e = ValueError)).
      intros a e' Ha. cbn [py_float] in Ha.
      destruct (float_of_string _); [ discriminate | congruence ]. }
  apply res_map_length in Hmap.
  destruct v; cbn in Hsplit; try discriminate. injection Hsplit as <-.
  destruct load_avg as [|x l]; [ | discriminate ].
  exfalso. apply (split_not_nil "," s). apply length_zero_iff_nil. symmetry. exact Hmap.
Qed.

Lemma int_truediv_raises a b e :
  b <> 0 -> int_truediv a b = Raise e -> e = OverflowError.
Proof.
  unfold int_truediv. intros Hb.
  destruct a, b; try contradiction; try discriminate;
    match goal with |- context [is_infinity ?x] => destruct (is_infinity x) end;
    congruence.
Qed.

Lemma getitem_raises o k e : getitem o k = Raise e -> e = KeyError \/ e = TypeError.
Proof.
  destruct o as [| | | | | |d]; cbn [getitem]; try (intros [= <-]; tauto).
  destruct (d !! k); [ discriminate | intros [= <-]; tauto ].
Qed.

Lemma py_int_raises o e :
  py_int o = Raise e -> e = ValueError \/ e = TypeError \/ e = OverflowError.
Proof.
  destruct o as [|b|z|x|s|l|d]; cbn [py_int]; try discriminate; try (intros [= <-]; tauto).
  - destruct x; try discriminate; intros [= <-]; tauto.
  - destruct (int_of_string s); [ discriminate | intros [= <-]; tauto ].
Qed.

Lemma memory_reading_raises sys_data e :
  memory_reading sys_data = Raise e ->
  e = KeyError \/ e = ValueError \/ e = TypeError \/ e = OverflowError.
Proof.
  unfold memory_reading.
  repeat match goal with
  | |- context [res_bind ?r _] =>
      lazymatch r with
      | context [res_bind _ _] => fail
      | _ => idtac
      end;
      let H := fresh "H" in
      destruct r eqn:H; cbn [res_bind];
      [ | intros [= <-];
          first [ apply getitem_raises in H | apply py_int_raises in H ];
          intuition congruence ]
  end.
  discriminate.
Qed.

Lemma memory_metric_raises args sys_data e :
  memory_metric args sys_data = Raise e -> e = TypeError \/ e = OverflowError.
Proof.
  unfold memory_metric, handling.
  destruct (memory_reading sys_data) as [[mem_total mem_used]|e1] eqn:Hread; cbn [res_bind].
  - destruct (0 <? mem_total) eqn:Hpos; [ | discriminate ].
    unfold memory_usage_pct.
    destruct (int_truediv mem_used mem_total) as [ratio|e1] eqn:Hdiv; cbn [res_bind];
      [ discriminate | ].
    apply int_truediv_raises in Hdiv; [ | apply Z.ltb_lt in Hpos; lia ].
    subst e1. cbn. intros [= <-]. tauto.
  - apply memory_reading_raises in Hread.
    destruct Hread as [-> | [-> | [-> | ->]]]; cbn; try discriminate;
      intros [= <-]; tauto.
Qed.

Lemma dict_get_raises o k dflt e : dict_get o k dflt = Raise e -> e = AttributeError.
Proof. destruct o; cbn [dict_get]; try discriminate; congruence. Qed.

Lemma device_outcome_raises args fs e :
  device_outcome args fs = Raise e -> e = AttributeError \/ e = OverflowError.
Proof.
  unfold device_outcome, primary_mount_of.
  destruct (dict_get fs "mountpoint" PNone) as [m|e1] eqn:Hget; cbn [res_bind].
  2:{ apply dict_get_raises in Hget. intros [= <-]. tauto. }
  destruct (str_in m PRIMARY_MOUNT_POINTS) as [mountpoint|]; [ | discriminate ].
  unfold device_metric, handling, used_pct_of.
  destruct (dict_get fs "used_pct" (PInt 0)) as [v|e1] eqn:Hused; cbn [res_bind].
  2:{ apply dict_get_raises in Hused. subst e1. cbn. intros [= <-]. tauto. }
  destruct (py_float v) as [x|e1] eqn:Hfloat; cbn [res_bind]; [ discriminate | ].
  apply py_float_raises in Hfloat.
  destruct Hfloat as [-> | [-> | ->]]; cbn; try discriminate. intros [= <-]. tauto.
Qed.

Lemma py_iter_raises o e : py_iter o = Raise e -> e = TypeError.
Proof. destruct o; cbn [py_iter]; try discriminate; congruence. Qed.

Lemma api_mount_of_raises fs e : api_mount_of fs = Raise e -> e = AttributeError.
Proof.
  unfold api_mount_of.
  destruct (dict_get fs "mountpoint" PNone) as [m|e1] eqn:Hget; cbn [res_bind].
  2:{ apply dict_get_raises in Hget. congruence. }
  destruct (truthy m); [ | discriminate ].
  destruct (py_startswith m PSEUDO_MOUNT_PREFIXES) as [b|e1] eqn:Hs; cbn [res_bind].
  - destruct b; discriminate.
  - destruct m; cbn in Hs; try discriminate; congruence.
Qed.

Lemma py_join_raises sep l e : py_join sep l = Raise e -> e = TypeError.
Proof.
  unfold py_join.
  destruct (res_map _ l) as [ss|e1] eqn:Hmap; cbn [res_bind]; [ discriminate | ].
  intros [= <-]. revert Hmap. apply (res_map_raises _ (fun e => e = TypeError)).
  intros a e' Ha. destruct a; try discriminate; congruence.
Qed.

Lemma mount_list_str_of_raises disk_data e :
  mount_list_str_of disk_data = Raise e -> e = AttributeError \/ e = TypeError.
Proof.
  unfold mount_list_str_of.
  destruct (dict_get disk_data "devices" (PList [])) as [devices|e1] eqn:Hget; cbn [res_bind].
  2:{ apply dict_get_raises in Hget. intros [= <-]. tauto. }
  destruct (py_iter devices) as [all_fs|e1] eqn:Hiter; cbn [res_bind].
  2:{ apply py_iter_raises in Hiter. intros [= <-]. tauto. }
  destruct (res_map api_mount_of all_fs) as [kept|e1] eqn:Hmap; cbn [res_bind].
  2:{ intros [= <-]. left. revert Hmap.
      apply (res_map_raises _ (fun e => e = AttributeError)).
      intros a e'. apply api_mount_of_raises. }
  destruct (omap id kept) as [|m l]; [ discriminate | ].
  intros H. apply py_join_raises in H. tauto.
Qed.

Lemma disk_metrics_raises args disk_data e :
  disk_metrics args disk_data = Raise e -> lets_through e.
Proof.
  unfold disk_metrics, lets_through.
  destruct (dict_get disk_data "devices" (PList [])) as [devices|e1] eqn:Hget; cbn [res_bind].
  2:{ apply dict_get_raises in Hget. intros [= <-]. tauto. }
  destruct (py_iter devices) as [all_fs|e1] eqn:Hiter; cbn [res_bind].
  2:{ apply py_iter_raises in Hiter. intros [= <-]. tauto. }
  destruct (device_outcomes args all_fs) as [ds|e1] eqn:Hds; cbn [res_bind].
  2:{ intros [= <-]. unfold device_outcomes in Hds.
      destruct (res_map (device_outcome args) all_fs) as [l|e2] eqn:Hmap; cbn [res_bind] in Hds;
        [ discriminate | ].
      injection Hds as <-.
      assert (H : e2 = AttributeError \/ e2 = OverflowError).
      { revert Hmap. apply (res_map_raises _ (fun e => e = AttributeError \/ e = OverflowError)).
        intros a e'. apply device_outcome_raises. }
      tauto. }
  unfold no_primary_metric.
  destruct (processed_of (List.map snd ds) =? 0); [ | discriminate ].
  destruct (mount_list_str_of disk_data) as [text|e1] eqn:Htext; cbn [res_bind];
    [ discriminate | ].
  apply mount_list_str_of_raises in Htext. intros [= <-]. tauto.
Qed.

Lemma cpu_metric_raises args sys_data e :
  cpu_metric args sys_data = Raise e -> e = AttributeError.
Proof.
  unfold cpu_metric, handling.
  destruct (cpu_load_1min_of sys_data) as [x|e1] eqn:Hload; cbn [res_bind]; [ discriminate | ].
  apply cpu_load_1min_of_raises in Hload.
  destruct Hload as [-> | ->]; cbn; [ congruence | discriminate ].
Qed.

(** ** How a run ends *)

(** The two ways a run ends. *)
Lemma run_main_ends srv args :
  (exists code rest,
     fst (run_main srv args) = SysExit code
     /\ 0 <= code <= 3
     /\ stdout (snd (run_main srv args)) = [STATUS_MAP_get code +:+ " - " +:+ rest])
  \/ (exists e,
        fst (run_main srv args) = Exc e
        /\ lets_through e
        /\ stdout (snd (run_main srv args)) = []).
Proof.
  destruct (reply_of srv args API_SYSTEM_RESOURCES) as [sys_data|f1] eqn:Hsys.
  2:{ left. exists 3. eexists.
      unfold run_main, main. rewrite bind_unfold, make_api_call_run, Hsys.
      cbn [fst snd stdout add_stdout add_requested initial_state app].
      split; [ reflexivity | ]. split; [ lia | ]. reflexivity. }
  destruct (reply_of srv args API_SYSTEM_DISK) as [disk_data|f2] eqn:Hdisk.
  - pose proof (run_main_bodies srv args sys_data disk_data Hsys Hdisk) as Hrun.
    destruct (run_metrics args sys_data disk_data) as [ms|e] eqn:Hms.
    + left. destruct Hrun as [Hexit Hout].
      exists (severity_from 0 ms). eexists.
      pose proof (run_metrics_in_range _ _ _ _ Hms) as Hrange.
      destruct (severity_from_max ms 0) as (Hle & _ & Hex).
      split; [ exact Hexit | ]. split; [ | exact Hout ].
      split; [ lia | ].
      destruct Hex as [Heq | Hex]; [ lia | ].
      apply Exists_exists in Hex. destruct Hex as (m & Hin & Hm).
      rewrite Forall_forall in Hrange. specialize (Hrange m Hin).
      unfold in_range in Hrange. lia.
    + right. exists e. destruct Hrun as [Hexit Hout].
      split; [ exact Hexit | ]. split; [ | exact Hout ].
      unfold run_metrics in Hms.
      destruct (cpu_metric args sys_data) as [mc|e1] eqn:Hc; cbn [res_bind] in Hms.
      2:{ injection Hms as <-. apply cpu_metric_raises in Hc. left. exact Hc. }
      destruct (memory_metric args sys_data) as [mm|e1] eqn:Hm; cbn [res_bind] in Hms.
      2:{ injection Hms as <-. apply memory_metric_raises in Hm. unfold lets_through. tauto. }
      destruct (disk_metrics args disk_data) as [md|e1] eqn:Hd; cbn [res_bind] in Hms;
        [ discriminate | ].
      injection Hms as <-. exact (disk_metrics_raises _ _ _ Hd).
  - unfold run_main, main. rewrite bind_unfold, make_api_call_run, Hsys.
    rewrite bind_unfold, cpu_load_check_run.
    destruct (cpu_metric args sys_data) as [mc|e] eqn:Hc.
    2:{ right. exists e. apply cpu_metric_raises in Hc.
        split; [ reflexivity | ]. split; [ left; exact Hc | reflexivity ]. }
    rewrite bind_unfold, memory_check_run.
    destruct (memory_metric args sys_data) as [mm|e] eqn:Hm.
    2:{ right. exists e. apply memory_metric_raises in Hm.
        split; [ reflexivity | ]. split; [ unfold lets_through; tauto | ].
        destruct mc; reflexivity. }
    rewrite bind_unfold, make_api_call_run, Hdisk.
    left. exists 3. eexists.
    split; [ reflexivity | ]. split; [ lia | ].
    destruct mc, mm; reflexivity.
Qed.

Lemma written_nothing (st : state) : stdout st = [] -> written st = "".
Proof. unfold written. intros ->. reflexivity. Qed.

(** X1. For every answer of the firewall (within the model: strings of
    code points below 256, which a UTF-8 standard output encodes), a run of
    [main] ends in one of two ways.  Either it calls [sys.exit] with a code
    between 0 and 3 after exactly one call of [print], whose text begins
    with the status word of that code followed by [" - "]; what is written
    is that text and a newline (one line when the text holds no newline).
    Or an exception that no handler catches ([AttributeError], [TypeError]
    or [OverflowError]) ends it and nothing was written.  No [KeyError],
    [IndexError], [ValueError] or [ZeroDivisionError] of the sections ends
    a run, and no run returns without [sys.exit]. *)
Theorem run_ends_with_one_print_or_silently srv args :
  (exists code rest,
     fst (run_main srv args) = SysExit code
     /\ 0 <= code <= 3
     /\ stdout (snd (run_main srv args)) = [STATUS_MAP_get code +:+ " - " +:+ rest]
     /\ written (snd (run_main srv args))
        = (STATUS_MAP_get code +:+ " - " +:+ rest) +:+ String newline "")
  \/ (exists e,
        fst (run_main srv args) = Exc e
        /\ lets_through e
        /\ stdout (snd (run_main srv args)) = []
        /\ written (snd (run_main srv args)) = "").
Proof.
  destruct (run_main_ends srv args)
    as [(code & rest & Hexit & Hcode & Hout) | (e & Hexc & He & Hout)].
  - left. exists code, rest.
    split; [ exact Hexit | ]. split; [ exact Hcode | ]. split; [ exact Hout | ].
    exact (written_one _ _ Hout).
  - right. exists e.
    split; [ exact Hexc | ]. split; [ exact He | ]. split; [ exact Hout | ].
    exact (written_nothing _ Hout).
Qed.

Lemma run_main_requested srv args :
  requested (snd (run_main srv args)) =
    url_of args API_SYSTEM_RESOURCES ::
    match reply_of srv args API_SYSTEM_RESOURCES with
    | Body sys_data =>
        match cpu_metric args sys_data, memory_metric args sys_data with
        | Val _, Val _ => [url_of args API_SYSTEM_DISK]
        | _, _ => []
        end
    | Failure _ => []
    end.
Proof.
  unfold run_main, main. rewrite bind_unfold, make_api_call_run.
  destruct (reply_of srv args API_SYSTEM_RESOURCES) as [sys_data|f1]; [ | reflexivity ].
  rewrite bind_unfold, cpu_load_check_run.
  destruct (cpu_metric args sys_data) as [mc|e]; [ | reflexivity ].
  rewrite bind_unfold, memory_check_run.
  destruct (memory_metric args sys_data) as [mm|e]; [ | destruct mc; reflexivity ].
  rewrite bind_unfold, make_api_call_run.
  destruct (reply_of srv args API_SYSTEM_DISK) as [disk_data|f2];
    [ | destruct mc, mm; reflexivity ].
  set (st2 := add_requested _ _).
  assert (Hst2 : requested st2 =
                 [url_of args API_SYSTEM_RESOURCES; url_of args API_SYSTEM_DISK])
    by (unfold st2; destruct mc, mm; reflexivity).
  rewrite bind_unfold.
  destruct (silent_disk_check args disk_data st2) as [_ Hr].
  destruct (disk_check args disk_data st2) as [[[]|e|n] st3]; cbn [snd] in *;
    try (rewrite Hr; exact Hst2).
  unfold final_output, get, print, modify, sys_exit, bind. cbn [snd requested].
  rewrite Hr. exact Hst2.
Qed.

(** X2. A run requests the system-resources URL first and once, then
    possibly the system-disk URL once, and nothing else: no URL is
    requested twice.  The system-disk URL is requested exactly when the
    first call returned a body and neither the CPU section nor the memory
    section let an exception through. *)
Theorem requests_of_a_run srv args :
  let urls := requested (snd (run_main srv args)) in
  let resources := url_of args API_SYSTEM_RESOURCES in
  let disk := url_of args API_SYSTEM_DISK in
  (urls = [resources] \/ urls = [resources; disk])
  /\ List.NoDup urls
  /\ (urls = [resources; disk] <->
      exists sys_data mc mm,
        reply_of srv args API_SYSTEM_RESOURCES = Body sys_data
        /\ cpu_metric args sys_data = Val mc
        /\ memory_metric args sys_data = Val mm).
Proof.
  intros urls resources disk.
  assert (Hne : resources <> disk).
  { intros Heq. apply url_of_inj in Heq. discriminate. }
  pose proof (run_main_requested srv args) as Hreq. fold urls resources disk in Hreq.
  destruct (reply_of srv args API_SYSTEM_RESOURCES) as [sys_data|f1].
  - destruct (cpu_metric args sys_data) as [mc|e1] eqn:Hc.
    + destruct (memory_metric args sys_data) as [mm|e2] eqn:Hm.
      * rewrite Hreq. split; [ right; reflexivity | ]. split.
        -- constructor; [ intros [H | []]; apply Hne; symmetry; exact H | ].
           constructor; [ intros [] | constructor ].
        -- split; [ | reflexivity ]. intros _. exists sys_data, mc, mm. auto.
      * rewrite Hreq. split; [ left; reflexivity | ]. split.
        -- constructor; [ intros [] | constructor ].
        -- split; [ discriminate | ].
           intros (s & mc' & mm & [= <-] & _ & Hmm). congruence.
    + rewrite Hreq. split; [ left; reflexivity | ]. split.
      * constructor; [ intros [] | constructor ].
      * split; [ discriminate | ].
        intros (s & mc & mm & [= <-] & Hmc & _). congruence.
  - rewrite Hreq. split; [ left; reflexivity | ]. split.
    + constructor; [ intros [] | constructor ].
    + split; [ discriminate | ]. intros (s & mc & mm & Hs & _). discriminate.
Qed.

(** ** The CPU section on a load that parses *)

Lemma res_map_py_float_parseable (g : string -> string) (parts : list string) :
  Forall (fun p => float_of_string (g p) <> None) parts ->
  exists l, res_map (fun x => py_float (PStr (g x))) parts = Val l.
Proof.
  induction 1 as [|p parts Hp _ [l IH]]; cbn [res_map].
  - eexists. reflexivity.
  - rewrite IH. cbn [py_float].
    destruct (float_of_string (g p)) as [x|]; [ | congruence ].
    cbn [res_bind]. eexists. reflexivity.
Qed.

Lemma cpu_load_1min_of_parsed (d : gmap string pyval) s first rest x :
  d !! "load_average" = Some (PStr s) ->
  PyStr.split "," s = first :: rest ->
  float_of_string (PyStr.strip PyStr.isspace first) = Some x ->
  Forall (fun p => float_of_string (PyStr.strip PyStr.isspace p) <> None) rest ->
  cpu_load_1min_of (PDict d) = Val x.
Proof.
  intros Hs Hsplit Hfirst Hrest.
  unfold cpu_load_1min_of, dict_get. rewrite Hs.
  cbn [from_option id res_bind str_split]. rewrite Hsplit.
  destruct (res_map_py_float_parseable (PyStr.strip PyStr.isspace) rest Hrest) as [l Hl].
  cbn [res_map]. rewrite Hl. cbn [py_float]. rewrite Hfirst. reflexivity.
Qed.

(** X3. When [load_average] is a string whose comma-separated components
    all are float literals once stripped, the first component is the load:
    it is classified against the CPU thresholds, the message
    ["CPU Load 1-min: <load to 2 decimals> (<LABEL>)"] is appended, and one
    performance datum with the thresholds as they print and the minimum
    [0.0]. *)
Theorem cpu_load_is_classified args (d : gmap string pyval) s first rest x st :
  d !! "load_average" = Some (PStr s) ->
  PyStr.split "," s = first :: rest ->
  float_of_string (PyStr.strip PyStr.isspace first) = Some x ->
  Forall (fun p => float_of_string (PyStr.strip PyStr.isspace p) <> None) rest ->
  let sev := fst (check_threshold (NFloat x) (cpu_warn args) (cpu_crit args)) in
  let label := snd (check_threshold (NFloat x) (cpu_warn args) (cpu_crit args)) in
  exists st',
    cpu_load_check args (PDict d) st = (Ret tt, st')
    /\ overall_status st' = Z.max (overall_status st) sev
    /\ message_parts st' =
         message_parts st ++
         ["CPU Load 1-min: " +:+ format_fixed 2 x +:+ " (" +:+ label +:+ ")"]
    /\ perfdata_parts st' =
         perfdata_parts st ++
         ["'cpu_load_1min'=" +:+ format_fixed 2 x +:+ ";" +:+ num_str (cpu_warn args)
            +:+ ";" +:+ num_str (cpu_crit args) +:+ ";0.0;"].
Proof.
  intros Hs Hsplit Hfirst Hrest sev label.
  rewrite cpu_load_check_run. unfold cpu_metric.
  rewrite (cpu_load_1min_of_parsed d s first rest x Hs Hsplit Hfirst Hrest).
  cbn [res_bind handling]. unfold cpu_fragments. subst sev label.
  destruct (check_threshold (NFloat x) (cpu_warn args) (cpu_crit args)) as [sev label].
  eexists. split; [ reflexivity | ].
  cbn. repeat split; reflexivity.
Qed.

Lemma cpu_load_is_classified_witness :
  exists st',
    cpu_load_check example_args (obj [("load_average", PStr "7.25, 1.00, 0.50")]) initial_state
      = (Ret tt, st')
    /\ overall_status st' = 1
    /\ message_parts st' = ["CPU Load 1-min: 7.25 (WARNING)"]
    /\ perfdata_parts st' = ["'cpu_load_1min'=7.25;5.0;10.0;0.0;"].
Proof.
  destruct (cpu_load_is_classified example_args
              (list_to_map [("load_average", PStr "7.25, 1.00, 0.50")])
              "7.25, 1.00, 0.50" "7.25" [" 1.00"; " 0.50"]
              (float_of_decimal false 725 (-2)) initial_state)
    as (st' & Hrun & Ho & Hm & Hp).
  - vm_compute. reflexivity.
  - vm_compute. reflexivity.
  - vm_compute. reflexivity.
  - repeat constructor; vm_compute; discriminate.
  - exists st'. split; [ exact Hrun | ].
    rewrite Ho, Hm, Hp. vm_compute. repeat split; reflexivity.
Defined.

(** ** What a section can do *)

Lemma cpu_fragments_well_formed args x : well_formed 1 (cpu_fragments args x).
Proof.
  unfold cpu_fragments.
  pose proof (check_threshold_range (NFloat x) (cpu_warn args) (cpu_crit args)) as H.
  destruct (check_threshold _ _ _). cbn in *. auto.
Qed.

Lemma memory_fragments_well_formed args used total pct :
  well_formed 3 (memory_fragments args used total pct).
Proof.
  unfold memory_fragments.
  pose proof (check_threshold_range (NFloat pct) (mem_warn args) (mem_crit args)) as H.
  destruct (check_threshold _ _ _). cbn in *. auto.
Qed.

Lemma disk_fragments_well_formed args mountpoint pct :
  well_formed 1 (disk_fragments args mountpoint pct).
Proof.
  unfold disk_fragments.
  pose proof (check_threshold_range (NFloat pct) (disk_warn args) (disk_crit args)) as H.
  destruct (check_threshold _ _ _). cbn in *. auto.
Qed.

(** X4. The CPU section has two outcomes.  On a body that is an object
    whose [load_average] is a string or is missing, it returns, having
    recorded exactly one message: an evaluated load with a severity up to 2
    and one performance datum, or ["CPU Load data UNAVAILABLE"] with
    severity 3.  On any other body (no object, or a [load_average] of
    another type) it raises [AttributeError] and leaves every variable as
    it was. *)
Theorem cpu_load_check_outcome args sys_data st :
  if load_average_is_text sys_data then
    exists m,
      cpu_load_check args sys_data st = (Ret tt, record_metric m st)
      /\ well_formed 1 m
      /\ (forall message, m = Unavailable message -> message = "CPU Load data UNAVAILABLE")
  else cpu_load_check args sys_data st = (Exc AttributeError, st).
Proof.
  rewrite cpu_load_check_run. unfold cpu_metric, cpu_load_1min_of, load_average_is_text.
  destruct sys_data as [| | | | | |d]; try reflexivity.
  cbn [dict_get res_bind].
  destruct (d !! "load_average") as [[| | | |s| |]|];
    cbn [from_option id str_split res_bind]; try reflexivity.
  all: destruct (res_map _ _) as [load_avg|e] eqn:Hmap; cbn [res_bind];
    [ destruct (list_getitem load_avg 0) as [x|e] eqn:Hx; cbn [res_bind handling];
      [ exists (cpu_fragments args x); split; [ reflexivity | ];
        split; [ apply cpu_fragments_well_formed | ];
        intros message; unfold cpu_fragments; destruct (check_threshold _ _ _); discriminate
      | unfold list_getitem in Hx; destruct (load_avg !! 0%nat); [ discriminate | ];
        injection Hx as <-; exists (Unavailable "CPU Load data UNAVAILABLE");
        split; [ reflexivity | ]; split; [ exact I | ]; congruence ]
    | assert (He : e = ValueError)
        by (revert Hmap; apply (res_map_raises _ (fun e => e = ValueError));
            intros a e' Ha; cbn [py_float] in Ha;
            destruct (float_of_string _); [ discriminate | congruence ]);
      subst e; exists (Unavailable "CPU Load data UNAVAILABLE");
      split; [ reflexivity | ]; split; [ exact I | ]; congruence ].
Qed.

(** X5. The memory section either returns, having recorded exactly one
    message (an evaluated usage with a severity up to 2 and three
    performance data, or one of the two messages
    ["Memory data UNAVAILABLE"] and ["Memory data UNAVAILABLE (Total=0)"]
    with severity 3), or raises [TypeError] or [OverflowError] and leaves
    every variable as it was.  In particular it never divides by zero. *)
Theorem memory_check_outcome args sys_data st :
  (exists m,
     memory_check args sys_data st = (Ret tt, record_metric m st)
     /\ well_formed 3 m
     /\ (forall message, m = Unavailable message ->
           message = "Memory data UNAVAILABLE"
           \/ message = "Memory data UNAVAILABLE (Total=0)"))
  \/ (exists e,
        memory_check args sys_data st = (Exc e, st)
        /\ (e = TypeError \/ e = OverflowError)).
Proof.
  rewrite memory_check_run.
  destruct (memory_metric args sys_data) as [m|e] eqn:Hm.
  2:{ right. exists e. split; [ reflexivity | ]. exact (memory_metric_raises _ _ _ Hm). }
  left. exists m. split; [ reflexivity | ].
  revert Hm. unfold memory_metric, handling.
  destruct (memory_reading sys_data) as [[mem_total mem_used]|e]; cbn [res_bind].
  - destruct (0 <? mem_total).
    + unfold memory_usage_pct.
      destruct (int_truediv mem_used mem_total) as [ratio|e]; cbn [res_bind].
      * intros [= <-]. split; [ apply memory_fragments_well_formed | ].
        intros message. unfold memory_fragments. destruct (check_threshold _ _ _). discriminate.
      * destruct (caught _ e); [ | discriminate ].
        intros [= <-]. split; [ exact I | ]. intros message [= <-]. tauto.
    + intros [= <-]. split; [ exact I | ]. intros message [= <-]. tauto.
  - destruct (caught _ e); [ | discriminate ].
    intros [= <-]. split; [ exact I | ]. intros message [= <-]. tauto.
Qed.

(** X6. One round of the loop over the devices has four outcomes: the
    device is skipped and nothing changes; or its mount point, one of the
    allow-list, is added to the available mounts and one message is
    recorded (an evaluated usage with a severity up to 2 and one
    performance datum, or the parsing-error message with severity 3); or
    the device is no object and [AttributeError] is raised with nothing
    changed; or [OverflowError] is raised after the mount point was added
    to the available mounts. *)
Theorem disk_device_check_outcome args fs st :
  disk_device_check args fs st = (Ret tt, st)
  \/ (exists mountpoint m,
        In mountpoint PRIMARY_MOUNT_POINTS
        /\ disk_device_check args fs st = (Ret tt, record_device mountpoint m st)
        /\ well_formed 1 m
        /\ (forall message, m = Unavailable message ->
              message = "Disk " +:+ mountpoint
                        +:+ " data UNKNOWN (Parsing error on 'used_pct')"))
  \/ disk_device_check args fs st = (Exc AttributeError, st)
  \/ (exists mountpoint,
        In mountpoint PRIMARY_MOUNT_POINTS
        /\ disk_device_check args fs st = (Exc OverflowError, add_available mountpoint st)).
Proof.
  rewrite disk_device_check_run. unfold primary_mount_of.
  destruct fs as [| | | | | |d]; cbn [dict_get res_bind]; try tauto.
  destruct (str_in _ PRIMARY_MOUNT_POINTS) as [mountpoint|] eqn:Hin; [ | tauto ].
  assert (Hprimary : In mountpoint PRIMARY_MOUNT_POINTS).
  { unfold str_in in Hin. destruct (default PNone (d !! "mountpoint")); try discriminate.
    destruct (existsb _ _) eqn:Hex; [ | discriminate ]. injection Hin as <-.
    apply existsb_exists in Hex. destruct Hex as (x & Hx & Heq).
    apply String.eqb_eq in Heq. subst x. exact Hx. }
  unfold device_metric, used_pct_of, handling. cbn [dict_get res_bind].
  destruct (py_float _) as [pct|e] eqn:Hfloat; cbn [res_bind].
  - right. left. exists mountpoint. eexists. split; [ exact Hprimary | ].
    split; [ reflexivity | ]. split; [ apply disk_fragments_well_formed | ].
    intros message. unfold disk_fragments. destruct (check_threshold _ _ _). discriminate.
  - destruct (py_float_raises _ _ Hfloat) as [-> | [-> | ->]]; cbn.
    + right. left. exists mountpoint. eexists. split; [ exact Hprimary | ].
      split; [ reflexivity | ]. split; [ exact I | ]. intros message [= <-]. reflexivity.
    + right. left. exists mountpoint. eexists. split; [ exact Hprimary | ].
      split; [ reflexivity | ]. split; [ exact I | ]. intros message [= <-]. reflexivity.
    + right. right. right. exists mountpoint. split; [ exact Hprimary | reflexivity ].
Qed.

(** ** The memory section on fields that are missing or of another form *)

(** X7. When [memory] is missing, or [memory.total] is missing or converts
    with a [ValueError] (a string that is no int literal, a NaN), or
    [memory.total] converts and [memory.used] is missing or converts with a
    [ValueError], the section records ["Memory data UNAVAILABLE"] with
    severity 3 and no performance data. *)
Theorem memory_field_unusable_is_unavailable args (d : gmap string pyval) st :
  d !! "memory" = None
  \/ (exists mem,
        d !! "memory" = Some (PDict mem)
        /\ (mem !! "total" = None
            \/ (exists total,
                  mem !! "total" = Some total
                  /\ (py_int total = Raise ValueError
                      \/ (exists mem_total,
                            py_int total = Val mem_total
                            /\ (mem !! "used" = None
                                \/ exists used,
                                     mem !! "used" = Some used
                                     /\ py_int used = Raise ValueError)))))) ->
  memory_check args (PDict d) st = (Ret tt, record 3 ["Memory data UNAVAILABLE"] [] st).
Proof.
  intros H. rewrite memory_check_run. unfold memory_metric, memory_reading, getitem.
  destruct H as [-> | (mem & -> & H)]; [ reflexivity | ].
  cbn [res_bind].
  destruct H as [-> | (total & -> & H)]; [ reflexivity | ].
  cbn [res_bind].
  destruct H as [-> | (mem_total & -> & H)]; [ reflexivity | ].
  cbn [res_bind].
  destruct H as [-> | (used & -> & Hused)]; [ reflexivity | ].
  cbn [res_bind]. rewrite Hused. reflexivity.
Qed.

Lemma memory_field_unusable_is_unavailable_witness :
  memory_check example_args
    (obj [("memory", obj [("total", PStr "8 GB"); ("used", PInt 950)])]) initial_state
  = (Ret tt, record 3 ["Memory data UNAVAILABLE"] [] initial_state).
Proof.
  apply (memory_field_unusable_is_unavailable example_args
           (list_to_map [("memory", obj [("total", PStr "8 GB"); ("used", PInt 950)])])).
  right. exists (list_to_map [("total", PStr "8 GB"); ("used", PInt 950)]).
  split; [ vm_compute; reflexivity | ].
  right. exists (PStr "8 GB"). split; [ vm_compute; reflexivity | ].
  left. vm_compute. reflexivity.
Defined.

(** X8. A negative [memory.total] is reported like a total of zero: when
    both fields convert to ints and the total is below 0, the section
    records ["Memory data UNAVAILABLE (Total=0)"] with severity 3 and no
    performance data, and divides nothing. *)
Theorem memory_total_negative_is_unavailable args (d mem : gmap string pyval)
    total used mem_total mem_used st :
  d !! "memory" = Some (PDict mem) ->
  mem !! "total" = Some total ->
  py_int total = Val mem_total ->
  mem_total < 0 ->
  mem !! "used" = Some used ->
  py_int used = Val mem_used ->
  memory_check args (PDict d) st
  = (Ret tt, record 3 ["Memory data UNAVAILABLE (Total=0)"] [] st).
Proof.
  intros Hmem Htotal Hint Hneg Hused Hint'. rewrite memory_check_run.
  unfold memory_metric, memory_reading, getitem.
  rewrite Hmem. cbn [res_bind]. rewrite Htotal. cbn [res_bind]. rewrite Hint.
  cbn [res_bind]. rewrite Hused. cbn [res_bind]. rewrite Hint'. cbn [res_bind handling].
  assert (Hpos : (0 <? mem_total) = false) by (apply Z.ltb_ge; lia).
  rewrite Hpos. reflexivity.
Qed.

Lemma memory_total_negative_is_unavailable_witness :
  memory_check example_args
    (obj [("memory", obj [("total", PStr "-1024"); ("used", PInt 512)])]) initial_state
  = (Ret tt, record 3 ["Memory data UNAVAILABLE (Total=0)"] [] initial_state).
Proof.
  apply (memory_total_negative_is_unavailable example_args
           (list_to_map [("memory", obj [("total", PStr "-1024"); ("used", PInt 512)])])
           (list_to_map [("total", PStr "-1024"); ("used", PInt 512)])
           (PStr "-1024") (PInt 512) (-1024) 512 initial_state);
    vm_compute; reflexivity.
Defined.

(** X9. The memory section depends on [memory.total] and [memory.used]
    through [int()] only: whatever the two fields are (ints, strings with
    an int literal, floats, booleans) and whatever else the body holds, the
    section does what it does on the body made of the two converted
    ints. *)
Theorem memory_fields_go_through_int args (d mem : gmap string pyval)
    total used mem_total mem_used st :
  d !! "memory" = Some (PDict mem) ->
  mem !! "total" = Some total ->
  mem !! "used" = Some used ->
  py_int total = Val mem_total ->
  py_int used = Val mem_used ->
  memory_check args (PDict d) st
  = memory_check args
      (obj [("memory", obj [("total", PInt mem_total); ("used", PInt mem_used)])]) st.
Proof.
  intros Hmem Htotal Hused Hint Hint'. rewrite !memory_check_run.
  assert (Hleft : memory_reading (PDict d) = Val (mem_total, mem_used)).
  { unfold memory_reading, getitem.
    rewrite Hmem. cbn [res_bind]. rewrite Htotal. cbn [res_bind]. rewrite Hint.
    cbn [res_bind]. rewrite Hused. cbn [res_bind]. rewrite Hint'. reflexivity. }
  assert (Hright : memory_reading
                     (obj [("memory", obj [("total", PInt mem_total); ("used", PInt mem_used)])])
                   = Val (mem_total, mem_used)).
  { vm_compute. reflexivity. }
  unfold memory_metric. rewrite Hleft, Hright. reflexivity.
Qed.

Lemma memory_fields_go_through_int_witness :
  memory_check example_args
    (obj [("memory", obj [("total", PStr " 1_000 "); ("used", PFloat (float_of_decimal false 9509 (-1)));
                          ("free", PInt 50)]);
          ("load_average", PStr "0.1")]) initial_state
  = memory_check example_args
      (obj [("memory", obj [("total", PInt 1000); ("used", PInt 950)])]) initial_state.
Proof.
  apply (memory_fields_go_through_int example_args
           (list_to_map
              [("memory", obj [("total", PStr " 1_000 ");
                               ("used", PFloat (float_of_decimal false 9509 (-1)));
                               ("free", PInt 50)]);
               ("load_average", PStr "0.1")])
           (list_to_map [("total", PStr " 1_000 ");
                         ("used", PFloat (float_of_decimal false 9509 (-1)));
                         ("free", PInt 50)])
           (PStr " 1_000 ") (PFloat (float_of_decimal false 9509 (-1))) 1000 950 initial_state);
    vm_compute; reflexivity.
Defined.

(** ** Bodies of another shape *)

Lemma cpu_metric_not_object args sys_data :
  is_object sys_data = false -> cpu_metric args sys_data = Raise AttributeError.
Proof. destruct sys_data; try discriminate; reflexivity. Qed.

Lemma disk_metrics_not_object args disk_data :
  is_object disk_data = false -> disk_metrics args disk_data = Raise AttributeError.
Proof. destruct disk_data; try discriminate; reflexivity. Qed.

(** X10. When both calls return a body and one of the two bodies is no
    JSON object (a list, a string, a number, null), the run prints nothing
    and ends with an exception no handler catches, hence with the exit
    status 1 and not with one of the codes 0 to 3.  When it is the
    system-resources body, the exception is the [AttributeError] of the CPU
    section and the system-disk URL is never requested. *)
Theorem body_not_an_object_ends_the_run srv args sys_data disk_data :
  reply_of srv args API_SYSTEM_RESOURCES = Body sys_data ->
  reply_of srv args API_SYSTEM_DISK = Body disk_data ->
  is_object sys_data = false \/ is_object disk_data = false ->
  (exists e, fst (run_main srv args) = Exc e /\ lets_through e)
  /\ stdout (snd (run_main srv args)) = []
  /\ exit_status (run_main srv args) = 1
  /\ (is_object sys_data = false ->
      fst (run_main srv args) = Exc AttributeError
      /\ requested (snd (run_main srv args)) = [url_of args API_SYSTEM_RESOURCES]).
Proof.
  intros Hsys Hdisk Hshape.
  pose proof (run_main_bodies srv args sys_data disk_data Hsys Hdisk) as Hrun.
  assert (Hraise : exists e, run_metrics args sys_data disk_data = Raise e /\ lets_through e).
  { unfold run_metrics.
    destruct (cpu_metric args sys_data) as [mc|e] eqn:Hc; cbn [res_bind].
    2:{ exists e. split; [ reflexivity | ]. left. exact (cpu_metric_raises _ _ _ Hc). }
    destruct (memory_metric args sys_data) as [mm|e] eqn:Hm; cbn [res_bind].
    2:{ exists e. split; [ reflexivity | ].
        apply memory_metric_raises in Hm. unfold lets_through. tauto. }
    destruct Hshape as [Hs | Hd].
    - rewrite (cpu_metric_not_object _ _ Hs) in Hc. discriminate.
    - rewrite (disk_metrics_not_object _ _ Hd). cbn [res_bind].
      exists AttributeError. split; [ reflexivity | ]. left. reflexivity. }
  destruct Hraise as (e & Hms & He). rewrite Hms in Hrun. destruct Hrun as [Hexit Hout].
  split; [ exists e; split; assumption | ].
  split; [ exact Hout | ].
  split; [ unfold exit_status; rewrite Hexit; reflexivity | ].
  intros Hs. unfold run_metrics in Hms.
  rewrite (cpu_metric_not_object _ _ Hs) in Hms. cbn [res_bind] in Hms.
  injection Hms as <-. split; [ exact Hexit | ].
  pose proof (run_main_requested srv args) as Hreq.
  rewrite Hsys, (cpu_metric_not_object _ _ Hs) in Hreq. exact Hreq.
Qed.

Lemma body_not_an_object_ends_the_run_witness :
  (exists e, fst (run_main (answering (PList []) example_disk) example_args) = Exc e
             /\ lets_through e)
  /\ stdout (snd (run_main (answering (PList []) example_disk) example_args)) = []
  /\ exit_status (run_main (answering (PList []) example_disk) example_args) = 1
  /\ (is_object (PList []) = false ->
      fst (run_main (answering (PList []) example_disk) example_args) = Exc AttributeError
      /\ requested (snd (run_main (answering (PList []) example_disk) example_args))
         = [url_of example_args API_SYSTEM_RESOURCES]).
Proof.
  apply (body_not_an_object_ends_the_run (answering (PList []) example_disk) example_args
           (PList []) example_disk).
  - vm_compute. reflexivity.
  - vm_compute. reflexivity.
  - left. reflexivity.
Defined.

Lemma device_outcome_not_object args fs :
  is_object fs = false -> device_outcome args fs = Raise AttributeError.
Proof. destruct fs; try discriminate; reflexivity. Qed.

Lemma res_map_exists_raises {A B} (f : A -> res B) (l : list A) :
  Exists (fun a => exists e, f a = Raise e) l -> exists e, res_map f l = Raise e.
Proof.
  induction 1 as [a l [e He] | a l _ [e IH]]; cbn [res_map].
  - rewrite He. exists e. reflexivity.
  - rewrite IH. destruct (f a) as [b|e']; cbn [res_bind]; eexists; reflexivity.
Qed.

(** X11. When [devices] is present and cannot be iterated (null, a
    number, a boolean), or one of the elements it yields is no object, the
    disk section raises an exception that no handler catches and prints
    nothing. *)
Theorem malformed_devices_end_the_section args (d : gmap string pyval) devices st :
  d !! "devices" = Some devices ->
  match py_iter devices with
  | Val all_fs => Exists (fun fs => is_object fs = false) all_fs
  | Raise _ => True
  end ->
  exists e st',
    disk_check args (PDict d) st = (Exc e, st')
    /\ lets_through e
    /\ stdout st' = stdout st.
Proof.
  intros Hdev Hbad.
  assert (Hraise : exists e, disk_metrics args (PDict d) = Raise e).
  { unfold disk_metrics, dict_get. rewrite Hdev. cbn [from_option id res_bind].
    destruct (py_iter devices) as [all_fs|e]; cbn [res_bind]; [ | eexists; reflexivity ].
    unfold device_outcomes.
    destruct (res_map_exists_raises (device_outcome args) all_fs) as [e He].
    { apply List.Exists_exists in Hbad. destruct Hbad as (fs & Hin & Hfs).
      apply List.Exists_exists. exists fs. split; [ exact Hin | ]. exists AttributeError. apply device_outcome_not_object. exact Hfs. }
    rewrite He. cbn [res_bind]. eexists. reflexivity. }
  destruct Hraise as [e He].
  pose proof (disk_check_run args (PDict d) st) as Hrun. rewrite He in Hrun.
  destruct (silent_disk_check args (PDict d) st) as [Hs _].
  destruct (disk_check args (PDict d) st) as [r st']. cbn [fst snd] in *. subst r.
  exists e, st'. split; [ reflexivity | ]. split; [ | exact Hs ].
  exact (disk_metrics_raises _ _ _ He).
Qed.

Lemma malformed_devices_end_the_section_witness :
  exists e st',
    disk_check example_args (obj [("devices", PNone)]) initial_state = (Exc e, st')
    /\ lets_through e
    /\ stdout st' = stdout initial_state.
Proof.
  apply (malformed_devices_end_the_section example_args
           (list_to_map [("devices", PNone)]) PNone initial_state).
  - vm_compute. reflexivity.
  - exact I.
Defined.

(** ** Handlers that are never used *)

(** X12. The CPU section behaves as if it handled [ValueError] only: its
    [try] body never raises [KeyError] (the load is read with [get]) nor
    [IndexError] ([split] never returns an empty list).  The [try] of the
    loop over the devices behaves as if it handled [ValueError] and
    [TypeError] only: it never raises [KeyError]. *)
Theorem unused_handlers args :
  (forall sys_data st,
     cpu_load_check args sys_data st =
       match handling [ValueError] "CPU Load data UNAVAILABLE"
               (res_bind (cpu_load_1min_of sys_data)
                         (fun x => Val (cpu_fragments args x))) with
       | Val m => (Ret tt, record_metric m st)
       | Raise e => (Exc e, st)
       end)
  /\ (forall fs mountpoint,
        device_metric args fs mountpoint =
          handling [ValueError; TypeError]
            ("Disk " +:+ mountpoint +:+ " data UNKNOWN (Parsing error on 'used_pct')")
            (res_bind (used_pct_of fs)
                      (fun pct => Val (disk_fragments args mountpoint pct)))).
Proof.
  split.
  - intros sys_data st. rewrite cpu_load_check_run. unfold cpu_metric, handling.
    destruct (cpu_load_1min_of sys_data) as [x|e] eqn:Hload; cbn [res_bind];
      [ reflexivity | ].
    destruct (cpu_load_1min_of_raises _ _ Hload) as [-> | ->]; reflexivity.
  - intros fs mountpoint. unfold device_metric, handling, used_pct_of.
    destruct (dict_get fs "used_pct" (PInt 0)) as [v|e] eqn:Hget; cbn [res_bind].
    + destruct (py_float v) as [pct|e] eqn:Hfloat; cbn [res_bind]; [ reflexivity | ].
      destruct (py_float_raises _ _ Hfloat) as [-> | [-> | ->]]; reflexivity.
    + rewrite (dict_get_raises _ _ _ _ Hget). reflexivity.
Qed.

(** ** Readings and thresholds that are no finite numbers *)

Lemma check_threshold_nan warn crit : check_threshold (NFloat S754_nan) warn crit = (0, "OK").
Proof. unfold check_threshold, num_ge. destruct warn, crit; reflexivity. Qed.

(** X13. A reading that is a NaN is reported OK.  When the first component
    of [load_average] parses to NaN (and the others parse), the CPU section
    records ["CPU Load 1-min: nan (OK)"] with severity 0 and a performance
    datum with the value [nan]; when the [used_pct] of a device of the
    allow-list converts to NaN, the device is recorded with
    ["Disk <mountpoint>: nan% (OK)"], severity 0, and counted as
    processed. *)
Theorem nan_reading_is_ok args (d : gmap string pyval) st :
  (forall s first rest,
     d !! "load_average" = Some (PStr s) ->
     PyStr.split "," s = first :: rest ->
     float_of_string (PyStr.strip PyStr.isspace first) = Some S754_nan ->
     Forall (fun p => float_of_string (PyStr.strip PyStr.isspace p) <> None) rest ->
     cpu_load_check args (PDict d) st =
       (Ret tt,
        record 0 ["CPU Load 1-min: nan (OK)"]
          ["'cpu_load_1min'=nan;" +:+ num_str (cpu_warn args) +:+ ";"
             +:+ num_str (cpu_crit args) +:+ ";0.0;"] st))
  /\ (forall mountpoint v,
        d !! "mountpoint" = Some (PStr mountpoint) ->
        In mountpoint PRIMARY_MOUNT_POINTS ->
        d !! "used_pct" = Some v ->
        py_float v = Val S754_nan ->
        disk_device_check args (PDict d) st =
          (Ret tt,
           add_processed 1
             (record 0 ["Disk " +:+ mountpoint +:+ ": nan% (OK)"]
                ["'disk_" +:+ perfdata_label_of mountpoint +:+ "_pct'=nan%;"
                   +:+ num_str (disk_warn args) +:+ ";" +:+ num_str (disk_crit args)
                   +:+ ";0;100"]
                (add_available mountpoint st)))).
Proof.
  split.
  - intros s first rest Hs Hsplit Hfirst Hrest.
    rewrite cpu_load_check_run. unfold cpu_metric.
    rewrite (cpu_load_1min_of_parsed d s first rest _ Hs Hsplit Hfirst Hrest).
    cbn [res_bind handling]. unfold cpu_fragments. rewrite check_threshold_nan.
    reflexivity.
  - intros mountpoint v Hmp Hin Hused Hnan.
    rewrite disk_device_check_run.
    unfold primary_mount_of, dict_get. rewrite Hmp. cbn [from_option id res_bind].
    rewrite (str_in_primary _ Hin).
    unfold device_metric, used_pct_of, dict_get. rewrite Hused.
    cbn [from_option id res_bind]. rewrite Hnan. cbn [res_bind handling].
    unfold disk_fragments. rewrite check_threshold_nan. reflexivity.
Qed.

Lemma nan_reading_is_ok_witness :
  cpu_load_check example_args (obj [("load_average", PStr "nan, 0.10, 0.20")]) initial_state
  = (Ret tt,
     {| overall_status := 0;
        message_parts := ["CPU Load 1-min: nan (OK)"];
        perfdata_parts := ["'cpu_load_1min'=nan;5.0;10.0;0.0;"];
        processed_filesystems := 0; available_mounts := [];
        stdout := []; requested := [] |})
  /\ disk_device_check example_args
       (obj [("mountpoint", PStr "/var"); ("used_pct", PStr "NaN")]) initial_state
     = (Ret tt,
        {| overall_status := 0;
           message_parts := ["Disk /var: nan% (OK)"];
           perfdata_parts := ["'disk_var_pct'=nan%;80;95;0;100"];
           processed_filesystems := 1; available_mounts := ["/var"];
           stdout := []; requested := [] |}).
Proof.
  unfold obj. split.
  - rewrite (proj1 (nan_reading_is_ok example_args
                      (list_to_map [("load_average", PStr "nan, 0.10, 0.20")]) initial_state)
               "nan, 0.10, 0.20" "nan" [" 0.10"; " 0.20"]).
    + vm_compute. reflexivity.
    + vm_compute. reflexivity.
    + vm_compute. reflexivity.
    + vm_compute. reflexivity.
    + repeat constructor; vm_compute; discriminate.
  - rewrite (proj2 (nan_reading_is_ok example_args
                      (list_to_map [("mountpoint", PStr "/var"); ("used_pct", PStr "NaN")])
                      initial_state) "/var" (PStr "NaN")).
    + vm_compute. reflexivity.
    + vm_compute. reflexivity.
    + cbn. tauto.
    + vm_compute. reflexivity.
    + vm_compute. reflexivity.
Defined.

Lemma num_ge_nan_threshold value : num_ge value (NFloat S754_nan) = false.
Proof.
  unfold num_ge. destruct value as [z|x]; cbn [num_compare float_compare_Z option_map].
  - reflexivity.
  - destruct x as [s|s| |s m e]; cbn [SFcompare]; try reflexivity; destruct s; reflexivity.
Qed.

Lemma num_ge_infinity crit :
  is_nan crit = false -> num_ge (NFloat (S754_infinity false)) crit = true.
Proof.
  unfold num_ge. destruct crit as [z|x]; cbn [num_compare float_compare_Z]; [ reflexivity | ].
  destruct x as [s|s| |s m e]; cbn [SFcompare is_nan]; try discriminate; intros _;
    try reflexivity; destruct s; reflexivity.
Qed.

(** X14. A threshold that is a NaN is never reached: with a NaN critical
    threshold [check_threshold] never returns CRITICAL and decides by the
    warning threshold alone; with a NaN warning threshold it never returns
    WARNING.  A reading of plus infinity is CRITICAL for every critical
    threshold that is a number. *)
Theorem check_threshold_non_finite :
  (forall value warn : num,
     check_threshold value warn (NFloat S754_nan) =
       if num_ge value warn then (1, "WARNING") else (0, "OK"))
  /\ (forall value crit : num,
        check_threshold value (NFloat S754_nan) crit =
          if num_ge value crit then (2, "CRITICAL") else (0, "OK"))
  /\ (forall warn crit : num,
        is_nan crit = false ->
        check_threshold (NFloat (S754_infinity false)) warn crit = (2, "CRITICAL")).
Proof.
  split; [ | split ].
  - intros value warn. unfold check_threshold. rewrite num_ge_nan_threshold. reflexivity.
  - intros value crit. unfold check_threshold. rewrite num_ge_nan_threshold. reflexivity.
  - intros warn crit Hc. unfold check_threshold. rewrite (num_ge_infinity _ Hc). reflexivity.
Qed.

(** ** The sections only add to what is recorded *)

Lemma accumulates_refl (st : state) :
  overall_status st <= overall_status st
  /\ (overall_status st <= 3 -> overall_status st <= 3)
  /\ (exists added, message_parts st = message_parts st ++ added)
  /\ (exists added, perfdata_parts st = perfdata_parts st ++ added)
  /\ stdout st = stdout st
  /\ requested st = requested st.
Proof.
  split; [ lia | ]. split; [ tauto | ].
  split; [ exists []; rewrite app_nil_r; reflexivity | ].
  split; [ exists []; rewrite app_nil_r; reflexivity | ].
  split; reflexivity.
Qed.

Lemma accumulates_record_metric m st :
  in_range m ->
  overall_status st <= overall_status (record_metric m st)
  /\ (overall_status st <= 3 -> overall_status (record_metric m st) <= 3)
  /\ (exists added, message_parts (record_metric m st) = message_parts st ++ added)
  /\ (exists added, perfdata_parts (record_metric m st) = perfdata_parts st ++ added)
  /\ stdout (record_metric m st) = stdout st
  /\ requested (record_metric m st) = requested st.
Proof.
  intros Hm. destruct (record_metric_fields m st) as (Ho & Hmsg & Hp & _ & Hs & Hr).
  unfold in_range in Hm. rewrite Ho, Hmsg, Hp, Hs, Hr.
  split; [ lia | ]. split; [ lia | ].
  split; [ eexists; reflexivity | ]. split; [ eexists; reflexivity | ].
  split; reflexivity.
Qed.

Lemma accumulates_cpu_load_check args sys_data : accumulates (cpu_load_check args sys_data).
Proof.
  intros st. cbn zeta. rewrite cpu_load_check_run.
  destruct (cpu_metric args sys_data) as [m|e] eqn:Hm; cbn [snd].
  - apply accumulates_record_metric. exact (cpu_metric_in_range _ _ _ Hm).
  - apply accumulates_refl.
Qed.

Lemma accumulates_memory_check args sys_data : accumulates (memory_check args sys_data).
Proof.
  intros st. cbn zeta. rewrite memory_check_run.
  destruct (memory_metric args sys_data) as [m|e] eqn:Hm; cbn [snd].
  - apply accumulates_record_metric. exact (memory_metric_in_range _ _ _ Hm).
  - apply accumulates_refl.
Qed.

Lemma accumulates_disk_device_check args fs : accumulates (disk_device_check args fs).
Proof.
  intros st. cbn zeta. rewrite disk_device_check_run.
  destruct (primary_mount_of fs) as [[mountpoint|]|e]; cbn [snd];
    try apply accumulates_refl.
  destruct (device_metric args fs mountpoint) as [m|e] eqn:Hm; cbn [snd].
  - exact (accumulates_record_metric m (add_available mountpoint st)
             (device_metric_in_range _ _ _ _ Hm)).
  - exact (accumulates_refl (add_available mountpoint st)).
Qed.

Lemma accumulates_bind {A B} (c : M A) (k : A -> M B) :
  accumulates c -> (forall a, accumulates (k a)) -> accumulates (bind c k).
Proof.
  intros Hc Hk st. cbn zeta. rewrite bind_unfold.
  specialize (Hc st). cbn zeta in Hc.
  destruct (c st) as [[a|e|n] st1]; cbn [snd] in *; try exact Hc.
  specialize (Hk a st1). cbn zeta in Hk.
  destruct Hc as (Ho & Hb & [m1 Hm] & [p1 Hp] & Hs & Hr).
  destruct Hk as (Ho' & Hb' & [m2 Hm'] & [p2 Hp'] & Hs' & Hr').
  split; [ lia | ]. split; [ intros; apply Hb'; apply Hb; assumption | ].
  split; [ exists (m1 ++ m2); rewrite Hm', Hm, app_assoc; reflexivity | ].
  split; [ exists (p1 ++ p2); rewrite Hp', Hp, app_assoc; reflexivity | ].
  split; congruence.
Qed.

Lemma accumulates_for_each {A} (body : A -> M unit) (l : list A) :
  (forall a, accumulates (body a)) -> accumulates (for_each body l).
Proof.
  intros Hbody. induction l as [|a l IH]; cbn [for_each].
  - intros st. apply accumulates_refl.
  - apply accumulates_bind; [ apply Hbody | intros _; exact IH ].
Qed.

Lemma accumulates_eval {A} (r : res A) : accumulates (eval r).
Proof. intros st. destruct r; apply accumulates_refl. Qed.

Lemma accumulates_no_primary_filesystem_check disk_data :
  accumulates (no_primary_filesystem_check disk_data).
Proof.
  intros st. cbn zeta. rewrite no_primary_filesystem_check_run.
  destruct (processed_filesystems st =? 0); [ | apply accumulates_refl ].
  destruct (mount_list_str_of disk_data) as [text|e]; cbn [snd]; [ | apply accumulates_refl ].
  apply (accumulates_record_metric (Unavailable (no_primary_message text)) st).
  unfold in_range. cbn. lia.
Qed.

Lemma accumulates_disk_check args disk_data : accumulates (disk_check args disk_data).
Proof.
  unfold disk_check.
  apply accumulates_bind; [ intros st; exact (accumulates_refl st) | intros _ ].
  apply accumulates_bind; [ intros st; exact (accumulates_refl st) | intros _ ].
  apply accumulates_bind; [ apply accumulates_eval | intros devices ].
  apply accumulates_bind; [ apply accumulates_eval | intros all_fs ].
  apply accumulates_bind; [ | intros _; apply accumulates_no_primary_filesystem_check ].
  apply accumulates_for_each. apply accumulates_disk_device_check.
Qed.

(** X16. The CPU section, the memory section, one round of the loop over
    the devices and the whole disk section never lower the overall
    severity, keep it at most 3 when it was, only append to the messages
    and to the performance data (what was recorded before stays, in its
    order), print nothing and request nothing; this holds when they return
    and when they raise. *)
Theorem sections_only_add args :
  (forall sys_data, accumulates (cpu_load_check args sys_data))
  /\ (forall sys_data, accumulates (memory_check args sys_data))
  /\ (forall fs, accumulates (disk_device_check args fs))
  /\ (forall disk_data, accumulates (disk_check args disk_data)).
Proof.
  split; [ apply accumulates_cpu_load_check | ].
  split; [ apply accumulates_memory_check | ].
  split; [ apply accumulates_disk_device_check | apply accumulates_disk_check ].
Qed.

(** ** The report of a run that reaches the end *)

(** What the variables hold when a run reaches [sys.exit] after both calls. *)
Lemma run_main_variables srv args sys_data disk_data ms :
  reply_of srv args API_SYSTEM_RESOURCES = Body sys_data ->
  reply_of srv args API_SYSTEM_DISK = Body disk_data ->
  run_metrics args sys_data disk_data = Val ms ->
  overall_status (snd (run_main srv args)) = severity_from 0 ms
  /\ message_parts (snd (run_main srv args)) = concat (List.map messages_of ms)
  /\ perfdata_parts (snd (run_main srv args)) = concat (List.map perfdata_of ms).
Proof.
  intros Hsys Hdisk. unfold run_main, main, run_metrics.
  rewrite bind_unfold, make_api_call_run, Hsys.
  rewrite bind_unfold, cpu_load_check_run.
  destruct (cpu_metric args sys_data) as [mc|e]; cbn [res_bind]; [ | discriminate ].
  rewrite bind_unfold, memory_check_run.
  destruct (memory_metric args sys_data) as [mm|e]; cbn [res_bind]; [ | discriminate ].
  rewrite bind_unfold, make_api_call_run, Hdisk.
  set (st2 := add_requested _ _).
  rewrite bind_unfold.
  pose proof (disk_check_run args disk_data st2) as Hd.
  destruct (disk_metrics args disk_data) as [md|e]; cbn [res_bind]; [ | discriminate ].
  intros [= <-].
  destruct Hd as (st3 & Hrun & Ho & Hm & Hp). rewrite Hrun.
  unfold final_output, get, print, modify, sys_exit, bind.
  cbn [snd overall_status message_parts perfdata_parts].
  rewrite Ho, Hm, Hp. unfold st2.
  destruct (record_metric_fields mm (record_metric mc (add_requested
              (url_of args API_SYSTEM_RESOURCES) initial_state)))
    as (Ho2 & Hm2 & Hp2 & _).
  destruct (record_metric_fields mc (add_requested
              (url_of args API_SYSTEM_RESOURCES) initial_state))
    as (Ho1 & Hm1 & Hp1 & _).
  cbn [add_requested overall_status message_parts perfdata_parts].
  rewrite Ho2, Hm2, Hp2, Ho1, Hm1, Hp1.
  cbn [add_requested initial_state overall_status message_parts perfdata_parts
       List.map concat app].
  unfold severity_from. cbn [List.map fold_left]. rewrite <- ?app_assoc.
  split; [ reflexivity | ]. split; reflexivity.
Qed.

Lemma headed_handling classes p msg body m :
  String.prefix p msg = true ->
  (forall m', body = Val m' -> headed p m') ->
  handling classes msg body = Val m -> headed p m.
Proof.
  intros Hmsg Hbody. unfold handling. destruct body as [m'|e].
  - intros [= <-]. apply Hbody. reflexivity.
  - destruct (caught classes e); [ | discriminate ].
    intros [= <-]. exists msg. split; [ reflexivity | exact Hmsg ].
Qed.

Lemma cpu_metric_headed args sys_data m :
  cpu_metric args sys_data = Val m -> headed "CPU Load " m.
Proof.
  apply headed_handling; [ reflexivity | ]. intros m'.
  destruct (cpu_load_1min_of sys_data) as [x|]; cbn [res_bind]; [ | discriminate ].
  intros [= <-]. unfold cpu_fragments. destruct (check_threshold _ _ _) as [sev label].
  eexists. split; [ reflexivity | ].
  exact (prefix_append "CPU Load " ("1-min: " +:+ format_fixed 2 x +:+ " (" +:+ label +:+ ")")).
Qed.

Lemma memory_metric_headed args sys_data m :
  memory_metric args sys_data = Val m -> headed "Memory" m.
Proof.
  apply headed_handling; [ reflexivity | ]. intros m'.
  destruct (memory_reading sys_data) as [[mem_total mem_used]|]; cbn [res_bind];
    [ | discriminate ].
  destruct (0 <? mem_total).
  - destruct (memory_usage_pct mem_used mem_total) as [pct|]; cbn [res_bind];
      [ | discriminate ].
    intros [= <-]. unfold memory_fragments. destruct (check_threshold _ _ _) as [sev label].
    eexists. split; [ reflexivity | ].
    exact (prefix_append "Memory" (": " +:+ format_fixed 1 pct +:+ "% (" +:+ label +:+ ")")).
  - intros [= <-]. eexists. split; reflexivity.
Qed.

Lemma device_metric_headed args fs mountpoint m :
  device_metric args fs mountpoint = Val m -> headed "Disk " m.
Proof.
  apply headed_handling; [ apply prefix_append | ]. intros m'.
  destruct (used_pct_of fs) as [pct|]; cbn [res_bind]; [ | discriminate ].
  intros [= <-]. unfold disk_fragments. destruct (check_threshold _ _ _) as [sev label].
  eexists. split; [ reflexivity | apply prefix_append ].
Qed.

Lemma device_outcomes_headed args all_fs : forall ds,
  device_outcomes args all_fs = Val ds -> Forall (headed "Disk ") (List.map snd ds).
Proof.
  unfold device_outcomes.
  induction all_fs as [|fs all_fs IH]; cbn [res_map res_bind]; intros ds.
  - intros [= <-]. constructor.
  - unfold device_outcome at 1.
    destruct (primary_mount_of fs) as [[mountpoint|]|]; cbn [res_bind]; try discriminate.
    + destruct (device_metric args fs mountpoint) as [m|] eqn:Hm; cbn [res_bind];
        [ | discriminate ].
      destruct (res_map (device_outcome args) all_fs) as [l|]; cbn [res_bind] in *;
        [ | discriminate ].
      intros [= <-]. cbn. constructor.
      * exact (device_metric_headed _ _ _ _ Hm).
      * apply IH. reflexivity.
    + destruct (res_map (device_outcome args) all_fs) as [l|]; cbn [res_bind] in *;
        [ | discriminate ].
      intros [= <-]. cbn. apply IH. reflexivity.
Qed.

Lemma disk_metrics_headed args disk_data md :
  disk_metrics args disk_data = Val md -> md <> [] /\ Forall (headed "Disk ") md.
Proof.
  unfold disk_metrics, no_primary_metric.
  destruct (dict_get disk_data "devices" (PList [])) as [devices|]; cbn [res_bind];
    [ | discriminate ].
  destruct (py_iter devices) as [all_fs|]; cbn [res_bind]; [ | discriminate ].
  destruct (device_outcomes args all_fs) as [ds|] eqn:Hd; cbn [res_bind]; [ | discriminate ].
  pose proof (device_outcomes_headed _ _ _ Hd) as Hds.
  destruct (processed_of (List.map snd ds) =? 0) eqn:Hzero.
  - destruct (mount_list_str_of disk_data) as [text|]; cbn [res_bind]; [ | discriminate ].
    intros [= <-]. split.
    + intros Hnil. apply app_eq_nil in Hnil. destruct Hnil as [_ Hnil]. discriminate.
    + rewrite Forall_app. split; [ exact Hds | ].
      constructor; [ | constructor ]. eexists. split; [ reflexivity | ].
      unfold no_primary_message.
      exact (prefix_append "Disk " ("check UNKNOWN: No primary filesystem found ("
               +:+ PyStr.repr_str_tuple PRIMARY_MOUNT_POINTS
               +:+ "). Available mounts: [" +:+ text +:+ "]")).
  - cbn [res_bind]. intros [= <-]. rewrite app_nil_r. split; [ | exact Hds ].
    intros Hnil. rewrite Hnil in Hzero. discriminate.
Qed.

Lemma concat_messages_headed p ms :
  Forall (headed p) ms ->
  Forall (fun message => String.prefix p message = true) (concat (List.map messages_of ms))
  /\ length (concat (List.map messages_of ms)) = length ms.
Proof.
  induction 1 as [|m ms (message & Hm & Hp) _ [IH1 IH2]]; cbn [List.map concat].
  - split; [ constructor | reflexivity ].
  - rewrite Hm. cbn [app length]. split; [ constructor; assumption | congruence ].
Qed.

(** The messages of a run that reaches the end, and the text it prints. *)
Lemma run_main_report srv args sys_data disk_data code :
  reply_of srv args API_SYSTEM_RESOURCES = Body sys_data ->
  reply_of srv args API_SYSTEM_DISK = Body disk_data ->
  fst (run_main srv args) = SysExit code ->
  exists cpu memory disk,
    message_parts (snd (run_main srv args)) = cpu :: memory :: disk
    /\ String.prefix "CPU Load " cpu = true
    /\ String.prefix "Memory" memory = true
    /\ disk <> []
    /\ Forall (fun message => String.prefix "Disk " message = true) disk
    /\ stdout (snd (run_main srv args)) =
         [STATUS_MAP_get code +:+ " - " +:+ PyStr.join " | " (cpu :: memory :: disk)
            +:+ " | " +:+ PyStr.join " " (perfdata_parts (snd (run_main srv args)))].
Proof.
  intros Hsys Hdisk Hexit.
  pose proof (run_main_bodies srv args sys_data disk_data Hsys Hdisk) as Hrun.
  pose proof (run_main_variables srv args sys_data disk_data) as Hvars.
  destruct (run_metrics args sys_data disk_data) as [ms|e] eqn:Hms.
  2:{ destruct Hrun as [Hexc _]. congruence. }
  destruct Hrun as [Hcode Hout].
  destruct (Hvars ms Hsys Hdisk eq_refl) as (_ & Hm & Hp).
  assert (Heq : code = severity_from 0 ms) by congruence. subst code.
  unfold run_metrics in Hms.
  destruct (cpu_metric args sys_data) as [mc|] eqn:Hc; cbn [res_bind] in Hms;
    [ | discriminate ].
  destruct (memory_metric args sys_data) as [mm|] eqn:Hmm; cbn [res_bind] in Hms;
    [ | discriminate ].
  destruct (disk_metrics args disk_data) as [md|] eqn:Hd; cbn [res_bind] in Hms;
    [ | discriminate ].
  injection Hms as <-.
  destruct (cpu_metric_headed _ _ _ Hc) as (cpu & Hcpu & Hcpu').
  destruct (memory_metric_headed _ _ _ Hmm) as (memory & Hmem & Hmem').
  destruct (disk_metrics_headed _ _ _ Hd) as (Hne & Hall).
  destruct (concat_messages_headed "Disk " md Hall) as (Hdisks & Hlen).
  exists cpu, memory, (concat (List.map messages_of md)).
  assert (Hparts : concat (List.map messages_of (mc :: mm :: md))
                   = cpu :: memory :: concat (List.map messages_of md)).
  { cbn [List.map concat]. rewrite Hcpu, Hmem. reflexivity. }
  split; [ rewrite Hm; exact Hparts | ].
  split; [ exact Hcpu' | ]. split; [ exact Hmem' | ].
  split.
  { intros Hnil. rewrite Hnil in Hlen. destruct md; [ congruence | discriminate ]. }
  split; [ exact Hdisks | ].
  rewrite Hout, Hp. unfold status_line. rewrite Hparts. reflexivity.
Qed.

Lemma occurs_join c sep (l : list string) :
  occurs c sep = false ->
  occurs c (PyStr.join sep l) = existsb (occurs c) l.
Proof.
  intros Hsep. unfold PyStr.join.
  induction l as [|x l IH]; [ reflexivity | ].
  destruct l as [|y l].
  - cbn [String.concat existsb]. rewrite orb_false_r. reflexivity.
  - change (String.concat sep (x :: y :: l)) with (x +:+ sep +:+ String.concat sep (y :: l)).
    rewrite !occurs_append, Hsep, IH. reflexivity.
Qed.

Lemma status_word_one_line code : occurs newline (STATUS_MAP_get code) = false.
Proof. destruct code as [|[[| |]|[| |]|]|]; reflexivity. Qed.

(** X17. When both calls return a body and the run ends with [sys.exit],
    the messages are, in this order: one message of the CPU section, which
    begins with ["CPU Load "]; one message of the memory section, which
    begins with ["Memory"]; and at least one message of the disk section,
    each beginning with ["Disk "].  [print] is called once, with the status
    word of the exit code, [" - "], the messages joined by [" | "], [" | "]
    and the performance data joined by spaces; what is written is that text
    and a newline.  The text holds a newline, and the output is then more
    than one line, exactly when a message or a performance datum holds one
    (the report for no primary filesystem repeats the mount points of the
    response). *)
Theorem report_has_every_section srv args sys_data disk_data code :
  reply_of srv args API_SYSTEM_RESOURCES = Body sys_data ->
  reply_of srv args API_SYSTEM_DISK = Body disk_data ->
  fst (run_main srv args) = SysExit code ->
  exists cpu memory disk text,
    message_parts (snd (run_main srv args)) = cpu :: memory :: disk
    /\ String.prefix "CPU Load " cpu = true
    /\ String.prefix "Memory" memory = true
    /\ disk <> []
    /\ Forall (fun message => String.prefix "Disk " message = true) disk
    /\ text = STATUS_MAP_get code +:+ " - " +:+ PyStr.join " | " (cpu :: memory :: disk)
               +:+ " | " +:+ PyStr.join " " (perfdata_parts (snd (run_main srv args)))
    /\ stdout (snd (run_main srv args)) = [text]
    /\ written (snd (run_main srv args)) = text +:+ String newline ""
    /\ occurs newline text =
         existsb (occurs newline)
           ((cpu :: memory :: disk) ++ perfdata_parts (snd (run_main srv args))).
Proof.
  intros Hsys Hdisk Hexit.
  destruct (run_main_report srv args sys_data disk_data code Hsys Hdisk Hexit)
    as (cpu & memory & disk & Hm & Hcpu & Hmem & Hne & Hall & Hout).
  exists cpu, memory, disk. eexists.
  split; [ exact Hm | ]. split; [ exact Hcpu | ]. split; [ exact Hmem | ].
  split; [ exact Hne | ]. split; [ exact Hall | ]. split; [ reflexivity | ].
  split; [ exact Hout | ]. split; [ exact (written_one _ _ Hout) | ].
  rewrite !occurs_append, existsb_app.
  rewrite (occurs_join newline " | " _ eq_refl), (occurs_join newline " " _ eq_refl).
  rewrite status_word_one_line. reflexivity.
Qed.

Lemma report_has_every_section_witness :
  exists cpu memory disk text,
    message_parts (snd (run_main example_server example_args)) = cpu :: memory :: disk
    /\ String.prefix "CPU Load " cpu = true
    /\ String.prefix "Memory" memory = true
    /\ disk <> []
    /\ Forall (fun message => String.prefix "Disk " message = true) disk
    /\ text = STATUS_MAP_get 2 +:+ " - " +:+ PyStr.join " | " (cpu :: memory :: disk)
               +:+ " | "
               +:+ PyStr.join " " (perfdata_parts (snd (run_main example_server example_args)))
    /\ stdout (snd (run_main example_server example_args)) = [text]
    /\ written (snd (run_main example_server example_args)) = text +:+ String newline ""
    /\ occurs newline text =
         existsb (occurs newline)
           ((cpu :: memory :: disk)
            ++ perfdata_parts (snd (run_main example_server example_args))).
Proof.
  apply (report_has_every_section example_server example_args example_resources example_disk 2).
  - vm_compute. reflexivity.
  - vm_compute. reflexivity.
  - vm_compute. reflexivity.
Defined.

Lemma processed_of_nonneg ms : 0 <= processed_of ms.
Proof.
  unfold processed_of. induction ms as [|m ms IH]; cbn [List.map fold_right]; [ lia | ].
  destruct m; cbn [processed_count]; lia.
Qed.

(** X18. When the loop over the devices goes through and at least one
    device was evaluated, the disk section adds the messages and the
    performance data of the devices that were not skipped, in the order of
    the response, and nothing else: the report for no primary filesystem is
    not made, even when other devices met a parsing error. *)
Theorem processed_device_suppresses_the_report args (d : gmap string pyval) devices ds st :
  default (PList []) (d !! "devices") = PList devices ->
  device_outcomes args devices = Val ds ->
  Exists (fun m => exists sev messages perfdata, m = Evaluated sev messages perfdata)
         (List.map snd ds) ->
  exists st',
    disk_check args (PDict d) st = (Ret tt, st')
    /\ message_parts st' = message_parts st ++ concat (List.map messages_of (List.map snd ds))
    /\ perfdata_parts st' = perfdata_parts st ++ concat (List.map perfdata_of (List.map snd ds))
    /\ overall_status st' = severity_from (overall_status st) (List.map snd ds)
    /\ 0 < processed_of (List.map snd ds).
Proof.
  intros Hdev Hds Hex.
  assert (Hpos : 0 < processed_of (List.map snd ds)).
  { unfold processed_of. induction Hex as [m ms (sev & messages & perfdata & ->) | m ms _ IH];
      cbn [List.map fold_right processed_count].
    - pose proof (processed_of_nonneg ms) as Hn. unfold processed_of in Hn. lia.
    - destruct m; cbn [processed_count]; lia. }
  pose proof (disk_check_run args (PDict d) st) as Hrun.
  unfold disk_metrics, dict_get in Hrun. rewrite Hdev in Hrun.
  cbn [res_bind py_iter] in Hrun. rewrite Hds in Hrun. cbn [res_bind] in Hrun.
  unfold no_primary_metric in Hrun.
  assert (Hz : (processed_of (List.map snd ds) =? 0) = false) by (apply Z.eqb_neq; lia).
  rewrite Hz in Hrun. cbn [res_bind] in Hrun. rewrite app_nil_r in Hrun.
  destruct Hrun as (st' & Hrun & Ho & Hm & Hp).
  exists st'. auto.
Qed.

Lemma processed_device_suppresses_the_report_witness :
  exists st',
    disk_check example_args example_disk initial_state = (Ret tt, st')
    /\ message_parts st' = ["Disk /: 85.0% (WARNING)"]
    /\ perfdata_parts st' = ["'disk_root_pct'=85.0%;80;95;0;100"]
    /\ overall_status st' = 1.
Proof.
  destruct (processed_device_suppresses_the_report example_args
              (list_to_map
                 [("devices",
                   PList [obj [("mountpoint", PStr "/"); ("used_pct", PStr "85")];
                          obj [("mountpoint", PStr "/dev/ada0"); ("used_pct", PStr "100")]])])
              [obj [("mountpoint", PStr "/"); ("used_pct", PStr "85")];
               obj [("mountpoint", PStr "/dev/ada0"); ("used_pct", PStr "100")]]
              [("/", Evaluated 1 ["Disk /: 85.0% (WARNING)"]
                       ["'disk_root_pct'=85.0%;80;95;0;100"])]
              initial_state) as (st' & Hrun & Hm & Hp & Ho & _).
  - vm_compute. reflexivity.
  - vm_compute. reflexivity.
  - constructor. do 3 eexists. reflexivity.
  - exists st'. split; [ exact Hrun | ]. rewrite Hm, Hp, Ho.
    split; [ reflexivity | ]. split; reflexivity.
Defined.

(** ** The label of the performance data of a device *)

Lemma occurs_lstrip p c s : occurs c (PyStr.lstrip p s) = true -> occurs c s = true.
Proof.
  induction s as [|c' s IH]; cbn [PyStr.lstrip occurs]; [ discriminate | ].
  destruct (p c'); [ | cbn [occurs]; tauto ].
  intros H. rewrite (IH H). apply orb_true_r.
Qed.

Lemma occurs_rstrip p c s : occurs c (PyStr.rstrip p s) = true -> occurs c s = true.
Proof.
  induction s as [|c' s IH]; cbn [PyStr.rstrip occurs]; [ discriminate | ].
  destruct (PyStr.rstrip p s) as [|c'' r] eqn:Hr.
  - destruct (p c'); cbn [occurs]; [ discriminate | ].
    rewrite orb_false_r. intros ->. reflexivity.
  - cbn [occurs] in *. intros H. apply orb_true_iff in H. destruct H as [-> | H].
    + reflexivity.
    + rewrite (IH H). apply orb_true_r.
Qed.

Lemma occurs_replace a b s : Ascii.eqb a b = false -> occurs a (PyStr.replace a b s) = false.
Proof.
  intros Hab. induction s as [|c s IH]; cbn [PyStr.replace occurs]; [ reflexivity | ].
  rewrite IH, orb_false_r.
  destruct (Ascii.eqb c a) eqn:Hca; [ exact Hab | ].
  rewrite Ascii.eqb_sym. exact Hca.
Qed.

Lemma rstrip_idempotent p s : PyStr.rstrip p (PyStr.rstrip p s) = PyStr.rstrip p s.
Proof.
  induction s as [|c s IH]; cbn [PyStr.rstrip]; [ reflexivity | ].
  destruct (PyStr.rstrip p s) as [|c' r] eqn:Hr.
  - destruct (p c) eqn:Hp; cbn [PyStr.rstrip]; [ reflexivity | ]. rewrite Hp. reflexivity.
  - cbn [PyStr.rstrip]. cbn [PyStr.rstrip] in IH. rewrite IH. reflexivity.
Qed.

Lemma lstrip_head_kept p s : head_kept p (PyStr.lstrip p s).
Proof.
  induction s as [|c s IH]; cbn [PyStr.lstrip]; [ exact I | ].
  destruct (p c) eqn:Hp; [ exact IH | exact Hp ].
Qed.

Lemma rstrip_head_kept p s : head_kept p s -> head_kept p (PyStr.rstrip p s).
Proof.
  destruct s as [|c s]; cbn [PyStr.rstrip head_kept]; [ tauto | ].
  intros Hp. destruct (PyStr.rstrip p s); [ rewrite Hp | ]; exact Hp.
Qed.

Lemma lstrip_of_head_kept p s : head_kept p s -> PyStr.lstrip p s = s.
Proof. destruct s as [|c s]; cbn [PyStr.lstrip head_kept]; [ reflexivity | intros -> ; reflexivity ]. Qed.

Lemma strip_idempotent p s : PyStr.strip p (PyStr.strip p s) = PyStr.strip p s.
Proof.
  unfold PyStr.strip.
  rewrite (lstrip_of_head_kept p (PyStr.rstrip p (PyStr.lstrip p s))).
  - apply rstrip_idempotent.
  - apply rstrip_head_kept, lstrip_head_kept.
Qed.

(** X19. For every mount point, the label
    [mountpoint.replace('/', '_').strip('_') or 'root'] is not empty,
    holds no ['/'], and neither begins nor ends with ['_'] (stripping it
    again changes nothing). *)
Theorem perfdata_label_is_clean (mountpoint : string) :
  let label := perfdata_label_of mountpoint in
  label <> ""
  /\ occurs "/" label = false
  /\ PyStr.strip (Ascii.eqb "_") label = label.
Proof.
  unfold perfdata_label_of.
  set (l := PyStr.strip (Ascii.eqb "_") (PyStr.replace "/" "_" mountpoint)).
  destruct (String.eqb l "") eqn:Hl; cbn zeta.
  - split; [ discriminate | ]. split; reflexivity.
  - apply String.eqb_neq in Hl. split; [ exact Hl | ].
    split; [ | apply strip_idempotent ].
    destruct (occurs "/" l) eqn:Hocc; [ | reflexivity ].
    unfold l, PyStr.strip in Hocc.
    apply occurs_rstrip, occurs_lstrip in Hocc.
    rewrite occurs_replace in Hocc; [ discriminate | reflexivity ].
Qed.

(** ** What an exit code below 3 certifies *)

Lemma well_formed_handling classes n msg body m :
  (forall m', body = Val m' -> well_formed n m') ->
  handling classes msg body = Val m -> well_formed n m.
Proof.
  unfold handling. intros Hbody. destruct body as [m'|e].
  - intros [= <-]. apply Hbody. reflexivity.
  - destruct (caught classes e); [ | discriminate ].
    intros [= <-]. exact I.
Qed.

Lemma cpu_metric_well_formed args sys_data m :
  cpu_metric args sys_data = Val m -> well_formed 1 m.
Proof.
  apply well_formed_handling. intros m'.
  destruct (cpu_load_1min_of sys_data) as [x|]; cbn [res_bind]; [ | discriminate ].
  intros [= <-]. apply cpu_fragments_well_formed.
Qed.

Lemma memory_metric_well_formed args sys_data m :
  memory_metric args sys_data = Val m -> well_formed 3 m.
Proof.
  apply well_formed_handling. intros m'.
  destruct (memory_reading sys_data) as [[mem_total mem_used]|]; cbn [res_bind];
    [ | discriminate ].
  destruct (0 <? mem_total).
  - destruct (memory_usage_pct mem_used mem_total) as [pct|]; cbn [res_bind];
      [ | discriminate ].
    intros [= <-]. apply memory_fragments_well_formed.
  - intros [= <-]. exact I.
Qed.

Lemma device_metric_well_formed args fs mountpoint m :
  device_metric args fs mountpoint = Val m -> well_formed 1 m.
Proof.
  apply well_formed_handling. intros m'.
  destruct (used_pct_of fs) as [pct|]; cbn [res_bind]; [ | discriminate ].
  intros [= <-]. apply disk_fragments_well_formed.
Qed.

Lemma device_outcomes_well_formed args all_fs : forall ds,
  device_outcomes args all_fs = Val ds -> Forall (well_formed 1) (List.map snd ds).
Proof.
  unfold device_outcomes.
  induction all_fs as [|fs all_fs IH]; cbn [res_map res_bind]; intros ds.
  - intros [= <-]. constructor.
  - unfold device_outcome at 1.
    destruct (primary_mount_of fs) as [[mountpoint|]|]; cbn [res_bind]; try discriminate.
    + destruct (device_metric args fs mountpoint) as [m|] eqn:Hm; cbn [res_bind];
        [ | discriminate ].
      destruct (res_map (device_outcome args) all_fs) as [l|]; cbn [res_bind] in *;
        [ | discriminate ].
      intros [= <-]. cbn. constructor.
      * exact (device_metric_well_formed _ _ _ _ Hm).
      * apply IH. reflexivity.
    + destruct (res_map (device_outcome args) all_fs) as [l|]; cbn [res_bind] in *;
        [ | discriminate ].
      intros [= <-]. cbn. apply IH. reflexivity.
Qed.

Lemma disk_metrics_well_formed args disk_data md :
  disk_metrics args disk_data = Val md -> Forall (well_formed 1) md.
Proof.
  unfold disk_metrics, no_primary_metric.
  destruct (dict_get disk_data "devices" (PList [])) as [devices|]; cbn [res_bind];
    [ | discriminate ].
  destruct (py_iter devices) as [all_fs|]; cbn [res_bind]; [ | discriminate ].
  destruct (device_outcomes args all_fs) as [ds|] eqn:Hd; cbn [res_bind]; [ | discriminate ].
  pose proof (device_outcomes_well_formed _ _ _ Hd) as Hds.
  destruct (processed_of (List.map snd ds) =? 0).
  - destruct (mount_list_str_of disk_data) as [text|]; cbn [res_bind]; [ | discriminate ].
    intros [= <-]. rewrite Forall_app. split; [ exact Hds | ].
    constructor; [ exact I | constructor ].
  - cbn [res_bind]. intros [= <-]. rewrite app_nil_r. exact Hds.
Qed.

Lemma evaluated_counts code md :
  Forall (well_formed 1) md -> Forall (evaluated_up_to code) md ->
  length (concat (List.map perfdata_of md)) = length (concat (List.map messages_of md)).
Proof.
  induction 1 as [|m md Hm _ IH]; intros Hall; [ reflexivity | ].
  inversion Hall as [|m' md' (sev & messages & perfdata & -> & _) Hrest]; subst.
  cbn [List.map concat messages_of perfdata_of]. rewrite !length_app, (IH Hrest).
  destruct Hm as (_ & -> & ->). reflexivity.
Qed.

(** X20. An exit code below 3 certifies that everything was evaluated: when
    both calls return a body and the run exits with a code below 3, the CPU
    metric, the memory metric and every metric of the disk section were
    evaluated with a severity up to that code, none went through an error
    path, and at least one device was evaluated.  There are then two
    messages and four performance data besides one message and one
    performance datum for each device that was not skipped. *)
Theorem exit_below_unknown_means_all_evaluated srv args sys_data disk_data code :
  reply_of srv args API_SYSTEM_RESOURCES = Body sys_data ->
  reply_of srv args API_SYSTEM_DISK = Body disk_data ->
  fst (run_main srv args) = SysExit code ->
  code < 3 ->
  exists mc mm md,
    run_metrics args sys_data disk_data = Val (mc :: mm :: md)
    /\ md <> []
    /\ Forall (evaluated_up_to code) (mc :: mm :: md)
    /\ length (message_parts (snd (run_main srv args))) = (2 + length md)%nat
    /\ length (perfdata_parts (snd (run_main srv args))) = (4 + length md)%nat.
Proof.
  intros Hsys Hdisk Hexit Hcode.
  pose proof (run_main_bodies srv args sys_data disk_data Hsys Hdisk) as Hrun.
  pose proof (run_main_variables srv args sys_data disk_data) as Hvars.
  destruct (run_metrics args sys_data disk_data) as [ms|e] eqn:Hms.
  2:{ destruct Hrun as [Hexc _]. congruence. }
  destruct Hrun as [Hsev _].
  destruct (Hvars ms Hsys Hdisk eq_refl) as (_ & Hm & Hp).
  assert (Heq : code = severity_from 0 ms) by congruence.
  pose proof (run_metrics_in_range _ _ _ _ Hms) as Hrange.
  destruct (severity_from_max ms 0) as (_ & Hle & _).
  assert (Hall : Forall (evaluated_up_to code) ms).
  { rewrite Forall_forall in *. intros m Hin.
    specialize (Hle m Hin). cbv beta in Hle. rewrite <- Heq in Hle.
    destruct m as [sev messages perfdata|message].
    - exists sev, messages, perfdata. split; [ reflexivity | exact Hle ].
    - cbn in Hle. lia. }
  unfold run_metrics in Hms.
  destruct (cpu_metric args sys_data) as [mc|] eqn:Hc; cbn [res_bind] in Hms;
    [ | discriminate ].
  destruct (memory_metric args sys_data) as [mm|] eqn:Hmm; cbn [res_bind] in Hms;
    [ | discriminate ].
  destruct (disk_metrics args disk_data) as [md|] eqn:Hd; cbn [res_bind] in Hms;
    [ | discriminate ].
  injection Hms as <-.
  exists mc, mm, md. split; [ reflexivity | ].
  destruct (disk_metrics_headed _ _ _ Hd) as (Hne & Hheaded).
  split; [ exact Hne | ]. split; [ exact Hall | ].
  clear Heq.
  inversion Hall as [|? ? (s1 & m1 & p1 & -> & _) Hall1]; subst.
  inversion Hall1 as [|? ? (s2 & m2 & p2 & -> & _) Hall2]; subst.
  apply cpu_metric_well_formed in Hc. apply memory_metric_well_formed in Hmm.
  apply disk_metrics_well_formed in Hd.
  destruct Hc as (_ & Hc1 & Hc2). destruct Hmm as (_ & Hm1 & Hm2).
  destruct (concat_messages_headed "Disk " md Hheaded) as (_ & Hlen).
  rewrite Hm, Hp. cbn [List.map concat messages_of perfdata_of].
  rewrite !length_app, (evaluated_counts code md Hd Hall2), Hlen, Hc1, Hc2, Hm1, Hm2.
  split; reflexivity.
Qed.

Lemma exit_below_unknown_means_all_evaluated_witness :
  exists mc mm md,
    run_metrics example_args example_resources example_disk = Val (mc :: mm :: md)
    /\ md <> []
    /\ Forall (evaluated_up_to 2) (mc :: mm :: md)
    /\ length (message_parts (snd (run_main example_server example_args)))
       = (2 + length md)%nat
    /\ length (perfdata_parts (snd (run_main example_server example_args)))
       = (4 + length md)%nat.
Proof.
  apply (exit_below_unknown_means_all_evaluated example_server example_args
           example_resources example_disk 2).
  - vm_compute. reflexivity.
  - vm_compute. reflexivity.
  - vm_compute. reflexivity.
  - lia.
Defined.

Lemma api_mount_of_odd fs : odd_mountpoint fs -> api_mount_of fs = Raise AttributeError.
Proof.
  intros (f & v & -> & Hv & Htrue & Hstr).
  unfold api_mount_of, dict_get. rewrite Hv. cbn [from_option id res_bind].
  rewrite Htrue. destruct v; try reflexivity. destruct (Hstr s eq_refl).
Qed.

(** X21. When the loop over the devices goes through with no device
    processed and one device has a mount point that counts as true and is
    no string (a non-empty list, a number other than zero), the report for
    no primary filesystem is not made: building the list of mounts raises
    [AttributeError], which ends the section with nothing printed. *)
Theorem odd_mountpoint_ends_the_report args (d : gmap string pyval) devices ds st :
  default (PList []) (d !! "devices") = PList devices ->
  device_outcomes args devices = Val ds ->
  processed_of (List.map snd ds) = 0 ->
  Exists odd_mountpoint devices ->
  exists st',
    disk_check args (PDict d) st = (Exc AttributeError, st')
    /\ stdout st' = stdout st.
Proof.
  intros Hdev Hds Hzero Hodd.
  assert (Hmap : res_map api_mount_of devices = Raise AttributeError).
  { destruct (res_map_exists_raises api_mount_of devices) as [e He].
    - apply List.Exists_exists in Hodd. destruct Hodd as (fs & Hin & Hfs).
      apply List.Exists_exists. exists fs. split; [ exact Hin | ].
      exists AttributeError. apply api_mount_of_odd. exact Hfs.
    - rewrite He. f_equal. revert He.
      apply (res_map_raises _ (fun e => e = AttributeError)).
      intros a e'. apply api_mount_of_raises. }
  pose proof (disk_check_run args (PDict d) st) as Hrun.
  unfold disk_metrics, dict_get in Hrun. rewrite Hdev in Hrun.
  cbn [res_bind py_iter] in Hrun. rewrite Hds in Hrun. cbn [res_bind] in Hrun.
  unfold no_primary_metric, mount_list_str_of, dict_get in Hrun.
  rewrite Hzero, Hdev in Hrun. cbn [Z.eqb res_bind py_iter] in Hrun.
  rewrite Hmap in Hrun. cbn [res_bind] in Hrun.
  destruct (silent_disk_check args (PDict d) st) as [Hs _].
  destruct (disk_check args (PDict d) st) as [r st']. cbn [fst snd] in *. subst r.
  exists st'. split; [ reflexivity | exact Hs ].
Qed.

Lemma odd_mountpoint_ends_the_report_witness :
  exists st',
    disk_check example_args
      (obj [("devices", PList [obj [("mountpoint", PList [PStr "/"])]])]) initial_state
    = (Exc AttributeError, st')
    /\ stdout st' = stdout initial_state.
Proof.
  apply (odd_mountpoint_ends_the_report example_args
           (list_to_map [("devices", PList [obj [("mountpoint", PList [PStr "/"])]])])
           [obj [("mountpoint", PList [PStr "/"])]] [] initial_state).
  - vm_compute. reflexivity.
  - vm_compute. reflexivity.
  - reflexivity.
  - constructor. exists (list_to_map [("mountpoint", PList [PStr "/"])]), (PList [PStr "/"]).
    split; [ reflexivity | ]. split; [ vm_compute; reflexivity | ].
    split; [ reflexivity | discriminate ].
Defined.

(** ** The classifier is monotone *)

Lemma SFcompare_ge_trans (z y x : float) :
  float_le x y = true ->
  num_ge (NFloat x) (NFloat z) = true ->
  num_ge (NFloat y) (NFloat z) = true.
Proof.
  unfold float_le, num_ge. cbn [num_compare].
  destruct x as [sx|sx| |sx mx ex], y as [sy|sy| |sy my ey], z as [sz|sz| |sz mz ez];
    cbn [SFcompare]; try discriminate; try reflexivity;
    try (destruct sx; try discriminate; try reflexivity);
    try (destruct sy; try discriminate; try reflexivity);
    try (destruct sz; try discriminate; try reflexivity).
  all: rewrite ?Pos.compare_cont_spec; cbn [Pos.switch_Eq].
  all: repeat match goal with
       | |- context [ ?a ?= ?b ] =>
           lazymatch type of a with
           | Z => destruct (Z.compare_spec a b)
           | positive => destruct (Pos.compare_spec a b)
           end
       end; cbn [CompOpp]; try discriminate; try reflexivity; try lia.
  all: repeat match goal with
       | |- context [ Pos.compare ?a ?b ] => destruct (Pos.compare_spec a b)
       end; cbn [CompOpp Pos.switch_Eq]; try discriminate; try reflexivity; try lia.
Qed.

Lemma digits2_pos_bounds (m : positive) :
  2 ^ (Zpos (digits2_pos m) - 1) <= Zpos m < 2 ^ Zpos (digits2_pos m).
Proof.
  induction m as [p IH|p IH|]; cbn [digits2_pos].
  - rewrite Pos2Z.inj_succ.
    replace (Z.succ (Zpos (digits2_pos p)) - 1) with (Z.succ (Zpos (digits2_pos p) - 1)) by lia.
    rewrite !Z.pow_succ_r by lia. lia.
  - rewrite Pos2Z.inj_succ.
    replace (Z.succ (Zpos (digits2_pos p)) - 1) with (Z.succ (Zpos (digits2_pos p) - 1)) by lia.
    rewrite !Z.pow_succ_r by lia. lia.
  - cbn. lia.
Qed.

Lemma canonical_finite s m e :
  canonical (S754_finite s m e) = true ->
  -1074 <= e /\ Zpos m < 2 ^ 53 /\ (e = -1074 \/ 2 ^ 52 <= Zpos m).
Proof.
  unfold canonical, valid_binary, bounded, canonical_mantissa, fexp, emin, prec, emax.
  intros H. apply andb_true_iff in H. destruct H as [H _].
  apply Z.eqb_eq in H.
  pose proof (digits2_pos_bounds m) as [Hlo Hhi].
  set (d := Zpos (digits2_pos m)) in *.
  assert (Hd : 0 < d) by (unfold d; lia).
  assert (Hcases : (d = 53 /\ -1074 <= e) \/ (e = -1074 /\ d <= 53)) by lia.
  destruct Hcases as [[Hd53 He] | [He Hd53]].
  - rewrite Hd53 in *. change (53 - 1) with 52 in Hlo. split; [ lia | ]. split; [ lia | ].
    right. exact Hlo.
  - split; [ lia | ]. split; [ | left; exact He ].
    assert (Hpow : 2 ^ d <= 2 ^ 53) by (apply Z.pow_le_mono_r; lia). lia.
Qed.

Lemma finite_ge_int s m e z K :
  0 <= K -> 0 <= e + K ->
  num_ge (NFloat (S754_finite s m e)) (NInt z) = true
  <-> z * 2 ^ K <= cond_Zopp s (Zpos m) * 2 ^ (e + K).
Proof.
  intros HK HeK. unfold num_ge. cbn [num_compare float_compare_Z].
  set (v := cond_Zopp s (Zpos m)).
  destruct (0 <=? e) eqn:He.
  - apply Z.leb_le in He.
    rewrite (Z.pow_add_r 2 e K) by lia.
    assert (HpK : 0 < 2 ^ K) by (apply Z.pow_pos_nonneg; lia).
    rewrite Z.mul_assoc.
    destruct (Z.compare_spec (v * 2 ^ e) z) as [Heq | Hlt | Hgt]; split; intros H;
      try reflexivity; try discriminate; try nia.
  - apply Z.leb_gt in He.
    assert (HK' : 2 ^ K = 2 ^ (- e) * 2 ^ (e + K)).
    { rewrite <- Z.pow_add_r by lia. f_equal. lia. }
    assert (Hp : 0 < 2 ^ (e + K)) by (apply Z.pow_pos_nonneg; lia).
    rewrite HK', Z.mul_assoc.
    destruct (Z.compare_spec v (z * 2 ^ (- e))) as [Heq | Hlt | Hgt]; split; intros H;
      try reflexivity; try discriminate; try nia.
Qed.

Lemma magnitude_le mx ex my ey K :
  canonical (S754_finite false mx ex) = true ->
  canonical (S754_finite false my ey) = true ->
  ex < ey \/ (ex = ey /\ (mx <= my)%positive) ->
  0 <= ex + K ->
  Zpos mx * 2 ^ (ex + K) <= Zpos my * 2 ^ (ey + K).
Proof.
  intros Hx Hy Hle HK.
  apply canonical_finite in Hx. apply canonical_finite in Hy.
  destruct Hx as (Hex & Hmx & _). destruct Hy as (Hey & _ & Hmy).
  assert (Hp : 0 < 2 ^ (ex + K)) by (apply Z.pow_pos_nonneg; lia).
  destruct Hle as [Hlt | [-> Hm]].
  - destruct Hmy as [-> | Hmy]; [ exfalso; clear - Hex Hlt; lia | ].
    replace (ey + K) with (Z.succ (ey - ex - 1) + (ex + K)) by lia.
    rewrite (Z.pow_add_r 2 (Z.succ (ey - ex - 1)) (ex + K)), Z.pow_succ_r by lia.
    assert (Hq : 0 < 2 ^ (ey - ex - 1)) by (apply Z.pow_pos_nonneg; lia).
    change (2 ^ 53) with 9007199254740992 in Hmx.
    change (2 ^ 52) with 4503599627370496 in Hmy.
    set (P := 2 ^ (ex + K)) in *. set (Q := 2 ^ (ey - ex - 1)) in *.
    assert (H1 : Zpos mx * P <= (2 * Zpos my) * P)
      by (apply Z.mul_le_mono_nonneg_r; lia).
    assert (H2 : (2 * Zpos my) * P * 1 <= (2 * Zpos my) * P * Q)
      by (apply Z.mul_le_mono_nonneg_l; nia).
    nia.
  - nia.
Qed.

Lemma float_le_finite sx mx ex sy my ey :
  float_le (S754_finite sx mx ex) (S754_finite sy my ey) = true ->
  match sx, sy with
  | true, false => True
  | false, true => False
  | false, false => ex < ey \/ (ex = ey /\ (mx <= my)%positive)
  | true, true => ey < ex \/ (ey = ex /\ (my <= mx)%positive)
  end.
Proof.
  unfold float_le. cbn [SFcompare]. rewrite Pos.compare_cont_spec. cbn [Pos.switch_Eq].
  destruct sx, sy; try discriminate; try (intros _; exact I);
    destruct (Z.compare_spec ex ey) as [Heq | Hlt | Hgt];
    destruct (Pos.compare_spec mx my) as [Hm | Hm | Hm]; cbn [CompOpp];
    try discriminate; intros _; try (left; lia); right; split; try lia.
Qed.

Lemma int_ge_trans (z : Z) (x y : float) :
  canonical x = true -> canonical y = true ->
  float_le x y = true ->
  num_ge (NFloat x) (NInt z) = true ->
  num_ge (NFloat y) (NInt z) = true.
Proof.
  intros Hx Hy Hle Hge.
  destruct x as [sx|sx| |sx mx ex].
  - (* x is a zero *)
    assert (Hz : z <= 0).
    { unfold num_ge in Hge. cbn [num_compare float_compare_Z] in Hge.
      destruct (Z.compare_spec 0 z); try discriminate; lia. }
    destruct y as [sy|sy| |sy my ey]; try discriminate.
    + exact Hge.
    + destruct sy; [ discriminate | reflexivity ].
    + destruct sy; [ discriminate | ].
      apply (finite_ge_int false my ey z (Z.max 0 (- ey))); try lia.
      cbn [cond_Zopp].
      assert (Hp : 0 < 2 ^ (ey + Z.max 0 (- ey))) by (apply Z.pow_pos_nonneg; lia).
      assert (Hk : 0 < 2 ^ Z.max 0 (- ey)) by (apply Z.pow_pos_nonneg; lia).
      nia.
  - (* x is infinite *)
    destruct sx; [ discriminate | ].
    destruct y as [sy|sy| |sy my ey]; try discriminate.
    destruct sy; [ discriminate | reflexivity ].
  - discriminate.
  - destruct y as [sy|sy| |sy my ey]; try discriminate.
    + (* y is a zero *)
      destruct sx; [ | discriminate ].
      apply (finite_ge_int true mx ex z (Z.max 0 (- ex))) in Hge; try lia.
      cbn [cond_Zopp] in Hge.
      assert (Hp : 0 < 2 ^ (ex + Z.max 0 (- ex))) by (apply Z.pow_pos_nonneg; lia).
      assert (Hk : 0 < 2 ^ Z.max 0 (- ex)) by (apply Z.pow_pos_nonneg; lia).
      unfold num_ge. cbn [num_compare float_compare_Z].
      destruct (Z.compare_spec 0 z); try reflexivity. nia.
    + destruct sy; [ destruct sx; discriminate | reflexivity ].
    + (* both are finite *)
      set (K := Z.max 0 (Z.max (- ex) (- ey))).
      apply (finite_ge_int sx mx ex z K) in Hge; try (unfold K; lia).
      apply (finite_ge_int sy my ey z K); try (unfold K; lia).
      apply float_le_finite in Hle.
      assert (Hpx : 0 < 2 ^ (ex + K)) by (apply Z.pow_pos_nonneg; unfold K; lia).
      assert (Hpy : 0 < 2 ^ (ey + K)) by (apply Z.pow_pos_nonneg; unfold K; lia).
      destruct sx, sy; cbn [cond_Zopp] in *.
      * pose proof (magnitude_le my ey mx ex K Hy Hx Hle ltac:(unfold K; lia)). lia.
      * nia.
      * contradiction.
      * pose proof (magnitude_le mx ex my ey K Hx Hy Hle ltac:(unfold K; lia)). lia.
Qed.

Lemma num_ge_monotone (x y : float) (t : num) :
  canonical x = true -> canonical y = true ->
  float_le x y = true ->
  num_ge (NFloat x) t = true -> num_ge (NFloat y) t = true.
Proof.
  intros Hx Hy Hle. destruct t as [z|c].
  - apply int_ge_trans; assumption.
  - apply (SFcompare_ge_trans c y x Hle).
Qed.

(** X22. A higher reading never gets a lower severity: for two readings in
    the canonical form of binary64 with [x <= y] and any thresholds, ints or
    floats, the severity [check_threshold] gives [x] is at most the one it
    gives [y]. *)
Theorem check_threshold_is_monotone (x y : float) (warn crit : num) :
  canonical x = true -> canonical y = true ->
  float_le x y = true ->
  fst (check_threshold (NFloat x) warn crit) <= fst (check_threshold (NFloat y) warn crit).
Proof.
  intros Hx Hy Hle. unfold check_threshold.
  pose proof (num_ge_monotone x y crit Hx Hy Hle) as Hcrit.
  pose proof (num_ge_monotone x y warn Hx Hy Hle) as Hwarn.
  destruct (num_ge (NFloat x) crit).
  - rewrite (Hcrit eq_refl). cbn. lia.
  - destruct (num_ge (NFloat x) warn).
    + rewrite (Hwarn eq_refl). destruct (num_ge (NFloat y) crit); cbn; lia.
    + destruct (num_ge (NFloat y) crit); [ cbn; lia | ].
      destruct (num_ge (NFloat y) warn); cbn; lia.
Qed.

Lemma check_threshold_is_monotone_witness :
  fst (check_threshold (NFloat (float_of_decimal false 799 (-1))) (NInt 80) (NInt 95))
  <= fst (check_threshold (NFloat (float_of_decimal false 951 (-1))) (NInt 80) (NInt 95)).
Proof.
  apply (check_threshold_is_monotone (float_of_decimal false 799 (-1))
           (float_of_decimal false 951 (-1)) (NInt 80) (NInt 95));
    vm_compute; reflexivity.
Defined.
